(** * numexpr virtual machine: validator, block driver and evaluation entry

    A shallow embedding of [numexpr/interpreter.cpp].  Bytes, opcodes,
    register numbers, program counters and status codes are integers in
    [Z]; a program, a signature string and a fixed-width string buffer are
    lists of byte values.  Functions that report through the Python error
    indicator return the error as a value. *)

From Stdlib Require Import ZArith List Bool Lia String Permutation.
From stdpp Require Import gmap.
Import ListNotations.
Local Open Scope Z_scope.
Set Warnings "-clear-no-such-hyp".

(** ** Constants and tables of the headers

    [opcodes.hpp], [functions.hpp], [interpreter.hpp] and
    [numexpr_config.hpp] are not part of the translated file; what
    [interpreter.cpp] takes from them is collected here as a parameter of
    the development:  the opcode numbers it names, the lengths of the six
    function tables, the rows of [op_signature_table], the dimension cap
    and the fast-path block size. *)

Class Headers := {
  OP_NOOP : Z;
  OP_REDUCTION : Z;
  OP_SUM : Z;
  OP_PROD : Z;
  OP_END : Z;
  OP_FUNC_FFN : Z;
  OP_FUNC_FFFN : Z;
  OP_FUNC_DDN : Z;
  OP_FUNC_DDDN : Z;
  OP_FUNC_CCN : Z;
  OP_FUNC_CCCN : Z;
  FUNC_FF_LAST : Z;
  FUNC_FFF_LAST : Z;
  FUNC_DD_LAST : Z;
  FUNC_DDD_LAST : Z;
  FUNC_CC_LAST : Z;
  FUNC_CCC_LAST : Z;
  (** [op_signature_table op n], the entry [op_signature_table[op][n]]
      for [0 <= op <= OP_END] and [0 <= n < max_args]. *)
  op_signature_table : Z -> Z -> Z;
  MAX_DIMS : Z;
  BLOCK_SIZE1 : Z
}.

(** The type codes of the signature table, as character values. *)
Definition Tb : Z := 98.   (* 'b' *)
Definition Ti : Z := 105.  (* 'i' *)
Definition Tl : Z := 108.  (* 'l' *)
Definition Tf : Z := 102.  (* 'f' *)
Definition Td : Z := 100.  (* 'd' *)
Definition Tc : Z := 99.   (* 'c' *)
Definition Ts : Z := 115.  (* 's' *)
Definition Tn : Z := 110.  (* 'n' *)
Definition T0 : Z := 0.

(** bit of a misnomer; includes the return value. *)
Definition max_args : Z := 4.

(** A Python byte string: the list of its bytes, each in [0, 255]. *)
Abbreviation PyString := (list Z).

Definition PyString_Size (s : PyString) : Z := Z.of_nat (List.length s).

(** [s[i]] for a C array held in a list: [None] when [i] is outside it,
    where the C read is undefined. *)
Definition byte_at (s : list Z) (i : Z) : option Z :=
  if i <? 0 then None else nth_error s (Z.to_nat i).

Section Machine.
Context {hdr : Headers}.

(** The values array elements and registers hold. *)
Context {value : Type}.

(** The fields of [NumExprObject] that the interpreter reads.  [mem]
    stands for the registers past the operands (the constants, then the
    temporaries), [memsteps] for the address of the stride table. *)
Record NumExprObject := {
  program : PyString;
  signature : PyString;
  fullsig : PyString;
  n_inputs : Z;
  n_constants : Z;
  n_temps : Z;
  mem : list value;
  memsteps : Z;
  memsizes : list Z
}.

(** returns the sig of the nth op, '\0' if no more ops -1 on failure *)
Definition op_signature (op n : Z) : Z :=
  if n >=? max_args then 0
  else if (op <? 0) || (op >? OP_END) then -1
  else op_signature_table op n.

(** The reasons [check_program] gives with [PyErr_Format], with the
    values it formats into the message. *)
Inductive program_error :=
| prog_len_mod_4              (* invalid program: prog_len mod 4 != 0 *)
| too_many_buffers            (* invalid program: too many buffers *)
| reduction_not_last          (* invalid program: reduction operations must occur last *)
| illegal_opcode (pc op : Z)  (* invalid program: illegal opcode at pc (op) *)
| double_opcode_at_end (pc sig : Z)
| buffer_out_of_range (arg argloc : Z)
| funccode_out_of_range (arg argloc : Z)
| internal_checker_error (argloc : Z)
| signature_mismatch (sig bufsig argloc : Z).

(** What a pass of the checker yields: [Passed] for return value 0,
    [Rejected e] for return value -1 with the error [e] set, and
    [ReadPastEnd] where the C code indexes the program outside its bytes. *)
Inductive check_result :=
| Passed
| Rejected (e : program_error)
| ReadPastEnd.

(** The branch [if (sig == 'n')] of [check_program]: the argument is a
    function-table index (or the axis of a reduction). *)
Definition check_funccode (op arg argloc : Z) : check_result :=
  if op =? OP_FUNC_FFN then
    if (arg <? 0) || (arg >=? FUNC_FF_LAST)
    then Rejected (funccode_out_of_range arg argloc) else Passed
  else if op =? OP_FUNC_FFFN then
    if (arg <? 0) || (arg >=? FUNC_FFF_LAST)
    then Rejected (funccode_out_of_range arg argloc) else Passed
  else if op =? OP_FUNC_DDN then
    if (arg <? 0) || (arg >=? FUNC_DD_LAST)
    then Rejected (funccode_out_of_range arg argloc) else Passed
  else if op =? OP_FUNC_DDDN then
    if (arg <? 0) || (arg >=? FUNC_DDD_LAST)
    then Rejected (funccode_out_of_range arg argloc) else Passed
  else if op =? OP_FUNC_CCN then
    if (arg <? 0) || (arg >=? FUNC_CC_LAST)
    then Rejected (funccode_out_of_range arg argloc) else Passed
  else if op =? OP_FUNC_CCCN then
    if (arg <? 0) || (arg >=? FUNC_CCC_LAST)
    then Rejected (funccode_out_of_range arg argloc) else Passed
  else if op >=? OP_REDUCTION then Passed
  else Rejected (internal_checker_error argloc).

(** The checks on one argument once [arg = program[argloc]] is read. *)
Definition check_arg (self : NumExprObject) (op sig arg argloc : Z)
  : check_result :=
  let n_buffers := PyString_Size (fullsig self) in
  if negb (sig =? Tn) && ((arg >=? n_buffers) || (arg <? 0)) then
    Rejected (buffer_out_of_range arg argloc)
  else if sig =? Tn then check_funccode op arg argloc
  else
    let bufsig := nth (Z.to_nat arg) (fullsig self) 0 in
    (* The next is to avoid problems with the ('i','l') duality,
       specially in 64-bit platforms *)
    if ((sig =? Tl) && (bufsig =? Ti)) || ((sig =? Ti) && (bufsig =? Tl))
    then Passed
    else if negb (sig =? bufsig)
    then Rejected (signature_mismatch sig bufsig argloc)
    else Passed.

(** The loop [for (argno = 0; ; argno++)] over the arguments of the
    instruction at [pc].  It runs over [argno = 0, 1, 2, 3]; at
    [argno = max_args] the signature is 0 and the loop breaks, which is
    the empty-list case. *)
Fixpoint check_args (self : NumExprObject) (pc op : Z) (argnos : list Z)
  : check_result :=
  match argnos with
  | [] => Passed
  | argno :: rest =>
    let prog_len := PyString_Size (program self) in
    let sig := op_signature op argno in
    if sig =? -1 then Rejected (illegal_opcode pc op)
    else if sig =? 0 then Passed
    else if (argno >=? 3) && (pc + 1 >=? prog_len)
    then Rejected (double_opcode_at_end pc sig)
    else
      let argloc := if argno <? 3 then pc + argno + 1 else pc + argno + 2 in
      match byte_at (program self) argloc with
      | None => ReadPastEnd
      | Some arg =>
        match check_arg self op sig arg argloc with
        | Passed => check_args self pc op rest
        | r => r
        end
      end
  end.

(** The body of the loop over [pc] for the instruction at [pc]. *)
Definition check_instr (self : NumExprObject) (pc : Z) : check_result :=
  let prog_len := PyString_Size (program self) in
  match byte_at (program self) pc with
  | None => ReadPastEnd
  | Some op =>
    if op =? OP_NOOP then Passed
    else if (op >=? OP_REDUCTION) && negb (pc =? prog_len - 4)
    then Rejected reduction_not_last
    else check_args self pc op [0; 1; 2; 3]
  end.

(** [for (pc = 0; pc < prog_len; pc += 4)] over the list of the values
    [pc] takes. *)
Fixpoint check_instrs (self : NumExprObject) (pcs : list Z) : check_result :=
  match pcs with
  | [] => Passed
  | pc :: rest =>
    match check_instr self pc with
    | Passed => check_instrs self rest
    | r => r
    end
  end.

(** The values of [pc] in [for (pc = 0; pc < prog_len; pc += 4)]. *)
Definition instr_pcs (prog_len : Z) : list Z :=
  map (fun k => 4 * Z.of_nat k) (seq 0 (Z.to_nat ((prog_len + 3) / 4))).

(** [check_program].  The three fields are byte strings here, so the
    branches for a field that cannot be read as a string do not arise. *)
Definition check_program (self : NumExprObject) : check_result :=
  let prog_len := PyString_Size (program self) in
  let n_buffers := PyString_Size (fullsig self) in
  if negb (prog_len mod 4 =? 0) then Rejected prog_len_mod_4
  else if n_buffers >? 255 then Rejected too_many_buffers
  else check_instrs self (instr_pcs prog_len).


(** The six families of function opcodes, each with the length of its
    table. *)
Definition function_families : list (Z * Z) :=
  [(OP_FUNC_FFN, FUNC_FF_LAST); (OP_FUNC_FFFN, FUNC_FFF_LAST);
   (OP_FUNC_DDN, FUNC_DD_LAST); (OP_FUNC_DDDN, FUNC_DDD_LAST);
   (OP_FUNC_CCN, FUNC_CC_LAST); (OP_FUNC_CCCN, FUNC_CCC_LAST)].

(** [self] with another program string. *)
Definition set_program (p : PyString) (self : NumExprObject)
  : NumExprObject :=
  {| program := p; signature := signature self; fullsig := fullsig self;
     n_inputs := n_inputs self; n_constants := n_constants self;
     n_temps := n_temps self; mem := mem self; memsteps := memsteps self;
     memsizes := memsizes self |}.

(** ** Reading the program string *)

(** A byte read through [char *]: plain [char] is signed on the targets
    the extension is built for, so a byte above 127 reads as negative. *)
Definition as_char (b : Z) : Z := if b <? 128 then b else b - 256.


(** The loop of [get_return_sig]: step back one instruction at a time
    from [end_], skipping no-ops; [slots] bounds the number of steps by
    the number of instructions. *)
Fixpoint get_return_sig_loop (program_str : PyString) (end_ : Z) (slots : nat)
  : option Z :=
  match slots with
  | O => None
  | S slots' =>
    let end_ := end_ - 4 in
    if end_ <? 0 then None
    else
      match byte_at program_str end_ with
      | None => None
      | Some b =>
        let last_opcode := as_char b in
        if last_opcode =? OP_NOOP
        then get_return_sig_loop program_str end_ slots'
        else Some last_opcode
      end
  end.

Definition char_X : Z := 88. (* 'X' *)

Definition get_return_sig (program : PyString) : Z :=
  let end_ := PyString_Size program in
  match get_return_sig_loop program end_ (S (Z.to_nat (end_ / 4))) with
  | None => char_X
  | Some last_opcode =>
    let sig := op_signature last_opcode 0 in
    if sig <=? 0 then char_X else sig
  end.

(** NumPy's type numbers, as [typecode_from_char] returns them. *)
Definition PyArray_BOOL : Z := 0.
Definition PyArray_INT : Z := 5.
Definition PyArray_LONGLONG : Z := 9.
Definition PyArray_FLOAT : Z := 11.
Definition PyArray_DOUBLE : Z := 12.
Definition PyArray_CDOUBLE : Z := 15.
Definition PyArray_STRING : Z := 18.

(** [typecode_from_char]; the default case, which also sets a
    [TypeError], is the value -1. *)
Definition typecode_from_char (c : Z) : Z :=
  if c =? Tb then PyArray_BOOL
  else if c =? Ti then PyArray_INT
  else if c =? Tl then PyArray_LONGLONG
  else if c =? Tf then PyArray_FLOAT
  else if c =? Td then PyArray_DOUBLE
  else if c =? Tc then PyArray_CDOUBLE
  else if c =? Ts then PyArray_STRING
  else -1.

(** [last_opcode]: [program[n-4]] through [unsigned char *]; [None]
    where the index falls outside the string. *)
Definition last_opcode (program_object : PyString) : option Z :=
  byte_at program_object (PyString_Size program_object - 4).

(** [get_reduction_axis]: [None] where [program[end-1]] is outside the
    string, that is for the empty program. *)
Definition get_reduction_axis (program : PyString) : option Z :=
  let end_ := PyString_Size program in
  match byte_at program (end_ - 1) with
  | None => None
  | Some axis =>
    Some (if negb (axis =? 255) && (axis >=? MAX_DIMS)
          then MAX_DIMS - axis else axis)
  end.


(** ** Fixed-width string comparison *)

(** A [const char *] is the list of the bytes readable from it on, each
    a number from 0 to 255; the local [null] that the C code points to
    past the end of a string is the one-byte list [[0]].  Reading through
    a pointer with nothing readable behind it gives [None]. *)
Definition null : list Z := [0].

(** The loop of [stringcmp] with [steps] iterations to go, the next one
    at [nextpos].  [*s1] and [*s2] are plain [char] values: the bytes are
    compared as [as_char] reads them. *)
Fixpoint stringcmp_loop (steps : nat) (nextpos : Z) (s1 s2 : list Z)
  (maxlen1 maxlen2 : Z) : option Z :=
  match steps with
  | O => Some 0
  | S steps' =>
    match s1, s2 with
    | b1 :: s1', b2 :: s2' =>
      let c1 := as_char b1 in
      let c2 := as_char b2 in
      if c1 <? c2 then Some (-1)
      else if c1 >? c2 then Some 1
      else
        stringcmp_loop steps' (nextpos + 1)
          (if nextpos >=? maxlen1 then null else s1')
          (if nextpos >=? maxlen2 then null else s2')
          maxlen1 maxlen2
    | _, _ => None
    end
  end.

Definition stringcmp (s1 s2 : list Z) (maxlen1 maxlen2 : Z) : option Z :=
  let maxlen := if maxlen1 >? maxlen2 then maxlen1 else maxlen2 in
  stringcmp_loop (Z.to_nat maxlen) 1 s1 s2 maxlen1 maxlen2.

(** The comparison as the specification words it: both strings padded
    with NUL bytes to the longer width, then compared byte by byte. *)
Definition nul_padded (s : list Z) (width maxlen : Z) : list Z :=
  firstn (Z.to_nat width) s ++ repeat 0 (Z.to_nat (maxlen - width)).

Fixpoint bytewise_compare (a b : list Z) : Z :=
  match a, b with
  | x :: a', y :: b' =>
    if x <? y then -1 else if x >? y then 1 else bytewise_compare a' b'
  | _, _ => 0
  end.

Definition padded_compare (s1 s2 : list Z) (w1 w2 : Z) : Z :=
  let maxlen := Z.max w1 w2 in
  bytewise_compare (nul_padded s1 w1 maxlen) (nul_padded s2 w2 maxlen).

(** The same comparison on the values the bytes have as plain [char]. *)
Definition padded_char_compare (s1 s2 : list Z) (w1 w2 : Z) : Z :=
  let maxlen := Z.max w1 w2 in
  bytewise_compare (map as_char (nul_padded s1 w1 maxlen))
                   (map as_char (nul_padded s2 w2 maxlen)).

(** ** The block interpreter and its drivers *)

(** An array object, as far as the evaluation looks at it: the address
    of its data, its dimensions and its type number. *)
Record PyArrayObject := {
  arr_data : Z;
  arr_dims : list Z;
  arr_typenum : Z;
  arr_elsize : Z;
  arr_writeable : bool
}.

Definition PyArray_SIZE (a : PyArrayObject) : Z :=
  fold_right Z.mul 1 (arr_dims a).

Definition PyArray_NDIM (a : PyArrayObject) : Z :=
  Z.of_nat (List.length (arr_dims a)).

(** [chunks n l]: [l] cut into consecutive pieces of [n] elements, the
    last one shorter when [n] does not divide the length. *)
Fixpoint chunks_upto {A : Type} (pieces : nat) (n : nat) (l : list A)
  : list (list A) :=
  match pieces with
  | O => []
  | S pieces' =>
    match l with
    | [] => []
    | _ => firstn n l :: chunks_upto pieces' n (skipn n l)
    end
  end.

Definition chunks {A : Type} (n : nat) (l : list A) : list (list A) :=
  chunks_upto (List.length l) n l.

(** The elements of [l] at the indices [a <= i < b]. *)
Definition slice {A : Type} (a b : Z) (l : list A) : list A :=
  firstn (Z.to_nat (b - a)) (skipn (Z.to_nat a) l).

(** [l] with the elements from index [a] on overwritten by [new]. *)
Definition splice {A : Type} (a : Z) (new l : list A) : list A :=
  firstn (Z.to_nat a) l ++ new
    ++ skipn (Z.to_nat a + List.length new) l.

(** The element-wise implementation of an opcode below the reduction
    family: the value stored into the destination register for one
    element, from the opcode, its three argument bytes and the element's
    register values. *)
Variable exec_op : Z -> Z -> Z -> Z -> list value -> value.

(** The implementation of an opcode of the reduction family on the
    register values of a whole block: opcode, destination, argument,
    whether the reduction is the inner loop, and the block. *)
Variable exec_reduce :
  Z -> Z -> Z -> bool -> list (list value) -> list (list value).

(** The conversion of a Python integer to an element value, as
    [PyArray_FillWithScalar] does it. *)
Variable of_long : Z -> value.

(** The iterator of the array-iteration service, as far as this file
    uses it.  [it_cells] holds, for each iteration index, the values of
    the operands there (output first, then the inputs), after
    broadcasting: the memory as the iterator presents it.  For a
    reduction several iteration indices present the same output element;
    that sharing is the service's and is not part of this record. *)
Record NpyIter := {
  it_address : Z;                       (* the iterator's own address *)
  it_operand0 : PyArrayObject;          (* NpyIter_GetOperandArray(iter)[0] *)
  it_elsize : list Z;                   (* elsize of NpyIter_GetDescrArray(iter)[i] *)
  it_cells : list (list value);
  it_start : Z;                         (* NpyIter_GetIterIndexRange *)
  it_end : Z;
  it_iternext_errmsg : option string;   (* set when NpyIter_GetIterNext fails *)
  it_reset_ok : bool                    (* whether NpyIter_Reset succeeds *)
}.

Definition NpyIter_GetIterSize (iter : NpyIter) : Z :=
  Z.of_nat (List.length (it_cells iter)).

Definition NpyIter_ResetToIterIndexRange (iter : NpyIter) (istart iend : Z)
  : NpyIter :=
  {| it_address := it_address iter;
     it_operand0 := it_operand0 iter; it_elsize := it_elsize iter;
     it_cells := it_cells iter; it_start := istart; it_end := iend;
     it_iternext_errmsg := it_iternext_errmsg iter;
     it_reset_ok := it_reset_ok iter |}.

Definition set_cells (cells : list (list value)) (iter : NpyIter) : NpyIter :=
  {| it_address := it_address iter;
     it_operand0 := it_operand0 iter; it_elsize := it_elsize iter;
     it_cells := cells; it_start := it_start iter; it_end := it_end iter;
     it_iternext_errmsg := it_iternext_errmsg iter;
     it_reset_ok := it_reset_ok iter |}.

(** Modelled from the spec: the array-iteration service is external.  In
    buffered mode with an external loop it hands out the index range in
    successive blocks of up to [BLOCK_SIZE1] elements (the buffer size
    the iterators are created with), and its inner-loop size reads 0 once
    the range is exhausted. *)
Definition NpyIter_blocks (iter : NpyIter) : list (list (list value)) :=
  chunks (Z.to_nat BLOCK_SIZE1)
    (slice (it_start iter) (it_end iter) (it_cells iter)).

(** [vm_params], as far as the drivers use it.  [vp_mem] stands for the
    registers past the operands: the constants, then the temporaries. *)
Record vm_params := {
  vp_program : PyString;
  vp_prog_len : Z;
  vp_n_inputs : Z;
  vp_n_constants : Z;
  vp_n_temps : Z;
  vp_mem : list value;
  vp_r_end : Z;
  vp_out_buffer : bool                  (* out_buffer != NULL *)
}.

(** [BOUNDS_CHECK(arg)] with [DO_BOUNDS_CHECK] set: [true] when the macro
    stores [pc] into [*pc_error] and returns -2. *)
Definition BOUNDS_CHECK (params : vm_params) (arg : Z) : bool :=
  arg >=? vp_r_end params.

(** Modelled from the spec: [interp_body.cpp], the text the drivers
    include as the body of their loops, is not part of the translated
    file.  Following sections 3 and 4.3: instructions are taken left to
    right in slots of four bytes, opcode first, then the destination and
    two arguments, a third argument in the slot after; a no-op is
    skipped; an opcode without an operation ends the block with -3; every
    register argument goes through [BOUNDS_CHECK], which ends the block
    with -2; otherwise the opcode's implementation is applied across the
    block.  Registers past the operands start each block as [vp_mem]
    has them (the temporaries are block-local). *)
Definition operand_byte (params : vm_params) (pc n : Z) : Z :=
  nth (Z.to_nat (if n <? 3 then pc + n + 1 else pc + n + 2))
      (vp_program params) 0.

Definition has_operation (op : Z) : bool := 0 <? op_signature op 0.

Definition register_args (params : vm_params) (pc op : Z) : list Z :=
  flat_map
    (fun n =>
       let sig := op_signature op n in
       if (sig =? 0) || (sig =? Tn) then [] else [operand_byte params pc n])
    [0; 1; 2; 3].

Definition exec_instr (inner_loop : bool) (op store_in arg1 arg2 arg3 : Z)
  (rows : list (list value)) : list (list value) :=
  if op >? OP_REDUCTION then exec_reduce op store_in arg1 inner_loop rows
  else
    map (fun row =>
           <[Z.to_nat store_in := exec_op op arg1 arg2 arg3 row]> row) rows.

Fixpoint interp_instrs (params : vm_params) (inner_loop : bool)
  (pcs : list Z) (pc_error : Z) (rows : list (list value))
  : Z * Z * list (list value) :=
  match pcs with
  | [] => (0, pc_error, rows)
  | pc :: rest =>
    let op := nth (Z.to_nat pc) (vp_program params) 0 in
    if op =? OP_NOOP then interp_instrs params inner_loop rest pc_error rows
    else if negb (has_operation op) then (-3, pc, rows)
    else if existsb (BOUNDS_CHECK params) (register_args params pc op)
    then (-2, pc, rows)
    else
      interp_instrs params inner_loop rest pc_error
        (exec_instr inner_loop op (operand_byte params pc 0)
           (operand_byte params pc 1) (operand_byte params pc 2)
           (operand_byte params pc 3) rows)
  end.

(** A program no instruction of which is of the reduction family. *)
Definition plain_program (params : vm_params) : bool :=
  forallb (fun pc => nth (Z.to_nat pc) (vp_program params) 0 <=? OP_REDUCTION)
          (instr_pcs (vp_prog_len params)).

(** One inclusion of the body: the first [BLOCK_SIZE] elements of the
    block the iterator presents are run through the program; with output
    buffering the output is copied back only when the program completes. *)
Definition interp_body (params : vm_params)
  (inner_loop no_output_buffering : bool) (BLOCK_SIZE : Z)
  (block : list (list value)) (pc_error : Z) : Z * Z * list (list value) :=
  let n := Z.to_nat BLOCK_SIZE in
  let rows := map (fun cell => cell ++ vp_mem params) (firstn n block) in
  let '(r, pc_error', rows') :=
    interp_instrs params inner_loop (instr_pcs (vp_prog_len params))
      pc_error rows in
  let buffered := negb no_output_buffering && vp_out_buffer params in
  let write_back (cell row' : list value) : list value :=
    let cell' := firstn (List.length cell) row' in
    if buffered && (r <? 0) then firstn 1 cell ++ skipn 1 cell' else cell' in
  (r, pc_error',
   map (fun cr => write_back (fst cr) (snd cr))
       (combine (firstn n block) rows')
   ++ skipn n block).

(** The two loops of [vm_engine_iter_task] and of
    [vm_engine_iter_outer_reduce_task], over the blocks the iterator has
    left; the head of the list is the block [iter_dataptr] points to and
    its length is [*size_ptr].  Each returns the status, [*pc_error] and
    the blocks as the loop leaves them. *)

(** [while (block_size == BLOCK_SIZE1) { body; iternext(iter); ... }];
    the last component of the result is what is left for the second loop. *)
Fixpoint fixed_size_loop (params : vm_params)
  (inner_loop no_output_buffering : bool)
  (blocks : list (list (list value))) (pc_error : Z)
  : Z * Z * list (list (list value)) * list (list (list value)) :=
  match blocks with
  | [] => (0, pc_error, [], [])
  | block :: rest =>
    if Z.of_nat (List.length block) =? BLOCK_SIZE1 then
      let '(r, pc_error', block') :=
        interp_body params inner_loop no_output_buffering BLOCK_SIZE1
          block pc_error in
      if r <? 0 then (r, pc_error', block' :: rest, [])
      else
        let '(r', pc_error'', finished, pending) :=
          fixed_size_loop params inner_loop no_output_buffering rest
            pc_error' in
        (r', pc_error'', block' :: finished, pending)
    else (0, pc_error, [], blocks)
  end.

(** [do { body } while (iternext(iter))], with [block_size] as it was
    read before the loop. *)
Fixpoint remainder_loop (params : vm_params)
  (inner_loop no_output_buffering : bool) (block_size : Z)
  (blocks : list (list (list value))) (pc_error : Z)
  : Z * Z * list (list (list value)) :=
  match blocks with
  | [] => (0, pc_error, [])
  | block :: rest =>
    let '(r, pc_error', block') :=
      interp_body params inner_loop no_output_buffering block_size
        block pc_error in
    if r <? 0 then (r, pc_error', block' :: rest)
    else
      let '(r', pc_error'', finished) :=
        remainder_loop params inner_loop no_output_buffering block_size
          rest pc_error' in
      (r', pc_error'', block' :: finished)
  end.

Definition engine_loops (params : vm_params)
  (inner_loop no_output_buffering : bool)
  (blocks : list (list (list value))) (pc_error : Z)
  : Z * Z * list (list (list value)) :=
  let '(r, pc_error', finished, pending) :=
    fixed_size_loop params inner_loop no_output_buffering blocks pc_error in
  if r <? 0 then (r, pc_error', finished)
  else
    let block_size :=
      match pending with
      | [] => 0
      | block :: _ => Z.of_nat (List.length block)
      end in
    if block_size >? 0 then
      let '(r', pc_error'', finished') :=
        remainder_loop params inner_loop no_output_buffering block_size
          pending pc_error' in
      (r', pc_error'', finished ++ finished')
    else (0, pc_error', finished ++ pending).

Definition engine_on_iter (params : vm_params)
  (inner_loop no_output_buffering : bool) (iter : NpyIter) (pc_error : Z)
  : Z * Z * option string * NpyIter :=
  match it_iternext_errmsg iter with
  | Some msg => (-1, pc_error, Some msg, iter)
  | None =>
    let '(r, pc_error', blocks') :=
      engine_loops params inner_loop no_output_buffering
        (NpyIter_blocks iter) pc_error in
    (r, pc_error', None,
     set_cells (splice (it_start iter) (concat blocks') (it_cells iter)) iter)
  end.

(** Serial/parallel task iterator version of the VM engine *)
Definition vm_engine_iter_task (iter : NpyIter) (params : vm_params)
  (pc_error : Z) : Z * Z * option string * NpyIter :=
  engine_on_iter params true false iter pc_error.

Definition vm_engine_iter_outer_reduce_task (iter : NpyIter)
  (params : vm_params) (pc_error : Z) : Z * Z * option string * NpyIter :=
  engine_on_iter params false true iter pc_error.

(** *** Allocation of the per-thread copies *)

(** The live allocations (iterators and [memsteps] tables, by address),
    the next address the allocator hands out, and the invalid accesses
    made so far: the addresses that were released or read through while
    they were not live, latest first.  The process need not survive an
    invalid access; what a run computes after one has no meaning. *)
Record heap := {
  live : gset Z;
  next_address : Z;
  invalid : list Z
}.

Definition NULL : Z := 0.

(** Which of the allocations of [vm_engine_iter_parallel] succeed, by the
    thread index they are made for. *)
Record alloc_outcomes := {
  NpyIter_Copy_ok : Z -> bool;
  PyMem_New_ok : Z -> bool
}.

Definition allocate (hp : heap) : Z * heap :=
  (next_address hp,
   {| live := live hp ∪ {[ next_address hp ]};
      next_address := next_address hp + 1;
      invalid := invalid hp |}).

Definition fault (p : Z) (hp : heap) : heap :=
  {| live := live hp; next_address := next_address hp;
     invalid := p :: invalid hp |}.

(** Reading through the address [p]. *)
Definition access (p : Z) (hp : heap) : heap :=
  if bool_decide (p ∈ live hp) then hp else fault p hp.

(** Releasing the allocation at [p]; releasing what is not live is an
    invalid access. *)
Definition release (p : Z) (hp : heap) : heap :=
  if bool_decide (p ∈ live hp) then
    {| live := live hp ∖ {[ p ]}; next_address := next_address hp;
       invalid := invalid hp |}
  else fault p hp.

Definition NpyIter_Copy (oc : alloc_outcomes) (i : Z) (hp : heap)
  : option Z * heap :=
  if NpyIter_Copy_ok oc i then
    let '(p, hp') := allocate hp in (Some p, hp')
  else (None, hp).

Definition NpyIter_Deallocate (p : Z) (hp : heap) : heap := release p hp.

Definition PyMem_New (oc : alloc_outcomes) (i : Z) (hp : heap)
  : option Z * heap :=
  if PyMem_New_ok oc i then
    let '(p, hp') := allocate hp in (Some p, hp')
  else (None, hp).

Definition PyMem_Del (p : Z) (hp : heap) : heap := release p hp.

(** [for (; i > 0; --i) free(slot[i])], entered with [i] the index of the
    last slot filled: the slots above slot 0, last first. *)
Definition release_down (free : Z -> heap -> heap) (slots : list Z)
  (hp : heap) : heap :=
  fold_left (fun hp p => free p hp) (rev (skipn 1 slots)) hp.

(** [for (i = 0; i < gs.nthreads; ++i) NpyIter_Deallocate(th_params.iter[i])] *)
Definition release_all (free : Z -> heap -> heap) (slots : list Z)
  (hp : heap) : heap :=
  fold_left (fun hp p => free p hp) slots hp.

(** Make one copy for each additional thread.  [th_iter] is
    [th_params.iter] up to the slot being filled; a failed copy releases
    the copies made and gives [None]. *)
Fixpoint copy_iterators (oc : alloc_outcomes) (threads : list Z)
  (th_iter : list Z) (hp : heap) : option (list Z) * heap :=
  match threads with
  | [] => (Some th_iter, hp)
  | i :: rest =>
    match NpyIter_Copy oc i hp with
    | (Some p, hp1) => copy_iterators oc rest (th_iter ++ [p]) hp1
    | (None, hp1) => (None, release_down NpyIter_Deallocate th_iter hp1)
    end
  end.

(** Make one copy of memsteps for each additional thread.  A failed
    allocation releases the tables made, then the iterators of all
    [gs.nthreads] slots. *)
Fixpoint copy_memsteps (oc : alloc_outcomes) (threads : list Z)
  (th_iter th_memsteps : list Z) (hp : heap) : option (list Z) * heap :=
  match threads with
  | [] => (Some th_memsteps, hp)
  | i :: rest =>
    match PyMem_New oc i hp with
    | (Some p, hp1) =>
      copy_memsteps oc rest th_iter (th_memsteps ++ [p]) hp1
    | (None, hp1) =>
      (None,
       release_all NpyIter_Deallocate th_iter
         (release_down PyMem_Del th_memsteps hp1))
    end
  end.

(** The thread indices [1 <= i < gs.nthreads]. *)
Definition additional_threads (nthreads : Z) : list Z :=
  map Z.of_nat (seq 1 (Z.to_nat nthreads - 1)).

(** *** The parallel section *)

Definition with_out_buffer (b : bool) (params : vm_params) : vm_params :=
  {| vp_program := vp_program params; vp_prog_len := vp_prog_len params;
     vp_n_inputs := vp_n_inputs params;
     vp_n_constants := vp_n_constants params;
     vp_n_temps := vp_n_temps params; vp_mem := vp_mem params;
     vp_r_end := vp_r_end params; vp_out_buffer := b |}.

(** Modelled from the spec: the array-iteration service is external.
    What [NpyIter_Copy] makes at the address [p]: an iterator over the
    same operands and the same memory, with a position and an index range
    of its own. *)
Definition NpyIter_copy_at (p : Z) (iter : NpyIter) : NpyIter :=
  {| it_address := p;
     it_operand0 := it_operand0 iter; it_elsize := it_elsize iter;
     it_cells := it_cells iter; it_start := it_start iter;
     it_end := it_end iter;
     it_iternext_errmsg := it_iternext_errmsg iter;
     it_reset_ok := it_reset_ok iter |}.

(** [th_params.iter] as iterators: slot 0 is the caller's iterator, each
    slot after it the copy at the address the slot holds. *)
Definition thread_iterators (iter : NpyIter) (th_iter : list Z)
  : list NpyIter :=
  iter :: map (fun p => NpyIter_copy_at p iter) (skipn 1 th_iter).

(** Modelled from the spec: the worker threads are in [module.cpp], which
    is not part of the translated file.  Following section 4.5, the index
    range from [th_params.start] to [th_params.vlen] is cut into tasks of
    [th_params.block_size] indices; the worker with index [tid] resets
    its own iterator [th_params.iter[tid]] to the range of a task, runs
    the sequential driver on it with its own stride table
    [th_params.memsteps[tid]], temporaries and output buffer, and takes
    another task; the first failure is the result of the engine.  The
    iterators of all the threads present the same arrays, so what a task
    writes is seen through every one of them; the tasks touch disjoint
    index ranges, so a run of the threads is given by its turns
    [(tid, t)] in the order in which they take effect: thread [tid] ran
    task [t].  A turn of a thread whose slot holds no iterator or no
    stride table ends the run with -1. *)
Definition task_range (start vlen block_size : Z) (t : nat) : Z * Z :=
  let istart := start + Z.of_nat t * block_size in
  (istart, Z.min (istart + block_size) vlen).

Definition task_count (start vlen block_size : Z) : nat :=
  Z.to_nat ((vlen - start + block_size - 1) / block_size).

Fixpoint run_tasks (params : vm_params) (start vlen block_size : Z)
  (sched : list (nat * nat)) (iters : list NpyIter) (th_memsteps : list Z)
  (cells : list (list value)) (pc_error : Z)
  : Z * Z * option string * list NpyIter * list (list value) :=
  match sched with
  | [] => (0, pc_error, None, iters, cells)
  | (tid, t) :: rest =>
    match iters !! tid, th_memsteps !! tid with
    | Some iter, Some memsteps =>
      let '(istart, iend) := task_range start vlen block_size t in
      let '(r, pc_error1, errmsg, iter1) :=
        vm_engine_iter_task
          (NpyIter_ResetToIterIndexRange (set_cells cells iter) istart iend)
          params pc_error in
      let iters1 := <[tid := iter1]> iters in
      if r <? 0 then (r, pc_error1, errmsg, iters1, it_cells iter1)
      else
        run_tasks params start vlen block_size rest iters1 th_memsteps
          (it_cells iter1) pc_error1
    | _, _ => (-1, pc_error, None, iters, cells)
    end
  end.

(** The process-wide settings of the thread pool that the evaluation
    reads. *)
Record global_state := {
  nthreads : Z;
  force_serial : bool
}.

(** Parallel iterator version of VM engine.  [iter_p] and [memsteps_p]
    are the addresses of the caller's iterator and stride table,
    [errmsg_null] says whether the [errmsg] argument is [NULL].  The two
    rendezvous on [gs.count_threads] order the threads and leave no trace
    in the result; between them the threads take their turns [sched].
    The iterator handed back is the caller's, as thread 0 left it. *)
Definition vm_engine_iter_parallel (gs : global_state) (oc : alloc_outcomes)
  (sched : list (nat * nat)) (iter_p : Z) (iter : NpyIter)
  (params : vm_params)
  (memsteps_p : Z) (need_output_buffering : bool) (pc_error : Z)
  (errmsg_null : bool) (hp : heap)
  : Z * Z * option string * NpyIter * heap :=
  if errmsg_null then (-1, pc_error, None, iter, hp)
  else
    let start := it_start iter in
    let vlen := it_end iter in
    (* Try to make it so each thread gets 16 tasks. *)
    let taskfactor := 16 * BLOCK_SIZE1 * nthreads gs in
    let numblocks := Z.quot (vlen - start + taskfactor - 1) taskfactor in
    let block_size := numblocks * BLOCK_SIZE1 in
    match copy_iterators oc (additional_threads (nthreads gs)) [iter_p] hp with
    | (None, hp1) => (-1, pc_error, None, iter, hp1)
    | (Some th_iter, hp1) =>
      match copy_memsteps oc (additional_threads (nthreads gs)) th_iter
              [memsteps_p] hp1 with
      | (None, hp2) => (-1, pc_error, None, iter, hp2)
      | (Some th_memsteps, hp2) =>
        let '(ret_code, pc_error1, errmsg, iters1, cells1) :=
          run_tasks (with_out_buffer need_output_buffering params)
            start vlen block_size sched (thread_iterators iter th_iter)
            th_memsteps (it_cells iter) pc_error in
        let iter1 := set_cells cells1 (hd iter iters1) in
        (* Deallocate all the iterator and memsteps copies *)
        let hp3 :=
          fold_left
            (fun hp pm => PyMem_Del (snd pm) (NpyIter_Deallocate (fst pm) hp))
            (combine (skipn 1 th_iter) (skipn 1 th_memsteps)) hp2 in
        (ret_code, pc_error1, errmsg, iter1, hp3)
      end
    end.

(** ** The evaluation entry point *)

Inductive exception := RuntimeError | ValueError | TypeError.

(** The Python error indicator: what [PyErr_SetString] or [PyErr_Format]
    stored, the latter with the format and the integers it formats (none
    where the call has no argument after the format), or an error left by
    a NumPy call that failed. *)
Inductive PyErr :=
| PyErr_SetString (e : exception) (msg : string)
| PyErr_Format (e : exception) (fmt : string) (args : list Z)
| PyErr_NumPy.

(** The engines an evaluation can enter; the parallel one with the size
    of the iteration it is entered with. *)
Inductive engine_call :=
| ran_iter_task
| ran_outer_reduce_task
| ran_parallel (itersize : Z)
| ran_const.

(** What an evaluation changes outside its arguments: the error
    indicator, the allocations, and the record [calls] of the engines
    entered, latest first. *)
Record world := {
  err : option PyErr;
  calls : list engine_call;
  allocations : heap
}.

Definition set_err (e : PyErr) (w : world) : world :=
  {| err := Some e; calls := calls w; allocations := allocations w |}.

Definition log_call (c : engine_call) (w : world) : world :=
  {| err := err w; calls := c :: calls w; allocations := allocations w |}.

Definition set_allocations (hp : heap) (w : world) : world :=
  {| err := err w; calls := calls w; allocations := hp |}.

(** A read through the [NULL] pointer. *)
Definition null_dereference (w : world) : world :=
  set_allocations (fault NULL (allocations w)) w.

(** The parts of the array-iteration service and of the array library
    that the entry point calls and that act on more than this file
    models; they are external (section 6). *)

(** [NpyIter_ResetBasePointers(iter, dataptr, &errmsg)]: the inner
    iterator re-pointed at the position [dataptr] of the outer one, with
    the status and the message of a failure. *)
Variable NpyIter_ResetBasePointers :
  NpyIter -> list value -> Z * option string * NpyIter.

(** Whether an array of the given dimensions and type number can be
    allocated, and at which address. *)
Variable PyArray_allocate : list Z -> Z -> option Z.

(** The element size of an array made from a type number; a string
    array made this way has elements of one byte. *)
Definition elsize_of (typenum : Z) : Z :=
  if typenum =? 0 then 1 else if typenum =? 5 then 4
  else if typenum =? 9 then 8 else if typenum =? 11 then 4
  else if typenum =? 12 then 8 else if typenum =? 15 then 16 else 1.

Definition PyArray_SimpleNew (dims : list Z) (typenum : Z)
  : option PyArrayObject :=
  if typenum <? 0 then None
  else
    match PyArray_allocate dims typenum with
    | None => None
    | Some p =>
      Some {| arr_data := p; arr_dims := dims; arr_typenum := typenum;
              arr_elsize := elsize_of typenum; arr_writeable := true |}
    end.

(** [PyArray_FromArray(a, dtype, NPY_ALIGNED|NPY_UPDATEIFCOPY)] *)
Variable PyArray_FromArray : PyArrayObject -> Z -> option PyArrayObject.

(** The value of the single element of an array of size 1. *)
Variable PyArray_item : PyArrayObject -> value.

Definition params_of (self : NumExprObject) : vm_params :=
  {| vp_program := program self;
     vp_prog_len := PyString_Size (program self);
     vp_n_inputs := n_inputs self;
     vp_n_constants := n_constants self;
     vp_n_temps := n_temps self;
     vp_mem := mem self;
     vp_r_end := PyString_Size (fullsig self);
     vp_out_buffer := false |}.

(** The positions an iterator without external loop steps through: the
    operand values at each index of its range. *)
Definition NpyIter_positions (iter : NpyIter) : list (list value) :=
  slice (it_start iter) (it_end iter) (it_cells iter).

(** [do { r = NpyIter_ResetBasePointers(inner, dataptr, &errmsg);
         if (r >= 0) r = engine(inner, ...);
         if (r < 0) break; } while (iternext(outer))],
    at the outer position [dataptr] with the positions [more] to come. *)
Fixpoint nested_loop
  (engine : NpyIter -> vm_params -> Z -> Z * Z * option string * NpyIter)
  (call : engine_call) (params : vm_params) (inner : NpyIter)
  (dataptr : list value) (more : list (list value)) (pc_error : Z)
  (w : world) : Z * Z * option string * NpyIter * world :=
  let '(r, errmsg, inner1) := NpyIter_ResetBasePointers inner dataptr in
  let '(r1, pc_error1, errmsg1, inner2, w1) :=
    if r >=? 0 then
      let '(r', pc_error', errmsg', inner') := engine inner1 params pc_error in
      (r', pc_error', match errmsg' with Some m => Some m | None => errmsg end,
       inner', log_call call w)
    else (r, pc_error, errmsg, inner1, w) in
  if r1 <? 0 then (r1, pc_error1, errmsg1, inner2, w1)
  else
    match more with
    | [] => (r1, pc_error1, errmsg1, inner2, w1)
    | dataptr' :: more' =>
      nested_loop engine call params inner2 dataptr' more' pc_error1 w1
    end.

Definition parallel_reduction_message : string :=
  "Parallel engine doesn't support reduction yet".

(** [run_interpreter].  The result is the value returned, [*pc_error],
    the two iterators and the world.  [oc] and [sched] are what the
    allocator and the thread pool do during the call. *)
Definition run_interpreter (gs : global_state) (oc : alloc_outcomes)
  (sched : list (nat * nat)) (self : NumExprObject) (iter : NpyIter)
  (reduce_iter : option NpyIter)
  (reduction_outer_loop need_output_buffering : bool) (w : world)
  : Z * Z * NpyIter * option NpyIter * world :=
  let pc_error := -1 in
  let params := params_of self in
  (* [inl]: a [return] in the middle; [inr]: the end of the branch with
     [r] and [errmsg] *)
  let branch :
    (Z * world) + (Z * Z * option string * NpyIter * option NpyIter * world) :=
    if (nthreads gs =? 1) || force_serial gs then
      (* Can do it as one "task" *)
      match reduce_iter with
      | None =>
        let params := with_out_buffer need_output_buffering params in
        (* Reset the iterator to allocate its buffers *)
        if negb (it_reset_ok iter) then inl (-1, set_err PyErr_NumPy w)
        else
          let '(r, pc_error1, errmsg, iter1) :=
            vm_engine_iter_task iter params pc_error in
          inr (r, pc_error1, errmsg, iter1, None, log_call ran_iter_task w)
      | Some reduce_it =>
        if reduction_outer_loop then
          match it_iternext_errmsg reduce_it with
          | Some _ => inl (-1, set_err PyErr_NumPy w)
          | None =>
            let positions := NpyIter_positions reduce_it in
            let '(r, pc_error1, errmsg, iter1, w1) :=
              nested_loop vm_engine_iter_outer_reduce_task
                ran_outer_reduce_task params iter
                (hd [] positions) (tl positions) pc_error w in
            inr (r, pc_error1, errmsg, iter1, Some reduce_it, w1)
          end
        else
          match it_iternext_errmsg iter with
          | Some _ => inl (-1, set_err PyErr_NumPy w)
          | None =>
            let positions := NpyIter_positions iter in
            let '(r, pc_error1, errmsg, reduce_it1, w1) :=
              nested_loop vm_engine_iter_task ran_iter_task params reduce_it
                (hd [] positions) (tl positions) pc_error w in
            inr (r, pc_error1, errmsg, iter, Some reduce_it1, w1)
          end
      end
    else
      match reduce_iter with
      | None =>
        let '(r, pc_error1, errmsg, iter1, hp1) :=
          vm_engine_iter_parallel gs oc sched (it_address iter) iter params
            (memsteps self) need_output_buffering pc_error false
            (allocations w) in
        inr (r, pc_error1, errmsg, iter1, None,
             log_call (ran_parallel (NpyIter_GetIterSize iter))
               (set_allocations hp1 w))
      | Some reduce_it =>
        inr (-1, pc_error, Some parallel_reduction_message, iter,
             Some reduce_it, w)
      end in
  match branch with
  | inl (r, w1) => (r, pc_error, iter, reduce_iter, w1)
  | inr (r, pc_error1, errmsg, iter1, reduce_iter1, w1) =>
    let w2 :=
      match errmsg with
      | Some msg =>
        if r <? 0 then set_err (PyErr_SetString RuntimeError msg) w1 else w1
      | None => w1
      end in
    (0, pc_error1, iter1, reduce_iter1, w2)
  end.

(** [run_interpreter_const]: one element, straight into [output].  A
    failing block returns its status from inside the included body. *)
Definition run_interpreter_const (self : NumExprObject) (output : value)
  (w : world) : Z * Z * list value * world :=
  let pc_error := -1 in
  if negb (n_inputs self =? 0) then (-1, pc_error, [output], w)
  else
    let '(r, pc_error1, block) :=
      interp_body (params_of self) false true 1 [[output]] pc_error in
    (r, pc_error1, hd [output] block, log_call ran_const w).

(** *** [NumExpr_run] *)

Definition NPY_MAXARGS : Z := 32.
Definition NPY_SAFE_CASTING : Z := 2.
Definition NPY_KEEPORDER : Z := 2.

(** An argument of the call: an array, [None], or another object with
    what [PyArray_FROM_OTF] makes of it ([None] when it fails). *)
Inductive PyObject :=
| Py_Array (a : PyArrayObject)
| Py_None
| Py_Other (converted : option PyArrayObject).

(** The keywords the call looks up.  For [casting] and [order] the
    inner option is the result of the converter, [None] when it rejects
    the value; [kw_ex_uses_vml] says whether the value is [Py_True]. *)
Record kwargs := {
  kw_casting : option (option Z);
  kw_order : option (option Z);
  kw_ex_uses_vml : option bool;
  kw_out : option PyObject
}.

Inductive npy_flag :=
| NPY_ITER_READONLY | NPY_ITER_READWRITE | NPY_ITER_WRITEONLY
| NPY_ITER_ALLOCATE | NPY_ITER_UPDATEIFCOPY | NPY_ITER_NBO
| NPY_ITER_ALIGNED | NPY_ITER_CONTIG | NPY_ITER_NO_BROADCAST
| NPY_ITER_BUFFERED | NPY_ITER_REDUCE_OK | NPY_ITER_RANGED
| NPY_ITER_DELAY_BUFALLOC | NPY_ITER_EXTERNAL_LOOP.

(** A type descriptor: type number and element size. *)
Record PyArray_Descr := {
  type_num : Z;
  elsize : Z
}.

(** The arguments of [NpyIter_AdvancedNew], the itershape left out (it
    is always [NULL]). *)
Record iter_request := {
  rq_operands : list (option PyArrayObject);
  rq_flags : list npy_flag;
  rq_order : Z;
  rq_casting : Z;
  rq_op_flags : list (list npy_flag);
  rq_op_dtypes : list (option PyArray_Descr);
  rq_oa_ndim : Z;
  rq_op_axes : option (list (option (list Z)));
  rq_buffersize : Z
}.

(** The iterator [NpyIter_AdvancedNew] builds, [None] when it fails. *)
Variable NpyIter_AdvancedNew : iter_request -> option NpyIter.

(** The element size of each built-in type; a string descriptor made
    from the type number has size 0. *)
Definition PyArray_DescrFromType (typenum : Z) : option PyArray_Descr :=
  if typenum =? PyArray_BOOL then Some {| type_num := typenum; elsize := 1 |}
  else if typenum =? PyArray_INT then Some {| type_num := typenum; elsize := 4 |}
  else if typenum =? PyArray_LONGLONG then Some {| type_num := typenum; elsize := 8 |}
  else if typenum =? PyArray_FLOAT then Some {| type_num := typenum; elsize := 4 |}
  else if typenum =? PyArray_DOUBLE then Some {| type_num := typenum; elsize := 8 |}
  else if typenum =? PyArray_CDOUBLE then Some {| type_num := typenum; elsize := 16 |}
  else if typenum =? PyArray_STRING then Some {| type_num := typenum; elsize := 0 |}
  else None.

(** [typecode_from_char] with its effect on the error indicator. *)
Definition typecode_from_char_err (c : Z) (w : world) : Z * world :=
  let t := typecode_from_char c in
  (t, if t =? -1
      then set_err (PyErr_SetString TypeError "signature value not in 'bilfdcs'") w
      else w).

(** The keyword part: casting, order, [ex_uses_vml] and [operands[0]].
    [inl] is a [return NULL]. *)
Definition parse_kwds (kwds : option kwargs) (w : world)
  : world + (Z * Z * bool * option PyArrayObject) :=
  match kwds with
  | None => inr (NPY_SAFE_CASTING, NPY_KEEPORDER, false, None)
  | Some k =>
    match kw_casting k with
    | Some None => inl (set_err PyErr_NumPy w)
    | casting_given =>
      let casting :=
        match casting_given with Some (Some c) => c | _ => NPY_SAFE_CASTING end in
      match kw_order k with
      | Some None => inl (set_err PyErr_NumPy w)
      | order_given =>
        let order :=
          match order_given with Some (Some o) => o | _ => NPY_KEEPORDER end in
        match kw_ex_uses_vml k with
        | None =>
          inl (set_err (PyErr_Format ValueError
                          "ex_uses_vml parameter is required" []) w)
        | Some ex_uses_vml =>
          match kw_out k with
          | None | Some Py_None => inr (casting, order, ex_uses_vml, None)
          | Some (Py_Array a) => inr (casting, order, ex_uses_vml, Some a)
          | Some (Py_Other _) =>
            inl (set_err (PyErr_Format ValueError
                            "out keyword parameter is not an array" []) w)
          end
        end
      end
    end
  end.

(** The loop over the inputs: conversion, descriptor, and the test for
    "out" being one of the inputs.  [inl] is a [goto fail].  The test
    reads [PyArray_DATA(operands[i+1])] before [operands[i+1]] is
    compared with [NULL]: with "out" given, a conversion that fails is
    followed by a read through [NULL]. *)
Fixpoint convert_inputs (sig : PyString) (out : option PyArrayObject)
  (args : list PyObject) (need_output_buffering : bool) (w : world)
  : world + (list PyArrayObject * list PyArray_Descr * bool) :=
  match args with
  | [] => inr ([], [], need_output_buffering)
  | o :: args' =>
    let '(typecode, w1) := typecode_from_char_err (hd 0 sig) w in
    let converted : world + option PyArrayObject :=
      match o with
      | Py_Array a => inr (Some a)
      | Py_None => if typecode =? -1 then inl w1 else inr None
      | Py_Other c => if typecode =? -1 then inl w1 else inr c
      end in
    match converted with
    | inl w2 => inl w2
    | inr a =>
      let aliased :=
        match out, a with
        | Some out_array, Some a' => arr_data out_array =? arr_data a'
        | _, _ => false
        end in
      match a, PyArray_DescrFromType typecode with
      | Some a', Some d =>
        match convert_inputs (tl sig) out args'
                (need_output_buffering || aliased) w1 with
        | inl w2 => inl w2
        | inr (operands, dtypes, nob) => inr (a' :: operands, d :: dtypes, nob)
        end
      | Some _, None => inl w1
      | None, _ =>
        let w2 := set_err PyErr_NumPy w1 in
        inl (match out with
             | Some _ => null_dereference w2
             | None => w2
             end)
      end
    end
  end.

Definition input_flags : list npy_flag :=
  [NPY_ITER_READONLY; NPY_ITER_ALIGNED; NPY_ITER_NBO].

(** The entries of [op_axes_values[i+1]] for one input. *)
Definition input_op_axes (oa_ndim reduction_axis : Z) (a : PyArrayObject)
  : list Z :=
  let ndim := PyArray_NDIM a in
  flat_map
    (fun idim =>
       if idim =? reduction_axis then []
       else [if idim <? oa_ndim - ndim then -1 else idim - (oa_ndim - ndim)])
    (map Z.of_nat (seq 0 (Z.to_nat oa_ndim))).

(** [op_axes_reduction_values[i+1]] for one input. *)
Definition input_reduction_axis (oa_ndim reduction_axis : Z)
  (a : PyArrayObject) : Z :=
  let ndim := PyArray_NDIM a in
  if reduction_axis <? oa_ndim - ndim then -1
  else reduction_axis - (oa_ndim - ndim).

Definition reduction_size_of (oa_ndim reduction_axis : Z)
  (operands : list PyArrayObject) : Z :=
  fold_left
    (fun reduction_size a =>
       let ndim := PyArray_NDIM a in
       if reduction_axis <? oa_ndim - ndim then reduction_size
       else
         let size :=
           nth (Z.to_nat (reduction_axis - (oa_ndim - ndim))) (arr_dims a) 0 in
         if size >? reduction_size then size else reduction_size)
    operands 1.

(** What the set-up of the output operand leaves for the rest of the
    call. *)
Record output_setup := {
  os_operand0 : option PyArrayObject;
  os_dtype0 : option PyArray_Descr;
  os_op_flags0 : list npy_flag;
  os_oa_ndim : Z;
  os_op_axes : option (list (option (list Z)));
  os_op_axes_reduction_values : list Z;
  os_reduction_size : Z
}.

(** The branch [if (is_reduction)] that sets up the output operand. *)
Definition reduction_setup (self : NumExprObject)
  (operands0 : option PyArrayObject) (operands : list PyArrayObject)
  (w : world) : world + (output_setup * world) :=
  let retsig := get_return_sig (program self) in
  let reduction_axis :=
    match get_reduction_axis (program self) with Some a => a | None => 0 end in
  let axes : world + (Z * option (list (option (list Z))) * list Z * Z) :=
    if negb (reduction_axis =? 255) then
      (* Get the number of broadcast dimensions *)
      let oa_ndim :=
        fold_left (fun m a => Z.max m (PyArray_NDIM a)) operands 0 in
      if (reduction_axis <? 0) || (reduction_axis >=? oa_ndim) then
        inl (set_err (PyErr_Format ValueError
                        "reduction axis is out of bounds" []) w)
      else
        let op_axes_ptrs :=
          None :: map (fun a => Some (input_op_axes oa_ndim reduction_axis a))
                      operands in
        let op_axes_reduction_values :=
          -1 :: map (input_reduction_axis oa_ndim reduction_axis) operands in
        let reduction_size :=
          reduction_size_of oa_ndim reduction_axis operands in
        (* op_axes has one less than the broadcast dimensions *)
        let oa_ndim := oa_ndim - 1 in
        if oa_ndim >? 0
        then inr (oa_ndim, Some op_axes_ptrs, op_axes_reduction_values,
                  reduction_size)
        else inr (oa_ndim, None, op_axes_reduction_values, 1)
    else inr (0, None, [], 1) in
  match axes with
  | inl w1 => inl w1
  | inr (oa_ndim, op_axes, op_axes_reduction_values, reduction_size) =>
    (* A full reduction can be done without nested iteration *)
    let full : world + (option PyArrayObject * world) :=
      if oa_ndim =? 0 then
        match operands0 with
        | None =>
          let '(t, w1) := typecode_from_char_err retsig w in
          match PyArray_SimpleNew [] t with
          | None => inl (set_err PyErr_NumPy w1)
          | Some a => inr (Some a, w1)
          end
        | Some a =>
          if negb (PyArray_SIZE a =? 1) then
            inl (set_err (PyErr_Format ValueError
                   "out argument must have size 1 for a full reduction" [])
                   w)
          else inr (Some a, w)
        end
      else inr (operands0, w) in
    match full with
    | inl w1 => inl w1
    | inr (operands0', w1) =>
      let '(t, w2) := typecode_from_char_err retsig w1 in
      inr ({| os_operand0 := operands0';
              os_dtype0 := PyArray_DescrFromType t;
              os_op_flags0 :=
                [NPY_ITER_READWRITE; NPY_ITER_ALLOCATE;
                 (* Copy, because it can't buffer the reduction *)
                 NPY_ITER_UPDATEIFCOPY; NPY_ITER_NBO; NPY_ITER_ALIGNED]
                ++ (if oa_ndim =? 0 then [] else [NPY_ITER_NO_BROADCAST]);
              os_oa_ndim := oa_ndim;
              os_op_axes := op_axes;
              os_op_axes_reduction_values := op_axes_reduction_values;
              os_reduction_size := reduction_size |}, w2)
    end
  end.

(** The [else] branch: the output operand of a program without
    reduction. *)
Definition plain_setup (self : NumExprObject)
  (operands0 : option PyArrayObject) (operands : list PyArrayObject)
  (w : world) : world + (output_setup * world) :=
  let retsig := get_return_sig (program self) in
  let '(dtype0, w1) :=
    if negb (retsig =? Ts) then
      let '(t, w1) := typecode_from_char_err retsig w in
      (PyArray_DescrFromType t, w1)
    else
      (* Since the *only* supported operation returning a string is a
         copy, the size of returned strings can be directly gotten from
         the first (and only) input/constant/temporary. *)
      match operands with
      | a :: _ =>
        (Some {| type_num := arr_typenum a; elsize := arr_elsize a |}, w)
      | [] =>
        (Some {| type_num := PyArray_STRING;
                 elsize := nth 1 (memsizes self) 0 |}, w)
      end in
  match dtype0 with
  | None => inl w1
  | Some _ =>
    inr ({| os_operand0 := operands0;
            os_dtype0 := dtype0;
            os_op_flags0 :=
              [NPY_ITER_WRITEONLY; NPY_ITER_ALLOCATE; NPY_ITER_CONTIG;
               NPY_ITER_NBO; NPY_ITER_ALIGNED; NPY_ITER_NO_BROADCAST];
            os_oa_ndim := 0;
            os_op_axes := None;
            os_op_axes_reduction_values := [];
            os_reduction_size := 1 |}, w1)
  end.

(** Check for empty arrays in expression: the first input of size 0. *)
Definition first_empty (operands : list PyArrayObject)
  : option PyArrayObject :=
  List.find (fun a => PyArray_SIZE a =? 0) operands.

(** An iterator that has been created is a live allocation until it is
    deallocated. *)
Definition iterator_created (iter : NpyIter) (w : world) : world :=
  set_allocations
    {| live := live (allocations w) ∪ {[ it_address iter ]};
       next_address := next_address (allocations w);
       invalid := invalid (allocations w) |} w.

(** A call that reads through the iterator, as
    [NpyIter_GetOperandArray(iter)]. *)
Definition iterator_read (iter : NpyIter) (w : world) : world :=
  set_allocations (access (it_address iter) (allocations w)) w.

Definition iterator_deallocated (iter : NpyIter) (w : world) : world :=
  set_allocations (NpyIter_Deallocate (it_address iter) (allocations w)) w.

Definition remove_flag (f : npy_flag) (l : list npy_flag) : list npy_flag :=
  List.filter (fun g => match f, g with
                   | NPY_ITER_NO_BROADCAST, NPY_ITER_NO_BROADCAST => false
                   | _, _ => true
                   end) l.

(** Allocate the iterator or nested iterators.  [inl] is a [goto fail],
    with the iterator made before the failure if there is one. *)
Definition allocate_iterators (order casting : Z)
  (operands : list PyArrayObject) (dtypes : list PyArray_Descr)
  (os : output_setup) (w : world)
  : (option NpyIter * world) + (NpyIter * option NpyIter * bool * world) :=
  let op_flags := os_op_flags0 os :: map (fun _ => input_flags) operands in
  let all_dtypes := os_dtype0 os :: map Some dtypes in
  let all_operands operand0 := operand0 :: map Some operands in
  if os_reduction_size os =? 1 then
    (* When there's no reduction, reduction_size is 1 as well *)
    match NpyIter_AdvancedNew
            {| rq_operands := all_operands (os_operand0 os);
               rq_flags := [NPY_ITER_BUFFERED; NPY_ITER_REDUCE_OK;
                            NPY_ITER_RANGED; NPY_ITER_DELAY_BUFALLOC;
                            NPY_ITER_EXTERNAL_LOOP];
               rq_order := order; rq_casting := casting;
               rq_op_flags := op_flags; rq_op_dtypes := all_dtypes;
               rq_oa_ndim := 0; rq_op_axes := None;
               rq_buffersize := BLOCK_SIZE1 |} with
    | None => inl (None, set_err PyErr_NumPy w)
    | Some iter => inr (iter, None, false, iterator_created iter w)
    end
  else
    (* The outer loop is unbuffered *)
    let op_flags_outer :=
      [NPY_ITER_READWRITE; NPY_ITER_ALLOCATE; NPY_ITER_NO_BROADCAST]
        :: map (fun _ => [NPY_ITER_READONLY]) operands in
    let reduction_axes :=
      Some (map (fun v => Some [v]) (os_op_axes_reduction_values os)) in
    (* Arbitrary threshold for which is the inner loop...benchmark? *)
    if os_reduction_size os <? 64 then
      match NpyIter_AdvancedNew
              {| rq_operands := all_operands (os_operand0 os);
                 rq_flags := [NPY_ITER_BUFFERED; NPY_ITER_RANGED;
                              NPY_ITER_DELAY_BUFALLOC; NPY_ITER_EXTERNAL_LOOP];
                 rq_order := order; rq_casting := casting;
                 rq_op_flags := op_flags; rq_op_dtypes := all_dtypes;
                 rq_oa_ndim := os_oa_ndim os; rq_op_axes := os_op_axes os;
                 rq_buffersize := BLOCK_SIZE1 |} with
      | None => inl (None, set_err PyErr_NumPy w)
      | Some iter =>
        let w1 := iterator_created iter w in
        (* If the output was allocated, get it for the second iterator *)
        let operand0 :=
          match os_operand0 os with
          | None => Some (it_operand0 iter)
          | given => given
          end in
        match NpyIter_AdvancedNew
                {| rq_operands := all_operands operand0;
                   rq_flags := [NPY_ITER_REDUCE_OK];
                   rq_order := order; rq_casting := casting;
                   rq_op_flags :=
                     remove_flag NPY_ITER_NO_BROADCAST (hd [] op_flags_outer)
                       :: tl op_flags_outer;
                   rq_op_dtypes := map (fun _ => None) all_dtypes;
                   rq_oa_ndim := 1; rq_op_axes := reduction_axes;
                   rq_buffersize := 0 |} with
        | None => inl (Some iter, set_err PyErr_NumPy w1)
        | Some reduce_iter =>
          inr (iter, Some reduce_iter, true, iterator_created reduce_iter w1)
        end
      end
    else
      (* If the output is being allocated, need to specify its dtype *)
      let dtypes_outer := os_dtype0 os :: map (fun _ => None) dtypes in
      match NpyIter_AdvancedNew
              {| rq_operands := all_operands (os_operand0 os);
                 rq_flags := [NPY_ITER_RANGED];
                 rq_order := order; rq_casting := casting;
                 rq_op_flags := op_flags_outer; rq_op_dtypes := dtypes_outer;
                 rq_oa_ndim := os_oa_ndim os; rq_op_axes := os_op_axes os;
                 rq_buffersize := 0 |} with
      | None => inl (None, set_err PyErr_NumPy w)
      | Some iter =>
        let w1 := iterator_created iter w in
        let operand0 :=
          match os_operand0 os with
          | None => Some (it_operand0 iter)
          | given => given
          end in
        match NpyIter_AdvancedNew
                {| rq_operands := all_operands operand0;
                   rq_flags := [NPY_ITER_BUFFERED; NPY_ITER_REDUCE_OK;
                                NPY_ITER_DELAY_BUFALLOC;
                                NPY_ITER_EXTERNAL_LOOP];
                   rq_order := order; rq_casting := casting;
                   rq_op_flags :=
                     remove_flag NPY_ITER_NO_BROADCAST (hd [] op_flags)
                       :: tl op_flags;
                   rq_op_dtypes := all_dtypes;
                   rq_oa_ndim := 1; rq_op_axes := reduction_axes;
                   rq_buffersize := BLOCK_SIZE1 |} with
        | None => inl (Some iter, set_err PyErr_NumPy w1)
        | Some reduce_iter =>
          inr (iter, Some reduce_iter, false, iterator_created reduce_iter w1)
        end
      end.

(** [PyArray_FillWithScalar] on the output operand, seen through an
    iterator on it: every index presents the scalar as the output. *)
Definition fill_output (v : value) (iter : NpyIter) : NpyIter :=
  set_cells (map (fun cell => v :: skipn 1 cell) (it_cells iter)) iter.

(** The reduction unit the output is initialized to. *)
Definition reduction_unit (self : NumExprObject) : Z :=
  let op := match last_opcode (program self) with Some op => op | None => 0 end in
  if (op >=? OP_SUM) && (op <? OP_PROD) then 0 else 1.

(** Initialize the output to the reduction unit.  The output array is
    the same object in both iterators. *)
Definition initialize_output (is_reduction : bool) (self : NumExprObject)
  (iter : NpyIter) (reduce_iter : option NpyIter)
  : NpyIter * option NpyIter :=
  if is_reduction then
    let unit := of_long (reduction_unit self) in
    (fill_output unit iter, option_map (fill_output unit) reduce_iter)
  else (iter, reduce_iter).

(** Get the sizes of all the operands *)
Definition set_memsizes (iter : NpyIter) (n_operands : nat)
  (self : NumExprObject) : NumExprObject :=
  {| program := program self; signature := signature self;
     fullsig := fullsig self; n_inputs := n_inputs self;
     n_constants := n_constants self; n_temps := n_temps self;
     mem := mem self; memsteps := memsteps self;
     memsizes := firstn n_operands (it_elsize iter)
                   ++ skipn n_operands (memsizes self) |}.

(** The settings [run_interpreter] is entered with: serial for small
    calculations and for reductions. *)
Definition decide_force_serial (gs : global_state) (is_reduction : bool)
  (iter : NpyIter) : global_state :=
  let gs1 :=
    (* For small calculations, just use 1 thread *)
    if NpyIter_GetIterSize iter <? 2 * BLOCK_SIZE1
    then {| nthreads := nthreads gs; force_serial := true |} else gs in
  (* Reductions do not support parallel execution yet *)
  if is_reduction
  then {| nthreads := nthreads gs1; force_serial := true |} else gs1.

(** The branch [if (r < 0)] after [run_interpreter]: the error each
    status is reported as. *)
Definition report_status (r pc_error : Z) (w : world) : world :=
  if r =? -1 then
    match err w with
    | Some _ => w
    | None =>
      set_err (PyErr_SetString RuntimeError
                 "an error occurred while running the program") w
    end
  else if r =? -2 then
    set_err (PyErr_Format RuntimeError "bad argument at pc=%d" [pc_error]) w
  else if r =? -3 then
    set_err (PyErr_Format RuntimeError "bad opcode at pc=%d" [pc_error]) w
  else
    set_err (PyErr_SetString RuntimeError
               "unknown error occurred while running the program") w.

(** What a call gives back: the object returned ([None] for [NULL]), the
    memory the evaluation worked on as it leaves it, the process-wide
    settings and the world. *)
Record run_result := {
  ret : option PyArrayObject;
  memory : list (list value);
  gs_after : global_state;
  world_after : world
}.

Definition failed (gs : global_state) (w : world) : run_result :=
  {| ret := None; memory := []; gs_after := gs; world_after := w |}.

(** The end of [NumExpr_run], from the return of [run_interpreter] on:
    the report of a negative status, the output taken from the iterator,
    and the iterators deallocated.  Up to the call of [run_interpreter]
    the iterators are live where they are used; from here on the first
    one is what the engine left of it. *)
Definition conclude_run (gs : global_state) (reduction_outer_loop : bool)
  (run : Z * Z * NpyIter * option NpyIter * world) : run_result :=
  let '(r, pc_error, iter, reduce_iter, w) := run in
  let release_both w :=
    let w' := iterator_deallocated iter w in
    match reduce_iter with
    | Some reduce_it => iterator_deallocated reduce_it w'
    | None => w'
    end in
  if r <? 0 then failed gs (release_both (report_status r pc_error w))
  else
    (* Get the output from the iterator *)
    {| ret := Some (it_operand0 iter);
       memory :=
         match reduce_iter with
         | Some reduce_it =>
           if reduction_outer_loop then it_cells iter else it_cells reduce_it
         | None => it_cells iter
         end;
       gs_after := gs;
       world_after := release_both (iterator_read iter w) |}.

(** The part of [NumExpr_run] from the allocation of the iterators on:
    at least one input and none of them empty. *)
Definition evaluate_with_iterators (gs : global_state) (oc : alloc_outcomes)
  (sched : list (nat * nat)) (self : NumExprObject) (is_reduction : bool)
  (order casting : Z) (operands : list PyArrayObject)
  (dtypes : list PyArray_Descr) (need_output_buffering : bool)
  (os : output_setup) (w : world) : run_result :=
  match allocate_iterators order casting operands dtypes os w with
  | inl (None, w1) => failed gs w1
  | inl (Some iter, w1) => failed gs (iterator_deallocated iter w1)
  | inr (iter, reduce_iter, reduction_outer_loop, w1) =>
    let '(iter1, reduce_iter1) :=
      initialize_output is_reduction self iter reduce_iter in
    let self1 := set_memsizes iter1 (S (List.length operands)) self in
    let gs1 := decide_force_serial gs is_reduction iter1 in
    conclude_run gs1 reduction_outer_loop
      (run_interpreter gs1 oc sched self1 iter1 reduce_iter1
         reduction_outer_loop need_output_buffering w1)
  end.

(** A case with a single constant output *)
Definition evaluate_constant (gs : global_state) (self : NumExprObject)
  (os : output_setup) (w : world) : run_result :=
  let retsig := get_return_sig (program self) in
  let output : world + (PyArrayObject * world) :=
    match os_operand0 os with
    | None =>
      let '(t, w1) := typecode_from_char_err retsig w in
      match PyArray_SimpleNew [] t with
      | None => inl (set_err PyErr_NumPy w1)
      | Some a => inr (a, w1)
      end
    | Some a =>
      if negb (PyArray_SIZE a =? 1) then
        inl (set_err (PyErr_SetString ValueError
               "output for a constant expression must have size 1") w)
      else if negb (arr_writeable a) then
        inl (set_err (PyErr_SetString ValueError "output is not writeable") w)
      else
        match PyArray_FromArray a
                (match os_dtype0 os with Some d => type_num d | None => -1 end)
        with
        | None => inl (set_err PyErr_NumPy w)
        | Some a' => inr (a', w)
        end
    end in
  match output with
  | inl w1 => failed gs w1
  | inr (a, w1) =>
    let '(r, pc_error, cell, w2) :=
      run_interpreter_const self (PyArray_item a) w1 in
    {| ret := Some a; memory := [cell]; gs_after := gs; world_after := w2 |}
  end.

(** [NumExpr_run].  A program shorter than one instruction makes
    [last_opcode] read outside the string; 0 stands for what it reads. *)
Definition NumExpr_run (gs : global_state) (oc : alloc_outcomes)
  (sched : list (nat * nat)) (self : NumExprObject) (args : list PyObject)
  (kwds : option kwargs) (w : world) : run_result :=
  (* Don't force serial mode by default *)
  let gs := {| nthreads := nthreads gs; force_serial := false |} in
  (* Check whether there's a reduction as the final step *)
  let is_reduction :=
    match last_opcode (program self) with Some op => op | None => 0 end
    >? OP_REDUCTION in
  let n_inputs := Z.of_nat (List.length args) in
  if negb (PyString_Size (signature self) =? n_inputs) then
    failed gs (set_err (PyErr_Format ValueError
                          "number of inputs doesn't match program" []) w)
  else if n_inputs + 1 >? NPY_MAXARGS then
    failed gs (set_err (PyErr_Format ValueError "too many inputs" []) w)
  else
    match parse_kwds kwds w with
    | inl w1 => failed gs w1
    | inr (casting, order, ex_uses_vml, operands0) =>
      match convert_inputs (signature self) operands0 args false w with
      | inl w1 => failed gs w1
      | inr (operands, dtypes, need_output_buffering) =>
        match (if is_reduction then reduction_setup else plain_setup)
                self operands0 operands w with
        | inl w1 => failed gs w1
        | inr (os, w1) =>
          (* Check for empty arrays in expression *)
          match first_empty operands with
          | Some empty =>
            (* Allocate the output *)
            let '(t, w2) :=
              typecode_from_char_err (get_return_sig (program self)) w1 in
            match PyArray_SimpleNew (arr_dims empty) t with
            | None => failed gs (set_err PyErr_NumPy w2)
            | Some a =>
              {| ret := Some a; memory := []; gs_after := gs;
                 world_after := w2 |}
            end
          | None =>
            if n_inputs =? 0 then evaluate_constant gs self os w1
            else
              evaluate_with_iterators gs oc sched self is_reduction order
                casting operands dtypes need_output_buffering os w1
          end
        end
      end
    end.

End Machine.

Arguments NumExprObject : clear implicits.
Arguments NpyIter : clear implicits.
Arguments vm_params : clear implicits.
Arguments run_result : clear implicits.

(** ** A small instruction set and array service for the examples

    The examples below run the definitions on an instruction set in the
    shape of [opcodes.hpp]: a copy, an addition, the six function
    opcodes, a four-operand selection, and the reduction family with a
    sum and a product, on integer values. *)

Definition sample_signature_table (op n : Z) : Z :=
  let row :=
    match op with
    | 1 => [Td; Td; T0; T0]     (* copy_dd *)
    | 2 => [Td; Td; Td; T0]     (* add_ddd *)
    | 3 => [Tf; Tf; Tn; T0]     (* func_ffn *)
    | 4 => [Tf; Tf; Tf; Tn]     (* func_fffn *)
    | 5 => [Td; Td; Tn; T0]     (* func_ddn *)
    | 6 => [Td; Td; Td; Tn]     (* func_dddn *)
    | 7 => [Tc; Tc; Tn; T0]     (* func_ccn *)
    | 8 => [Tc; Tc; Tc; Tn]     (* func_cccn *)
    | 9 => [Td; Tb; Td; Td]     (* where_dbdd *)
    | 11 => [Td; Td; Tn; T0]    (* sum_ddn *)
    | 12 => [Td; Td; Tn; T0]    (* prod_ddn *)
    | _ => [T0; T0; T0; T0]     (* noop, the reduction mark, the end mark *)
    end in
  nth (Z.to_nat n) row 0.

Definition sample_headers : Headers :=
  {| OP_NOOP := 0; OP_REDUCTION := 10; OP_SUM := 11; OP_PROD := 12;
     OP_END := 13;
     OP_FUNC_FFN := 3; OP_FUNC_FFFN := 4; OP_FUNC_DDN := 5;
     OP_FUNC_DDDN := 6; OP_FUNC_CCN := 7; OP_FUNC_CCCN := 8;
     FUNC_FF_LAST := 19; FUNC_FFF_LAST := 3; FUNC_DD_LAST := 19;
     FUNC_DDD_LAST := 3; FUNC_CC_LAST := 15; FUNC_CCC_LAST := 1;
     op_signature_table := sample_signature_table;
     MAX_DIMS := 32; BLOCK_SIZE1 := 4 |}.

Definition sample_exec_op (op arg1 arg2 arg3 : Z) (regs : list Z) : Z :=
  if op =? 1 then nth (Z.to_nat arg1) regs 0
  else if op =? 2 then nth (Z.to_nat arg1) regs 0 + nth (Z.to_nat arg2) regs 0
  else 0.

Definition sample_exec_reduce (op store_in arg1 : Z) (inner_loop : bool)
  (rows : list (list Z)) : list (list Z) :=
  let total := fold_right Z.add 0 (map (fun row => nth (Z.to_nat arg1) row 0) rows) in
  map (fun row => <[Z.to_nat store_in := nth (Z.to_nat store_in) row 0 + total]> row) rows.

Definition sample_of_long (n : Z) : Z := n.

Definition sample_ResetBasePointers (iter : NpyIter Z) (dataptr : list Z)
  : Z * option string * NpyIter Z := (0, None, iter).

Definition sample_allocate (dims : list Z) (typenum : Z) : option Z :=
  Some 4096.

Definition sample_FromArray (a : PyArrayObject) (typenum : Z)
  : option PyArrayObject := Some a.

Definition sample_item (a : PyArrayObject) : Z := 0.

(** An iterator over one input: index [k] presents the output 0 and the
    input value [k]; the output is the one given or a new array of the
    input's shape. *)
Definition sample_AdvancedNew (rq : iter_request) : option (NpyIter Z) :=
  match rq_operands rq with
  | operand0 :: Some a :: _ =>
    let out :=
      match operand0 with
      | Some o => o
      | None =>
        {| arr_data := 8192; arr_dims := arr_dims a;
           arr_typenum := PyArray_DOUBLE; arr_elsize := 8;
           arr_writeable := true |}
      end in
    let n := Z.to_nat (PyArray_SIZE a) in
    Some {| it_address := 12288; it_operand0 := out; it_elsize := [8; 8];
            it_cells := map (fun k => [0; Z.of_nat k]) (seq 0 n);
            it_start := 0; it_end := Z.of_nat n;
            it_iternext_errmsg := None; it_reset_ok := true |}
  | _ => None
  end.

Definition sample_array (dims : list Z) : PyArrayObject :=
  {| arr_data := 256; arr_dims := dims; arr_typenum := PyArray_DOUBLE;
     arr_elsize := 8; arr_writeable := true |}.

Definition sample_object (program : PyString) : NumExprObject Z :=
  {| program := program; signature := [Td]; fullsig := [Td; Td];
     n_inputs := 1; n_constants := 0; n_temps := 0; mem := [];
     memsteps := 16384; memsizes := [8; 8] |}.

Definition empty_heap : heap :=
  {| live := ∅; next_address := 20480; invalid := [] |}.

Definition sample_world : world :=
  {| err := None; calls := []; allocations := empty_heap |}.

Definition sample_gs (n : Z) : global_state :=
  {| nthreads := n; force_serial := false |}.

Definition all_succeed : alloc_outcomes :=
  {| NpyIter_Copy_ok := fun _ => true; PyMem_New_ok := fun _ => true |}.

(** [NumExpr_run] on the sample service. *)
Definition sample_run (gs : global_state) (sched : list (nat * nat))
  (program : PyString) (args : list PyObject) : run_result Z :=
  NumExpr_run (hdr := sample_headers) sample_exec_op sample_exec_reduce
    sample_of_long sample_ResetBasePointers sample_allocate sample_FromArray
    sample_item sample_AdvancedNew gs all_succeed sched
    (sample_object program) args None sample_world.

(** ** Space for the VM temporary registers *)

(** [malloc] and [free] on the allocations: a failed [malloc] gives
    [NULL], and [free(NULL)] does nothing.  The size asked for,
    [block_size * params.memsizes[r]], only matters to the allocator and
    is part of what decides [ok]. *)
Definition malloc (ok : bool) (hp : heap) : Z * heap :=
  if ok then allocate hp else (NULL, hp).

Definition free (p : Z) (hp : heap) : heap :=
  if p =? NULL then hp else release p hp.

(** The values of [r] in
    [for (r = k; r < k + params.n_temps; r++)], with
    [k = 1 + params.n_inputs + params.n_constants]. *)
Definition temp_registers {value : Type} (params : vm_params value)
  : list Z :=
  let k := 1 + vp_n_inputs params + vp_n_constants params in
  map (fun i => k + Z.of_nat i) (seq 0 (Z.to_nat (vp_n_temps params))).

(** Get space for VM temporary registers.  [mem] is the array of the
    register pointers, [malloc_ok r] says whether the allocation for
    register [r] succeeds; the result is the value returned, [mem] and
    the allocations, or [None] where [mem[r]] is outside the array. *)
Fixpoint get_temps_space_loop (malloc_ok : Z -> bool) (rs : list Z)
  (mem : list Z) (hp : heap) : option (Z * list Z * heap) :=
  match rs with
  | [] => Some (0, mem, hp)
  | r :: rest =>
    if (r <? 0) || (r >=? Z.of_nat (List.length mem)) then None
    else
      let '(p, hp1) := malloc (malloc_ok r) hp in
      let mem1 := <[Z.to_nat r := p]> mem in
      if p =? NULL then Some (-1, mem1, hp1)
      else get_temps_space_loop malloc_ok rest mem1 hp1
  end.

Definition get_temps_space {value : Type} (malloc_ok : Z -> bool)
  (params : vm_params value) (mem : list Z) (hp : heap)
  : option (Z * list Z * heap) :=
  get_temps_space_loop malloc_ok (temp_registers params) mem hp.

(** Free space for VM temporary registers *)
Fixpoint free_temps_space_loop (rs : list Z) (mem : list Z) (hp : heap)
  : option heap :=
  match rs with
  | [] => Some hp
  | r :: rest =>
    match byte_at mem r with
    | None => None
    | Some p => free_temps_space_loop rest mem (free p hp)
    end
  end.

Definition free_temps_space {value : Type} (params : vm_params value)
  (mem : list Z) (hp : heap) : option heap :=
  free_temps_space_loop (temp_registers params) mem hp.

(** * Notions used in the statements *)

(** A list of blocks as the iterator hands them out: full blocks of [n]
    elements, the last one possibly shorter but not empty. *)
Inductive block_shaped {A : Type} (n : nat) : list (list A) -> Prop :=
| block_shaped_nil : block_shaped n []
| block_shaped_last (b : list A) :
    (0 < List.length b <= n)%nat -> block_shaped n [b]
| block_shaped_cons (b : list A) (bl : list (list A)) :
    List.length b = n -> block_shaped n bl -> block_shaped n (b :: bl).

Section Blocks.
Context {hdr : Headers} {value : Type}.
Variable exec_op : Z -> Z -> Z -> Z -> list value -> value.
Variable exec_reduce :
  Z -> Z -> Z -> bool -> list (list value) -> list (list value).

(** The body of [vm_engine_iter_task] on one whole block: its status and
    the block it leaves. *)
Definition body_status (params : vm_params value)
  (block : list (list value)) : Z :=
  fst (fst (interp_body exec_op exec_reduce params true false
              (Z.of_nat (List.length block)) block 0)).

Definition body_result (params : vm_params value)
  (block : list (list value)) : list (list value) :=
  snd (interp_body exec_op exec_reduce params true false
         (Z.of_nat (List.length block)) block 0).

(** The blocks run one after the other, each with its own length as
    [block_size], up to the first failure. *)
Fixpoint run_blocks (params : vm_params value)
  (blocks : list (list (list value))) (pc_error : Z)
  : Z * Z * list (list (list value)) :=
  match blocks with
  | [] => (0, pc_error, [])
  | block :: rest =>
    let '(r, pc_error', block') :=
      interp_body exec_op exec_reduce params true false
        (Z.of_nat (List.length block)) block pc_error in
    if r <? 0 then (r, pc_error', block' :: rest)
    else
      let '(r', pc_error'', finished) := run_blocks params rest pc_error' in
      (r', pc_error'', block' :: finished)
  end.

(** What a task leaves of its index range when every block passes. *)
Definition task_result (params : vm_params value)
  (region : list (list value)) : list (list value) :=
  concat (map (body_result params) (chunks (Z.to_nat BLOCK_SIZE1) region)).

(** The index range cut into the ranges of the tasks, after the tasks of
    [sched] have run in that order. *)
Definition apply_tasks (params : vm_params value) (sched : list nat)
  (regions : list (list (list value))) : list (list (list value)) :=
  fold_left (fun cur t => alter (task_result params) t cur) sched regions.

End Blocks.

(** What stays of an iterator when it is reset to a range or moved on:
    its address, its operands and what its calls report. *)
Definition iterator_identity {value : Type} (iter : NpyIter value)
  : Z * PyArrayObject * list Z * option string * bool :=
  (it_address iter, it_operand0 iter, it_elsize iter,
   it_iternext_errmsg iter, it_reset_ok iter).

(** [th_params.block_size] as [vm_engine_iter_parallel] computes it. *)
Definition parallel_block_size {hdr : Headers} (gs : global_state)
  (start vlen : Z) : Z :=
  Z.quot (vlen - start + 16 * BLOCK_SIZE1 * nthreads gs - 1)
         (16 * BLOCK_SIZE1 * nthreads gs)
  * BLOCK_SIZE1.

(** Where the pointer of [stringcmp] stands after [k] iterations on a
    string of width [w]: inside the string, or on [null] once the width
    is used up. *)
Definition pointer_after (s : list Z) (w : Z) (k : nat) : list Z :=
  if Z.of_nat k <? w then skipn k s else null.

Section ValidatorNotions.
Context {hdr : Headers} {value : Type}.
Implicit Types self : NumExprObject value.

(** One turn of the loop over [argno]: [None] when the loop goes on to
    the next argument, [Some r] when it ends with [r]. *)
Definition check_one self (pc op argno : Z) : option check_result :=
  let prog_len := PyString_Size (program self) in
  let sig := op_signature op argno in
  if sig =? -1 then Some (Rejected (illegal_opcode pc op))
  else if sig =? 0 then Some Passed
  else if (argno >=? 3) && (pc + 1 >=? prog_len)
  then Some (Rejected (double_opcode_at_end pc sig))
  else
    let argloc := if argno <? 3 then pc + argno + 1 else pc + argno + 2 in
    match byte_at (program self) argloc with
    | None => Some ReadPastEnd
    | Some arg =>
      match check_arg self op sig arg argloc with
      | Passed => None
      | r => Some r
      end
    end.

End ValidatorNotions.

(** The allocator hands out addresses that are not live. *)
Definition fresh_heap (hp : heap) : Prop :=
  forall p, p ∈ live hp -> p < next_address hp.

(** An iterator as [sample_AdvancedNew] makes them, over [n] elements. *)
Definition sample_iter (n : nat) : NpyIter Z :=
  {| it_address := 12288;
     it_operand0 := sample_array [Z.of_nat n];
     it_elsize := [8; 8];
     it_cells := map (fun k => [0; Z.of_nat k]) (seq 0 n);
     it_start := 0; it_end := Z.of_nat n;
     it_iternext_errmsg := None; it_reset_ok := true |}.

(** The allocations of a caller: its iterator and its stride table. *)
Definition caller_heap : heap :=
  {| live := {[ 12288; 16384 ]}; next_address := 20480; invalid := [] |}.

(** Two threads; the copy of the iterator for thread 1 is made, the
    stride table for thread 1 cannot be allocated. *)
Definition memsteps_fail : alloc_outcomes :=
  {| NpyIter_Copy_ok := fun _ => true; PyMem_New_ok := fun _ => false |}.

(** The set-up of an evaluation without reduction and without [out]. *)
Definition sample_setup : output_setup :=
  {| os_operand0 := None; os_dtype0 := None; os_op_flags0 := [];
     os_oa_ndim := 0; os_op_axes := None; os_op_axes_reduction_values := [];
     os_reduction_size := 1 |}.

(** [argloc] in [check_program]: where operand [argno] of the
    instruction at [pc] is read. *)
Definition operand_location (pc argno : Z) : Z :=
  if argno <? 3 then pc + argno + 1 else pc + argno + 2.

(** An object whose program is one four-way selection in the last
    instruction, without the instruction that would hold its fourth
    operand. *)
Definition sample_select : NumExprObject Z :=
  {| program := [9; 0; 1; 0]; signature := [Tb]; fullsig := [Td; Tb];
     n_inputs := 1; n_constants := 0; n_temps := 0; mem := [];
     memsteps := 16384; memsizes := [8; 1] |}.

(** An object without input, over the output and one constant, 7. *)
Definition sample_constant_object (program : PyString) : NumExprObject Z :=
  {| program := program; signature := []; fullsig := [Td; Td];
     n_inputs := 0; n_constants := 1; n_temps := 0; mem := [7];
     memsteps := 16384; memsizes := [8; 8] |}.

(** Parameters with one input, no constant and two temporaries: the
    temporaries are the registers 2 and 3. *)
Definition sample_temps_params : vm_params Z :=
  {| vp_program := [2; 2; 1; 1; 2; 0; 2; 2]; vp_prog_len := 8;
     vp_n_inputs := 1; vp_n_constants := 0; vp_n_temps := 2;
     vp_mem := [0; 0]; vp_r_end := 4; vp_out_buffer := false |}.

(** Between the worlds [w] and [w'] no error was set that formats a
    program counter, that is by a [PyErr_Format] with an argument after
    the format: such an error in [w'] was there in [w]. *)
Definition no_pc_report_set (w w' : world) : Prop :=
  forall e fmt pc args,
    err w' = Some (PyErr_Format e fmt (pc :: args)) ->
    err w = Some (PyErr_Format e fmt (pc :: args)).

(** * Properties *)

(** ** Facts on lists *)

Lemma skipn_cons_nth_error {A : Type} (l : list A) (k : nat) (x : A) :
  nth_error l k = Some x -> skipn k l = x :: skipn (S k) l.
Proof.
  revert k; induction l as [|a l IH]; intros [|k] Hk; simpl in Hk;
    try discriminate.
  - injection Hk as ->. reflexivity.
  - exact (IH k Hk).
Qed.

Lemma nth_error_firstn_lt {A : Type} (l : list A) (n k : nat) :
  (k < n)%nat -> nth_error (firstn n l) k = nth_error l k.
Proof.
  revert n k; induction l as [|a l IH]; intros [|n] [|k] Hk; simpl;
    try reflexivity; try lia.
  apply IH; lia.
Qed.

Lemma nth_error_repeat_lt {A : Type} (x : A) (n k : nat) :
  (k < n)%nat -> nth_error (repeat x n) k = Some x.
Proof.
  revert k; induction n as [|n IH]; intros [|k] Hk; simpl; try lia;
    [reflexivity | apply IH; lia].
Qed.

(** ** The reduction axis (C6) *)

Section Axis.
Context {hdr : Headers}.

(** C6.  [get_reduction_axis] reads the last byte of the program: 255 is
    returned as it is, a value below [MAX_DIMS] is returned as it is, and
    any other value [v] is returned as [MAX_DIMS - v]. *)
Theorem get_reduction_axis_last_byte (p : PyString) (v : Z) :
  get_reduction_axis (p ++ [v])
  = Some (if v =? 255 then 255
          else if v <? MAX_DIMS then v else MAX_DIMS - v).
Proof.
  unfold get_reduction_axis, byte_at, PyString_Size.
  rewrite length_app; simpl.
  replace (Z.of_nat (List.length p + 1) - 1) with (Z.of_nat (List.length p))
    by lia.
  destruct (Z.ltb_spec (Z.of_nat (List.length p)) 0) as [Hneg|_]; [lia|].
  rewrite Nat2Z.id, nth_error_app2 by lia.
  rewrite Nat.sub_diag; simpl.
  destruct (Z.eqb_spec v 255) as [->|Hv]; simpl.
  - reflexivity.
  - destruct (Z.geb_spec v MAX_DIMS), (Z.ltb_spec v MAX_DIMS);
      try reflexivity; lia.
Qed.

End Axis.

(** ** Fixed-width string comparison (C7) *)

Lemma pointer_after_step (s : list Z) (w m : Z) (k : nat) :
  0 < w <= Z.of_nat (List.length s) -> w <= m -> Z.of_nat k < m ->
  exists c r,
    pointer_after s w k = c :: r
    /\ skipn k (nul_padded s w m) = c :: skipn (S k) (nul_padded s w m)
    /\ (if Z.of_nat k + 1 >=? w then null else r) = pointer_after s w (S k).
Proof.
  intros Hw Hm Hk. unfold pointer_after, nul_padded.
  destruct (Z.ltb_spec (Z.of_nat k) w) as [Hin|Hout].
  - destruct (nth_error s k) as [c|] eqn:Hc.
    2:{ apply nth_error_None in Hc. lia. }
    exists c, (skipn (S k) s). split; [|split].
    + apply skipn_cons_nth_error, Hc.
    + apply skipn_cons_nth_error.
      rewrite nth_error_app1.
      * rewrite nth_error_firstn_lt by lia. exact Hc.
      * rewrite length_firstn. lia.
    + destruct (Z.geb_spec (Z.of_nat k + 1) w), (Z.ltb_spec (Z.of_nat (S k)) w);
        try reflexivity; lia.
  - exists 0, []. split; [reflexivity|split].
    + apply skipn_cons_nth_error.
      rewrite nth_error_app2 by (rewrite length_firstn; lia).
      apply nth_error_repeat_lt. rewrite length_firstn. lia.
    + destruct (Z.geb_spec (Z.of_nat k + 1) w), (Z.ltb_spec (Z.of_nat (S k)) w);
        try reflexivity; lia.
Qed.

Lemma nul_padded_length (s : list Z) (w m : Z) :
  0 <= w <= Z.of_nat (List.length s) -> w <= m ->
  List.length (nul_padded s w m) = Z.to_nat m.
Proof.
  intros Hw Hm. unfold nul_padded.
  rewrite length_app, length_firstn, repeat_length. lia.
Qed.

Lemma stringcmp_loop_padded (s1 s2 : list Z) (w1 w2 : Z) :
  0 < w1 <= Z.of_nat (List.length s1) ->
  0 < w2 <= Z.of_nat (List.length s2) ->
  forall (n k : nat),
    Z.of_nat (n + k) = Z.max w1 w2 ->
    stringcmp_loop n (Z.of_nat k + 1)
      (pointer_after s1 w1 k) (pointer_after s2 w2 k) w1 w2
    = Some (bytewise_compare
              (map as_char (skipn k (nul_padded s1 w1 (Z.max w1 w2))))
              (map as_char (skipn k (nul_padded s2 w2 (Z.max w1 w2))))).
Proof.
  intros H1 H2. induction n as [|n IH]; intros k Hk.
  - simpl. rewrite !skipn_all2.
    + reflexivity.
    + rewrite nul_padded_length; lia.
    + rewrite nul_padded_length; lia.
  - destruct (pointer_after_step s1 w1 (Z.max w1 w2) k) as (c1 & r1 & P1 & Q1 & N1);
      [lia..|].
    destruct (pointer_after_step s2 w2 (Z.max w1 w2) k) as (c2 & r2 & P2 & Q2 & N2);
      [lia..|].
    rewrite P1, P2, Q1, Q2. cbn [stringcmp_loop bytewise_compare map].
    destruct (as_char c1 <? as_char c2); [reflexivity|].
    destruct (as_char c1 >? as_char c2); [reflexivity|].
    rewrite N1, N2.
    replace (Z.of_nat k + 1 + 1) with (Z.of_nat (S k) + 1) by lia.
    apply IH. lia.
Qed.

(** On widths of at least 1, [stringcmp] is the comparison of the padded
    strings as plain [char] values. *)
Lemma stringcmp_as_chars (s1 s2 : list Z) (w1 w2 : Z) :
  0 < w1 <= Z.of_nat (List.length s1) ->
  0 < w2 <= Z.of_nat (List.length s2) ->
  stringcmp s1 s2 w1 w2 = Some (padded_char_compare s1 s2 w1 w2).
Proof.
  intros H1 H2. unfold stringcmp, padded_char_compare.
  replace (if w1 >? w2 then w1 else w2) with (Z.max w1 w2).
  2:{ destruct (Z.gtb_spec w1 w2); lia. }
  pose proof (stringcmp_loop_padded s1 s2 w1 w2 H1 H2
                (Z.to_nat (Z.max w1 w2)) 0) as L.
  unfold pointer_after in L. change (Z.of_nat 0) with 0 in L.
  rewrite (proj2 (Z.ltb_lt 0 w1)), (proj2 (Z.ltb_lt 0 w2)) in L by lia.
  apply L. lia.
Qed.

(** After the first iteration a width below 1 acts as the width 1: the
    pointer is already on [null]. *)
Lemma stringcmp_loop_widths (w1 w2 : Z) (n : nat) :
  forall (nextpos : Z) (s1 s2 : list Z),
    1 <= nextpos ->
    stringcmp_loop n nextpos s1 s2 w1 w2
    = stringcmp_loop n nextpos s1 s2 (Z.max w1 1) (Z.max w2 1).
Proof.
  induction n as [|n IH]; intros nextpos s1 s2 Hpos; [reflexivity|].
  cbn [stringcmp_loop].
  destruct s1 as [|b1 s1]; [reflexivity|].
  destruct s2 as [|b2 s2]; [reflexivity|].
  cbv zeta.
  destruct (as_char b1 <? as_char b2); [reflexivity|].
  destruct (as_char b1 >? as_char b2); [reflexivity|].
  replace (nextpos >=? Z.max w1 1) with (nextpos >=? w1)
    by (destruct (Z.geb_spec nextpos w1), (Z.geb_spec nextpos (Z.max w1 1));
        reflexivity || lia).
  replace (nextpos >=? Z.max w2 1) with (nextpos >=? w2)
    by (destruct (Z.geb_spec nextpos w2), (Z.geb_spec nextpos (Z.max w2 1));
        reflexivity || lia).
  apply IH. lia.
Qed.

Lemma as_char_below_128 (l : list Z) :
  Forall (fun b => 0 <= b < 128) l -> map as_char l = l.
Proof.
  induction 1 as [|b l Hb _ IH]; [reflexivity|].
  cbn [map]. rewrite IH. unfold as_char.
  destruct (Z.ltb_spec b 128); [reflexivity | lia].
Qed.

Lemma nul_padded_below_128 (s : list Z) (w m : Z) :
  Forall (fun b => 0 <= b < 128) s ->
  Forall (fun b => 0 <= b < 128) (nul_padded s w m).
Proof.
  intros Hs. unfold nul_padded. apply Forall_app. split.
  - apply Forall_take, Hs.
  - apply Forall_forall. intros b Hb.
    apply list_elem_of_In, repeat_spec in Hb. lia.
Qed.



(** The bytes are compared as plain [char]: the byte 128 reads as -128
    and is below "a". *)
Lemma stringcmp_byte_above_127 :
  stringcmp [128] [97] 1 1 = Some (-1)
  /\ padded_char_compare [128] [97] 1 1 = -1.
Proof. repeat split. Qed.


(** ** The validator (C4, C8) *)

Section ValidatorFacts.
Context {hdr : Headers} {value : Type}.
Implicit Types self : NumExprObject value.

Lemma byte_at_Some (s : list Z) (i : Z) :
  0 <= i < Z.of_nat (List.length s) -> exists b, byte_at s i = Some b.
Proof.
  intros Hi. unfold byte_at.
  destruct (Z.ltb_spec i 0); [lia|].
  destruct (nth_error s (Z.to_nat i)) as [b|] eqn:E; [eauto|].
  apply nth_error_None in E. lia.
Qed.

Lemma byte_at_range (s : list Z) (i b : Z) :
  byte_at s i = Some b -> 0 <= i < Z.of_nat (List.length s).
Proof.
  unfold byte_at. destruct (Z.ltb_spec i 0); [discriminate|].
  intros E. assert (nth_error s (Z.to_nat i) <> None) as N by congruence.
  apply nth_error_Some in N. lia.
Qed.

Lemma check_instrs_app self (l1 l2 : list Z) :
  check_instrs self (l1 ++ l2)
  = match check_instrs self l1 with
    | Passed => check_instrs self l2
    | r => r
    end.
Proof.
  induction l1 as [|pc l1 IH]; simpl; [reflexivity|].
  destruct (check_instr self pc); auto.
Qed.

Lemma check_instrs_Passed self (pcs : list Z) :
  check_instrs self pcs = Passed
  <-> Forall (fun pc => check_instr self pc = Passed) pcs.
Proof.
  induction pcs as [|pc pcs IH]; simpl.
  - split; [constructor | reflexivity].
  - split.
    + intros E. destruct (check_instr self pc) eqn:Epc; try discriminate.
      constructor; [exact Epc | apply IH, E].
    + intros F. inversion F as [|? ? Hpc Hrest]; subst.
      rewrite Hpc. apply IH, Hrest.
Qed.

Lemma check_args_cons self (pc op argno : Z) (rest : list Z) :
  check_args self pc op (argno :: rest)
  = match check_one self pc op argno with
    | Some r => r
    | None => check_args self pc op rest
    end.
Proof.
  unfold check_one; cbn [check_args].
  destruct (op_signature op argno =? -1); [reflexivity|].
  destruct (op_signature op argno =? 0); [reflexivity|].
  destruct ((argno >=? 3) && (pc + 1 >=? PyString_Size (program self)));
    [reflexivity|].
  destruct (byte_at (program self) _); [|reflexivity].
  destruct (check_arg self op (op_signature op argno) z _); reflexivity.
Qed.

Lemma check_funccode_no_fault (op arg argloc : Z) :
  check_funccode op arg argloc <> ReadPastEnd.
Proof.
  unfold check_funccode.
  repeat match goal with
         | |- context [if ?b then _ else _] => destruct b
         end; discriminate.
Qed.

Lemma check_arg_no_fault self (op sig arg argloc : Z) :
  check_arg self op sig arg argloc <> ReadPastEnd.
Proof.
  unfold check_arg.
  destruct (negb (sig =? Tn) && _); [discriminate|].
  destruct (sig =? Tn); [apply check_funccode_no_fault|].
  repeat match goal with
         | |- context [if ?b then _ else _] => destruct b
         end; discriminate.
Qed.

Lemma check_one_no_fault self (pc op argno : Z) :
  0 <= pc -> 0 <= argno <= 3 ->
  pc + 5 < PyString_Size (program self) ->
  check_one self pc op argno <> Some ReadPastEnd.
Proof.
  intros Hpc Ha Hlen. unfold check_one.
  destruct (op_signature op argno =? -1); [discriminate|].
  destruct (op_signature op argno =? 0); [discriminate|].
  destruct ((argno >=? 3) && _); [discriminate|].
  destruct (byte_at_Some (program self)
              (if argno <? 3 then pc + argno + 1 else pc + argno + 2))
    as [b Hb].
  { unfold PyString_Size in Hlen. destruct (Z.ltb_spec argno 3); lia. }
  rewrite Hb.
  pose proof (check_arg_no_fault self op (op_signature op argno) b
                (if argno <? 3 then pc + argno + 1 else pc + argno + 2)) as N.
  destruct (check_arg self op _ b _); congruence.
Qed.

Lemma check_instr_no_fault self (pc : Z) :
  0 <= pc -> pc + 5 < PyString_Size (program self) ->
  check_instr self pc <> ReadPastEnd.
Proof.
  intros Hpc Hlen. unfold check_instr.
  destruct (byte_at_Some (program self) pc) as [op Hop].
  { unfold PyString_Size in Hlen. lia. }
  rewrite Hop.
  destruct (op =? OP_NOOP); [discriminate|].
  destruct ((op >=? OP_REDUCTION) && _); [discriminate|].
  rewrite !check_args_cons.
  repeat match goal with
         | |- context [check_one self pc op ?a] =>
           let N := fresh "N" in
           pose proof (check_one_no_fault self pc op a Hpc ltac:(lia) Hlen) as N;
           destruct (check_one self pc op a) as [[]|]; try congruence
         end.
  simpl. discriminate.
Qed.

(** The values of [pc] for a program whose length is a multiple of 4. *)
Lemma instr_pcs_aligned (len : Z) :
  0 <= len -> len mod 4 = 0 ->
  instr_pcs len = map (fun k => 4 * Z.of_nat k) (seq 0 (Z.to_nat (len / 4))).
Proof.
  intros Hlen Hmod. unfold instr_pcs. do 3 f_equal.
  Z.div_mod_to_equations; lia.
Qed.

Lemma instr_pcs_split (len pc : Z) :
  0 <= pc < len -> pc mod 4 = 0 -> len mod 4 = 0 ->
  exists rest,
    instr_pcs len = instr_pcs pc ++ pc :: rest
    /\ Forall (fun p => pc < p) rest.
Proof.
  intros Hpc Hm Hl.
  rewrite (instr_pcs_aligned len), (instr_pcs_aligned pc) by lia.
  assert (0 <= pc / 4 < len / 4 /\ pc = 4 * (pc / 4)) as (Hlt & Hq)
    by (Z.div_mod_to_equations; lia).
  replace (Z.to_nat (len / 4))
    with (Z.to_nat (pc / 4) + S (Z.to_nat (len / 4) - S (Z.to_nat (pc / 4))))%nat
    by lia.
  rewrite seq_app, map_app. simpl.
  eexists. split.
  - f_equal. f_equal. rewrite Z2Nat.id by lia. lia.
  - apply List.Forall_forall. intros p Hin.
    apply in_map_iff in Hin as (k & <- & Hk). apply in_seq in Hk. lia.
Qed.

Lemma instr_pcs_bounds (len pc : Z) :
  In pc (instr_pcs len) -> 0 <= pc /\ pc < len /\ pc mod 4 = 0.
Proof.
  unfold instr_pcs. rewrite in_map_iff. intros (k & <- & Hk).
  apply in_seq in Hk.
  assert (Z.of_nat k < (len + 3) / 4) as Hlt by lia.
  split; [lia|]. split.
  - Z.div_mod_to_equations; lia.
  - rewrite Z.mul_comm. apply Z.mod_mul. lia.
Qed.

Lemma check_instrs_no_fault self (pcs : list Z) :
  Forall (fun pc => 0 <= pc /\ pc + 5 < PyString_Size (program self)) pcs ->
  check_instrs self pcs <> ReadPastEnd.
Proof.
  induction 1 as [|pc pcs [Hpc Hlen] _ IH]; simpl; [discriminate|].
  pose proof (check_instr_no_fault self pc Hpc Hlen).
  destruct (check_instr self pc); congruence.
Qed.

End ValidatorFacts.

Section ReductionPosition.
Context {hdr : Headers} {value : Type}.
Implicit Types self : NumExprObject value.

Lemma check_funccode_not_reduction (op arg argloc : Z) :
  check_funccode op arg argloc <> Rejected reduction_not_last.
Proof.
  unfold check_funccode.
  repeat match goal with
         | |- context [if ?b then _ else _] => destruct b
         end; discriminate.
Qed.

Lemma check_one_not_reduction self (pc op argno : Z) :
  check_one self pc op argno <> Some (Rejected reduction_not_last).
Proof.
  unfold check_one.
  destruct (op_signature op argno =? -1); [discriminate|].
  destruct (op_signature op argno =? 0); [discriminate|].
  destruct ((argno >=? 3) && _); [discriminate|].
  destruct (byte_at (program self) _) as [arg|]; [|discriminate].
  unfold check_arg.
  destruct (negb (op_signature op argno =? Tn) && _); [discriminate|].
  destruct (op_signature op argno =? Tn).
  - pose proof (check_funccode_not_reduction op arg
                  (if argno <? 3 then pc + argno + 1 else pc + argno + 2)).
    destruct (check_funccode op arg _); congruence.
  - repeat match goal with
           | |- context [if ?b then _ else _] => destruct b
           end; discriminate.
Qed.

Lemma check_args_not_reduction self (pc op : Z) (argnos : list Z) :
  check_args self pc op argnos <> Rejected reduction_not_last.
Proof.
  induction argnos as [|argno rest IH]; [discriminate|].
  rewrite check_args_cons.
  pose proof (check_one_not_reduction self pc op argno).
  destruct (check_one self pc op argno); congruence.
Qed.

(** An instruction is refused for its position exactly when it holds an
    opcode of the reduction range, not a no-op, and is not the last. *)
Lemma check_instr_reduction_not_last self (pc : Z) :
  check_instr self pc = Rejected reduction_not_last
  <-> exists op, byte_at (program self) pc = Some op /\ op <> OP_NOOP
                 /\ OP_REDUCTION <= op
                 /\ pc <> PyString_Size (program self) - 4.
Proof.
  unfold check_instr. destruct (byte_at (program self) pc) as [op|].
  2:{ split; [discriminate | intros (? & ? & _); discriminate]. }
  destruct (Z.eqb_spec op OP_NOOP) as [Hn|Hn].
  { split; [discriminate | intros (? & [= <-] & ? & _); contradiction]. }
  destruct (Z.geb_spec op OP_REDUCTION) as [Hr|Hr];
    destruct (Z.eqb_spec pc (PyString_Size (program self) - 4)) as [Hl|Hl];
    cbn [andb negb].
  - split.
    + intros E. exfalso. exact (check_args_not_reduction _ _ _ _ E).
    + intros (? & [= <-] & _ & _ & N). contradiction.
  - split; [|reflexivity]. intros _. exists op. repeat split; auto.
  - split.
    + intros E. exfalso. exact (check_args_not_reduction _ _ _ _ E).
    + intros (? & [= <-] & _ & ? & _). lia.
  - split.
    + intros E. exfalso. exact (check_args_not_reduction _ _ _ _ E).
    + intros (? & [= <-] & _ & ? & _). lia.
Qed.

(** C4, as the code has it.  A program with an opcode of the reduction
    range, other than a no-op, at an instruction position that is not
    the last one is rejected; the reason is "reduction operations must
    occur last" unless a check that comes earlier (the length of the
    program, the number of buffers, an instruction before that position)
    fails first.  A program with no such opcode before its last
    instruction is never rejected for that reason. *)
Theorem check_program_reduction_position self :
  (forall pc op : Z,
      pc mod 4 = 0 ->
      byte_at (program self) pc = Some op ->
      op <> OP_NOOP -> OP_REDUCTION <= op ->
      pc <> PyString_Size (program self) - 4 ->
      (exists e, check_program self = Rejected e)
      /\ (PyString_Size (program self) mod 4 = 0 ->
          PyString_Size (fullsig self) <= 255 ->
          check_instrs self (instr_pcs pc) = Passed ->
          check_program self = Rejected reduction_not_last))
  /\ ((forall pc op : Z,
          pc mod 4 = 0 ->
          byte_at (program self) pc = Some op ->
          pc <> PyString_Size (program self) - 4 ->
          OP_REDUCTION <= op -> op = OP_NOOP) ->
      check_program self <> Rejected reduction_not_last).
Proof.
  split.
  - intros pc op Hal Hop Hn Hr Hl.
    pose proof (byte_at_range _ _ _ Hop) as Hpc.
    fold (PyString_Size (program self)) in Hpc.
    assert (check_instr self pc = Rejected reduction_not_last) as Hpcr.
    { apply check_instr_reduction_not_last. exists op. auto. }
    unfold check_program.
    destruct (Z.eqb_spec (PyString_Size (program self) mod 4) 0) as [Hm|Hm];
      simpl.
    2:{ split; [eauto | contradiction]. }
    destruct (Z.gtb_spec (PyString_Size (fullsig self)) 255) as [Hb|Hb].
    { split; [eauto | lia]. }
    destruct (instr_pcs_split (PyString_Size (program self)) pc)
      as (rest & E & _); [lia | assumption | assumption |].
    rewrite E, check_instrs_app. simpl. rewrite Hpcr.
    split.
    + assert (check_instrs self (instr_pcs pc) <> ReadPastEnd) as N.
      { apply check_instrs_no_fault, List.Forall_forall. intros pc' Hin.
        apply instr_pcs_bounds in Hin.
        revert Hin Hpc Hl Hal Hm. generalize (PyString_Size (program self)).
        intros len. intros. Z.div_mod_to_equations. lia. }
      destruct (check_instrs self (instr_pcs pc)); [eauto | eauto | congruence].
    + intros _ _ ->. reflexivity.
  - intros Hnone. unfold check_program.
    destruct (negb _); [discriminate|].
    destruct (_ >? 255); [discriminate|].
    assert (Forall (fun pc => pc mod 4 = 0)
              (instr_pcs (PyString_Size (program self)))) as Hal.
    { apply List.Forall_forall. intros pc Hin.
      apply instr_pcs_bounds in Hin. tauto. }
    revert Hal. generalize (instr_pcs (PyString_Size (program self))).
    induction 1 as [|pc pcs Hpc _ IH]; simpl; [discriminate|].
    destruct (check_instr self pc) eqn:E; try assumption; try discriminate.
    intros [= ->].
    apply check_instr_reduction_not_last in E as (op & Hop & Hn & Hr & Hl).
    apply Hn. eapply Hnone; eauto.
Qed.

End ReductionPosition.

Section ReductionPositionExamples.
Local Existing Instance sample_headers.

(** Against C4 as stated: a sum opcode stands in the second of three
    instructions, and the program is rejected for the first instruction,
    whose destination 200 is out of range, not for the position of the
    reduction. *)
Lemma reduction_position_other_error :
  let self := sample_object [2; 200; 1; 1; 11; 0; 1; 255; 0; 0; 0; 0] in
  byte_at (program self) 4 = Some 11
  /\ 11 <> OP_NOOP /\ OP_REDUCTION <= 11
  /\ 4 <> PyString_Size (program self) - 4
  /\ check_program self = Rejected (buffer_out_of_range 200 1)
  /\ check_program self <> Rejected reduction_not_last.
Proof.
  vm_compute. repeat split; congruence.
Qed.

Lemma check_program_reduction_position_witness :
  check_program (sample_object [11; 0; 1; 255; 0; 0; 0; 0])
  = Rejected reduction_not_last
  /\ check_program (sample_object [2; 0; 1; 1; 11; 0; 1; 255])
     <> Rejected reduction_not_last.
Proof.
  split.
  - refine (proj2 (proj1 (check_program_reduction_position
                            (sample_object [11; 0; 1; 255; 0; 0; 0; 0])) 0 11
                     _ _ _ _ _) _ _ _);
      first [reflexivity | vm_compute; intros; discriminate].
  - apply (proj2 (check_program_reduction_position
                    (sample_object [2; 0; 1; 1; 11; 0; 1; 255]))).
    intros pc op Hal Hop Hl Hr.
    pose proof (byte_at_range _ _ _ Hop) as R. simpl in R.
    assert (pc = 0 \/ pc = 4) as C by (Z.div_mod_to_equations; lia).
    destruct C as [-> | ->]; vm_compute in Hop; injection Hop as <-;
      first [ exfalso; apply Hl; reflexivity
            | exfalso; apply Hr; reflexivity ].
Defined.

End ReductionPositionExamples.

Section FunctionIndex.
Context {hdr : Headers} {value : Type}.
Implicit Types self : NumExprObject value.

Lemma check_funccode_family (op last arg argloc : Z) :
  NoDup (map fst function_families) ->
  In (op, last) function_families ->
  0 <= arg ->
  check_funccode op arg argloc
  = if arg <? last then Passed
    else Rejected (funccode_out_of_range arg argloc).
Proof.
  unfold function_families; cbn [map fst].
  intros ND Hin Harg.
  repeat match goal with
         | H : NoDup (_ :: _) |- _ => apply NoDup_cons in H; destruct H
         end.
  unfold check_funccode. replace (arg <? 0) with false by lia. cbn [orb].
  destruct Hin as [E|[E|[E|[E|[E|[E|[]]]]]]]; injection E as <- <-;
    repeat match goal with
           | |- context [?a =? ?b] =>
             destruct (Z.eqb_spec a b);
             [ first [ solve [ repeat match goal with
                                      | |- context [arg >=? ?l] =>
                                        destruct (Z.geb_spec arg l)
                                      | |- context [arg <? ?l] =>
                                        destruct (Z.ltb_spec arg l)
                                      end;
                               first [reflexivity | lia] ]
                     | solve [ exfalso; set_solver ] ]
             | try congruence ]
           end.
Qed.

Lemma nth_error_insert_ne (l : list Z) (i j : nat) (v : Z) :
  i <> j -> nth_error (<[i := v]> l) j = nth_error l j.
Proof.
  revert i j; induction l as [|a l IH]; intros [|i] [|j] Hij; simpl;
    try reflexivity; try congruence.
  apply IH. congruence.
Qed.

Lemma nth_error_insert_eq (l : list Z) (i : nat) (v : Z) :
  (i < List.length l)%nat -> nth_error (<[i := v]> l) i = Some v.
Proof.
  revert i; induction l as [|a l IH]; intros [|i] Hi; simpl in *;
    try lia; [reflexivity | apply IH; lia].
Qed.

Lemma byte_at_insert_ne (p : PyString) (i j v : Z) :
  0 <= i -> i <> j -> byte_at (<[Z.to_nat i := v]> p) j = byte_at p j.
Proof.
  intros Hi Hij. unfold byte_at. destruct (j <? 0) eqn:Hj; [reflexivity|].
  apply nth_error_insert_ne. lia.
Qed.

Lemma byte_at_insert_eq (p : PyString) (i v : Z) :
  0 <= i < PyString_Size p -> byte_at (<[Z.to_nat i := v]> p) i = Some v.
Proof.
  intros Hi. unfold byte_at, PyString_Size in *.
  destruct (Z.ltb_spec i 0); [lia|].
  apply nth_error_insert_eq. lia.
Qed.

Lemma set_program_size (i : nat) (v : Z) self :
  PyString_Size (program (set_program (<[i := v]> (program self)) self))
  = PyString_Size (program self).
Proof.
  unfold PyString_Size, set_program; cbn [program].
  rewrite length_insert. reflexivity.
Qed.

(** A turn of the argument loop that does not read the changed byte is
    not affected by the change. *)
Lemma check_one_frame self (i v pc op argno : Z) :
  0 <= i ->
  (if argno <? 3 then pc + argno + 1 else pc + argno + 2) <> i ->
  check_one (set_program (<[Z.to_nat i := v]> (program self)) self) pc op argno
  = check_one self pc op argno.
Proof.
  intros Hi Hne. unfold check_one. rewrite set_program_size.
  unfold check_arg. cbn [program fullsig set_program].
  rewrite byte_at_insert_ne by auto.
  reflexivity.
Qed.

Lemma check_instr_frame self (i v pc : Z) :
  0 <= i ->
  pc <> i -> pc + 1 <> i -> pc + 2 <> i -> pc + 3 <> i -> pc + 5 <> i ->
  check_instr (set_program (<[Z.to_nat i := v]> (program self)) self) pc
  = check_instr self pc.
Proof.
  intros Hi H0 H1 H2 H3 H5. unfold check_instr.
  rewrite set_program_size. cbn [program set_program].
  rewrite byte_at_insert_ne by auto.
  destruct (byte_at (program self) pc) as [op|]; [|reflexivity].
  destruct (op =? OP_NOOP); [reflexivity|].
  destruct ((op >=? OP_REDUCTION) && _); [reflexivity|].
  rewrite !check_args_cons.
  rewrite !check_one_frame by (auto; cbn; lia).
  reflexivity.
Qed.

Lemma check_one_Some_Passed self (pc op argno : Z) :
  check_one self pc op argno = Some Passed -> op_signature op argno = 0.
Proof.
  unfold check_one.
  destruct (op_signature op argno =? -1); [discriminate|].
  destruct (Z.eqb_spec (op_signature op argno) 0); [auto|].
  destruct ((argno >=? 3) && _); [discriminate|].
  destruct (byte_at (program self) _); [|discriminate].
  destruct (check_arg self op _ _ _); discriminate.
Qed.

(** The turn that reads the changed byte as a function-table index. *)
Lemma check_one_funccode self (pc op last argno idx : Z) :
  NoDup (map fst function_families) ->
  In (op, last) function_families ->
  0 <= pc -> pc + 1 < PyString_Size (program self) ->
  op_signature op argno = Tn ->
  let argloc := if argno <? 3 then pc + argno + 1 else pc + argno + 2 in
  0 <= argloc < PyString_Size (program self) ->
  0 <= idx ->
  check_one (set_program (<[Z.to_nat argloc := idx]> (program self)) self)
    pc op argno
  = if idx <? last then None
    else Some (Rejected (funccode_out_of_range idx argloc)).
Proof.
  intros ND Hin Hpc Hlen Hsig argloc Hloc Hidx. unfold check_one.
  rewrite set_program_size, Hsig. cbn [program set_program].
  change (Tn =? -1) with false. change (Tn =? 0) with false. cbv iota.
  replace (pc + 1 >=? PyString_Size (program self)) with false by lia.
  rewrite andb_false_r. fold argloc.
  rewrite byte_at_insert_eq by lia.
  unfold check_arg. rewrite Z.eqb_refl. cbn [negb andb].
  rewrite (check_funccode_family op last idx argloc ND Hin Hidx).
  destruct (idx <? last); reflexivity.
Qed.

Lemma check_program_Passed self :
  check_program self = Passed ->
  PyString_Size (program self) mod 4 = 0
  /\ PyString_Size (fullsig self) <= 255
  /\ Forall (fun pc => check_instr self pc = Passed)
            (instr_pcs (PyString_Size (program self))).
Proof.
  unfold check_program.
  destruct (Z.eqb_spec (PyString_Size (program self) mod 4) 0); simpl;
    [|discriminate].
  destruct (Z.gtb_spec (PyString_Size (fullsig self)) 255); [discriminate|].
  intros E. split; [assumption|]. split; [lia|].
  apply check_instrs_Passed, E.
Qed.

Lemma check_args_frame self (i v pc op : Z) (argnos : list Z) :
  0 <= i ->
  Forall (fun argno =>
            (if argno <? 3 then pc + argno + 1 else pc + argno + 2) <> i)
         argnos ->
  check_args (set_program (<[Z.to_nat i := v]> (program self)) self) pc op
    argnos
  = check_args self pc op argnos.
Proof.
  intros Hi. induction 1 as [|argno rest Hne _ IH]; [reflexivity|].
  rewrite !check_args_cons, check_one_frame, IH by assumption.
  reflexivity.
Qed.

(** The loop over the arguments of an instruction that passed, after the
    byte of one of its arguments is changed: the arguments before it
    pass as they did, so the loop ends with what the changed argument
    gives or goes on as before. *)
Lemma check_args_update self (i v pc op argno : Z)
  (before after : list Z) :
  0 <= i ->
  Forall (fun a => (if a <? 3 then pc + a + 1 else pc + a + 2) <> i)
         (before ++ after) ->
  Forall (fun a => op_signature op a <> 0) before ->
  op_signature op argno <> 0 ->
  check_args self pc op (before ++ argno :: after) = Passed ->
  check_args (set_program (<[Z.to_nat i := v]> (program self)) self) pc op
    (before ++ argno :: after)
  = match check_one (set_program (<[Z.to_nat i := v]> (program self)) self)
            pc op argno with
    | Some r => r
    | None => Passed
    end.
Proof.
  intros Hi. induction before as [|a before IH];
    cbn [app]; intros Hfr Hsig Hn Hpass.
  - rewrite check_args_cons in Hpass |- *.
    rewrite check_args_frame by assumption.
    destruct (check_one self pc op argno) as [r|] eqn:E.
    + subst r. apply check_one_Some_Passed in E. contradiction.
    + rewrite Hpass. reflexivity.
  - inversion Hfr as [|? ? Ha Hfr']; subst.
    inversion Hsig as [|? ? Hsa Hsig']; subst.
    rewrite check_args_cons in Hpass |- *.
    rewrite check_one_frame by assumption.
    destruct (check_one self pc op a) as [r|] eqn:E.
    + subst r. apply check_one_Some_Passed in E. contradiction.
    + apply IH; assumption.
Qed.

(** C8.  In a program that [check_program] accepts, take an instruction
    whose opcode is one of the six function opcodes and the argument of
    it that the signature marks as the function-table index; with any
    index [idx] written there, the program is accepted exactly when
    [idx] is below the length of the table of that family, and rejected
    with "funccode out of range" otherwise, so at [idx] equal to the
    length it is rejected and at the length minus one accepted. *)
Theorem function_index_check self (pc op last argno idx : Z) :
  NoDup (map fst function_families) ->
  In (op, last) function_families ->
  check_program self = Passed ->
  pc mod 4 = 0 ->
  byte_at (program self) pc = Some op ->
  op <> OP_NOOP ->
  1 <= argno <= 3 ->
  op_signature op argno = Tn ->
  (forall j, 0 <= j < argno -> op_signature op j <> 0) ->
  let argloc := if argno <? 3 then pc + argno + 1 else pc + argno + 2 in
  argloc < PyString_Size (program self) ->
  (argno = 3 -> byte_at (program self) (pc + 4) = Some OP_NOOP) ->
  0 <= idx ->
  check_program (set_program (<[Z.to_nat argloc := idx]> (program self)) self)
  = if idx <? last then Passed
    else Rejected (funccode_out_of_range idx argloc).
Proof.
  intros ND Hin Hpass Hal Hop Hnoop Hargno Hsig Hsigs argloc Hloc Hslot Hidx.
  pose proof (byte_at_range _ _ _ Hop) as Hpc.
  fold (PyString_Size (program self)) in Hpc.
  destruct (check_program_Passed self Hpass) as (Hmod & Hbuf & Hall).
  assert (argloc = if argno <? 3 then pc + argno + 1 else pc + argno + 2)
    as Hargloc by reflexivity.
  clearbody argloc.
  assert (0 <= argloc) as Hloc0
    by (subst argloc; destruct (argno <? 3); lia).
  assert (argloc = pc + 2 \/ argloc = pc + 3 \/ (argloc = pc + 5 /\ argno = 3))
    as Hwhich by (subst argloc; destruct (Z.ltb_spec argno 3); lia).
  set (self' := set_program (<[Z.to_nat argloc := idx]> (program self)) self).
  (* the instruction at pc *)
  assert (check_instr self' pc
          = if idx <? last then Passed
            else Rejected (funccode_out_of_range idx argloc)) as Hat.
  { assert (check_instr self pc = Passed) as Horig.
    { rewrite List.Forall_forall in Hall. apply Hall.
      destruct (instr_pcs_split (PyString_Size (program self)) pc)
        as (rest & E & _); [lia | assumption | assumption |].
      rewrite E. apply in_or_app. right. left. reflexivity. }
    unfold check_instr in Horig |- *. subst self'.
    rewrite set_program_size. cbn [program set_program].
    rewrite byte_at_insert_ne by lia. rewrite Hop in Horig |- *.
    destruct (Z.eqb_spec op OP_NOOP); [contradiction|].
    destruct ((op >=? OP_REDUCTION) && _); [discriminate|].
    assert (forall before after,
               [0; 1; 2; 3] = before ++ argno :: after ->
               Forall (fun a => a <> argno /\ 0 <= a <= 3) (before ++ after) ->
               Forall (fun a => 0 <= a < argno) before ->
               check_args
                 (set_program (<[Z.to_nat argloc := idx]> (program self)) self)
                 pc op [0; 1; 2; 3]
               = if idx <? last then Passed
                 else Rejected (funccode_out_of_range idx argloc)) as Hgen.
    { intros before after E Hothers Hbefore. rewrite E in Horig |- *.
      rewrite check_args_update; try assumption.
      - pose proof (check_one_funccode self pc op last argno idx ND Hin)
          as L. cbv zeta in L. rewrite <- Hargloc in L.
        rewrite L
          by first [ assumption | lia
                   | clear L Horig; Z.div_mod_to_equations; lia ].
        destruct (idx <? last); reflexivity.
      - eapply Forall_impl; [exact Hothers|]. cbv beta.
        intros a [Ha Hr]. rewrite Hargloc.
        destruct (Z.ltb_spec a 3), (Z.ltb_spec argno 3); lia.
      - eapply Forall_impl; [exact Hbefore|]. cbv beta.
        intros a Ha. apply Hsigs, Ha.
      - rewrite Hsig. discriminate. }
    assert (argno = 1 \/ argno = 2 \/ argno = 3) as [->|[->| ->]] by lia.
    - apply (Hgen [0] [2; 3]); [reflexivity| |];
        repeat constructor; lia.
    - apply (Hgen [0; 1] [3]); [reflexivity| |];
        repeat constructor; lia.
    - apply (Hgen [0; 1; 2] []); [reflexivity| |];
        repeat constructor; lia. }
  (* the other instructions *)
  assert (forall p, In p (instr_pcs (PyString_Size (program self))) ->
                    p <> pc -> check_instr self' p = Passed) as Hother.
  { intros p Hp Hne. pose proof (instr_pcs_bounds _ _ Hp) as (Hp0 & Hplen & Hpal).
    rewrite List.Forall_forall in Hall. specialize (Hall p Hp).
    destruct (Z.eq_dec p (pc + 4)) as [->|Hp4].
    - destruct Hwhich as [Hw|[Hw|[Hw ->]]].
      + subst self'. rewrite check_instr_frame; [assumption|lia..].
      + subst self'. rewrite check_instr_frame; [assumption|lia..].
      + unfold check_instr. subst self'. cbn [program set_program].
        rewrite byte_at_insert_ne by lia.
        rewrite (Hslot eq_refl), Z.eqb_refl. reflexivity.
    - subst self'. rewrite check_instr_frame; [assumption | lia | ..];
        clear Hall Hat; Z.div_mod_to_equations; lia. }
  unfold check_program. subst self'.
  rewrite set_program_size. cbn [fullsig set_program].
  rewrite Hmod. cbn [Z.eqb negb].
  replace (PyString_Size (fullsig self) >? 255) with false by lia.
  destruct (instr_pcs_split (PyString_Size (program self)) pc)
    as (rest & E & Hrest); [lia | assumption | assumption |].
  rewrite E in Hother |- *.
  rewrite check_instrs_app.
  replace (check_instrs _ (instr_pcs pc)) with Passed.
  2:{ symmetry. apply check_instrs_Passed, List.Forall_forall.
      intros p Hp. apply Hother; [apply in_or_app; left; exact Hp|].
      apply instr_pcs_bounds in Hp. lia. }
  cbn [check_instrs]. rewrite Hat.
  destruct (idx <? last); [|reflexivity].
  apply check_instrs_Passed, List.Forall_forall.
  intros p Hp. apply Hother; [apply in_or_app; right; right; exact Hp|].
  rewrite List.Forall_forall in Hrest. specialize (Hrest p Hp). lia.
Qed.

End FunctionIndex.

Section FunctionIndexExamples.
Local Existing Instance sample_headers.

Lemma sample_function_opcodes_distinct : NoDup (map fst function_families).
Proof. apply (bool_decide_unpack _). vm_compute. reflexivity. Qed.

(** On the sample instruction set, [func_ddn] with index 19, the length
    of its table, is rejected, and with index 18 accepted. *)
Lemma function_index_check_witness :
  check_program (sample_object [5; 0; 1; 19])
  = Rejected (funccode_out_of_range 19 3)
  /\ check_program (sample_object [5; 0; 1; 18]) = Passed.
Proof.
  split.
  - refine (function_index_check (sample_object [5; 0; 1; 7]) 0 5 19 2 19
              sample_function_opcodes_distinct _ _ _ _ _ _ _ _ _ _ _);
      first [ reflexivity | lia | discriminate
            | right; right; left; reflexivity
            | intros j Hj; assert (j = 0 \/ j = 1) as [-> | ->] by lia;
              vm_compute; discriminate ].
  - refine (function_index_check (sample_object [5; 0; 1; 7]) 0 5 19 2 18
              sample_function_opcodes_distinct _ _ _ _ _ _ _ _ _ _ _);
      first [ reflexivity | lia | discriminate
            | right; right; left; reflexivity
            | intros j Hj; assert (j = 0 \/ j = 1) as [-> | ->] by lia;
              vm_compute; discriminate ].
Defined.

End FunctionIndexExamples.

(** ** Roll-back of the per-thread copies (C2) *)

Section Rollback.

(** Releasing takes the address out of the live ones, if it was there,
    and hands out no address. *)
Lemma live_release (p : Z) (h : heap) : live (release p h) = live h ∖ {[ p ]}.
Proof.
  unfold release. case_bool_decide; cbn [live fault]; set_solver.
Qed.

Lemma next_address_release (p : Z) (h : heap) :
  next_address (release p h) = next_address h.
Proof. unfold release. case_bool_decide; reflexivity. Qed.

Lemma live_access (p : Z) (h : heap) : live (access p h) = live h.
Proof. unfold access. case_bool_decide; reflexivity. Qed.

Lemma live_release_list (free : Z -> heap -> heap) (l : list Z) (hp : heap) :
  (forall p h, live (free p h) = live h ∖ {[ p ]}) ->
  live (fold_left (fun hp p => free p hp) l hp) = live hp ∖ list_to_set l.
Proof.
  intros Hfree. revert hp. induction l as [|p l IH]; intros hp; simpl.
  - set_solver.
  - rewrite IH, Hfree. set_solver.
Qed.

Lemma live_release_down (free : Z -> heap -> heap) (slots : list Z)
  (hp : heap) :
  (forall p h, live (free p h) = live h ∖ {[ p ]}) ->
  live (release_down free slots hp) = live hp ∖ list_to_set (skipn 1 slots).
Proof.
  intros Hfree. unfold release_down.
  rewrite live_release_list by assumption.
  f_equal. apply set_eq. intros x.
  rewrite !elem_of_list_to_set, !list_elem_of_In, <- in_rev. reflexivity.
Qed.

Lemma live_release_all (free : Z -> heap -> heap) (slots : list Z)
  (hp : heap) :
  (forall p h, live (free p h) = live h ∖ {[ p ]}) ->
  live (release_all free slots hp) = live hp ∖ list_to_set slots.
Proof. apply live_release_list. Qed.

(** When a copy of the iterator fails, the copies made so far are
    released and nothing else: the live allocations are those before the
    first copy. *)
Lemma copy_iterators_failure (oc : alloc_outcomes) (threads : list Z)
  (iter_p : Z) (copies : list Z) (hp hp' : heap) (before : gset Z) :
  fresh_heap hp ->
  live hp = before ∪ list_to_set copies ->
  (forall c, c ∈ copies -> c ∉ before) ->
  copy_iterators oc threads (iter_p :: copies) hp = (None, hp') ->
  live hp' = before.
Proof.
  revert copies hp. induction threads as [|i rest IH];
    intros copies hp Hfresh Hlive Hnew; simpl; [discriminate|].
  unfold NpyIter_Copy. destruct (NpyIter_Copy_ok oc i).
  - cbn [allocate]. intros E.
    apply (IH (copies ++ [next_address hp])) in E; [exact E | | |].
    + intros p. simpl. intros Hp. apply elem_of_union in Hp as [Hp|Hp].
      * specialize (Hfresh p Hp). lia.
      * apply elem_of_singleton in Hp. lia.
    + simpl. rewrite Hlive, list_to_set_app_L. simpl. set_solver.
    + intros c Hc Hb. apply elem_of_app in Hc as [Hc|Hc]; [exact (Hnew c Hc Hb)|].
      apply list_elem_of_singleton in Hc. subst c.
      assert (next_address hp ∈ live hp) as Hin by (rewrite Hlive; set_solver).
      specialize (Hfresh _ Hin). lia.
  - intros [= <-].
    rewrite live_release_down by apply live_release.
    cbn [skipn]. rewrite Hlive. set_solver.
Qed.

(** When the allocation of a stride table fails, every iterator slot is
    released, the caller's iterator in slot 0 among them. *)
Lemma copy_memsteps_failure (oc : alloc_outcomes) (threads : list Z)
  (th_iter th_memsteps : list Z) (hp hp' : heap) :
  copy_memsteps oc threads th_iter th_memsteps hp = (None, hp') ->
  forall p, p ∈ th_iter -> p ∉ live hp'.
Proof.
  revert th_memsteps hp. induction threads as [|i rest IH];
    intros th_memsteps hp; simpl; [discriminate|].
  unfold PyMem_New. destruct (PyMem_New_ok oc i).
  - cbn [allocate]. apply IH.
  - intros [= <-] p Hp.
    rewrite live_release_all by apply live_release. set_solver.
Qed.

Lemma copy_iterators_slot0 (oc : alloc_outcomes) (threads : list Z)
  (th_iter slots : list Z) (hp hp' : heap) :
  copy_iterators oc threads th_iter hp = (Some slots, hp') ->
  forall p, p ∈ th_iter -> p ∈ slots.
Proof.
  revert th_iter hp. induction threads as [|i rest IH];
    intros th_iter hp; simpl.
  - intros [= <- <-]. auto.
  - unfold NpyIter_Copy. destruct (NpyIter_Copy_ok oc i); [|discriminate].
    cbn [allocate]. intros E p Hp. eapply IH; [exact E|]. set_solver.
Qed.

End Rollback.

Section RollbackEngine.
Context {hdr : Headers} {value : Type}.
Variable exec_op : Z -> Z -> Z -> Z -> list value -> value.
Variable exec_reduce :
  Z -> Z -> Z -> bool -> list (list value) -> list (list value).

(** What [vm_engine_iter_parallel] does when an allocation fails: it
    returns -1 with the iterator untouched.  When it is a copy of the
    iterator that fails, the live allocations are as before the call;
    when it is a stride table, the caller's own iterator is no longer
    live. *)
Lemma vm_engine_iter_parallel_failed_allocation (gs : global_state)
  (oc : alloc_outcomes) (sched : list (nat * nat)) (iter_p : Z) (iter : NpyIter value)
  (params : vm_params value) (memsteps_p : Z) (nob : bool) (pc_error : Z)
  (hp : heap) :
  fresh_heap hp -> iter_p ∈ live hp ->
  (forall th_iter hp1,
      copy_iterators oc (additional_threads (nthreads gs)) [iter_p] hp
      = (Some th_iter, hp1) ->
      fst (copy_memsteps oc (additional_threads (nthreads gs)) th_iter
             [memsteps_p] hp1) = None) ->
  exists hp',
    vm_engine_iter_parallel exec_op exec_reduce gs oc sched iter_p iter params
      memsteps_p nob pc_error false hp
    = (-1, pc_error, None, iter, hp')
    /\ (fst (copy_iterators oc (additional_threads (nthreads gs)) [iter_p] hp)
        = None -> live hp' = live hp)
    /\ (fst (copy_iterators oc (additional_threads (nthreads gs)) [iter_p] hp)
        <> None -> iter_p ∉ live hp').
Proof.
  intros Hfresh Hin Hfail. unfold vm_engine_iter_parallel.
  destruct (copy_iterators oc (additional_threads (nthreads gs)) [iter_p] hp)
    as [[th_iter|] hp1] eqn:Ec.
  - specialize (Hfail th_iter hp1 eq_refl).
    destruct (copy_memsteps oc (additional_threads (nthreads gs)) th_iter
                [memsteps_p] hp1) as [[th_memsteps|] hp2] eqn:Em;
      [discriminate|].
    exists hp2. split; [reflexivity|]. split; [discriminate|].
    intros _. eapply copy_memsteps_failure; [exact Em|].
    eapply copy_iterators_slot0; [exact Ec|]. set_solver.
  - exists hp1. split; [reflexivity|]. split; [|intros N; contradiction].
    intros _. eapply (copy_iterators_failure oc _ iter_p [] hp hp1 (live hp));
      [assumption | simpl; set_solver | set_solver | exact Ec].
Qed.

End RollbackEngine.

Section RollbackExample.
Local Existing Instance sample_headers.

(** C2 on the code: with two threads and the stride table of thread 1
    failing to allocate, [vm_engine_iter_parallel] returns -1 without
    running anything, the copy of the iterator is released and the
    caller's stride table is still live, but the caller's iterator
    (address 12288) has been released too. *)
Lemma parallel_setup_releases_caller_iterator :
  let '(r, pc_error, errmsg, iter', hp') :=
    vm_engine_iter_parallel sample_exec_op sample_exec_reduce (sample_gs 2)
      memsteps_fail [(0, 0); (1, 1); (0, 2)]%nat 12288 (sample_iter 10)
      (params_of (sample_object [2; 0; 1; 1])) 16384 false (-1) false
      caller_heap in
  r = -1 /\ iter' = sample_iter 10
  /\ bool_decide (12288 ∈ live caller_heap) = true
  /\ bool_decide (12288 ∈ live hp') = false
  /\ bool_decide (16384 ∈ live hp') = true
  /\ bool_decide (20480 ∈ live hp') = false.
Proof. vm_compute. repeat split. Qed.

(** The same call when it is the copy of the iterator that fails: the
    caller's iterator and stride table stay live. *)
Lemma parallel_setup_copy_failure_keeps_originals :
  let '(r, pc_error, errmsg, iter', hp') :=
    vm_engine_iter_parallel sample_exec_op sample_exec_reduce (sample_gs 2)
      {| NpyIter_Copy_ok := fun _ => false; PyMem_New_ok := fun _ => true |}
      [(0, 0); (1, 1); (0, 2)]%nat 12288 (sample_iter 10)
      (params_of (sample_object [2; 0; 1; 1])) 16384 false (-1) false
      caller_heap in
  r = -1 /\ iter' = sample_iter 10
  /\ bool_decide (12288 ∈ live hp') = true
  /\ bool_decide (16384 ∈ live hp') = true.
Proof. vm_compute. repeat split. Qed.

End RollbackExample.

(** ** Status codes of the block interpreter and their report (C3) *)

Section Status.
Context {hdr : Headers} {value : Type}.
Variable exec_op : Z -> Z -> Z -> Z -> list value -> value.
Variable exec_reduce :
  Z -> Z -> Z -> bool -> list (list value) -> list (list value).
Variable NpyIter_ResetBasePointers :
  NpyIter value -> list value -> Z * option string * NpyIter value.

(** A register argument at or past [r_end] ends the block with -2 and
    the program counter of the instruction. *)
Lemma interp_instrs_bad_argument (params : vm_params value)
  (inner_loop : bool) (pc : Z) (rest : list Z) (pc_error : Z)
  (rows : list (list value)) :
  let op := nth (Z.to_nat pc) (vp_program params) 0 in
  op <> OP_NOOP -> has_operation op = true ->
  (exists arg, In arg (register_args params pc op) /\ vp_r_end params <= arg) ->
  interp_instrs exec_op exec_reduce params inner_loop (pc :: rest) pc_error rows
  = (-2, pc, rows).
Proof.
  intros op Hn Hop (arg & Hin & Hge). cbn [interp_instrs]. fold op.
  destruct (Z.eqb_spec op OP_NOOP); [contradiction|].
  rewrite Hop. cbn [negb].
  replace (existsb (BOUNDS_CHECK params) (register_args params pc op))
    with true; [reflexivity|].
  symmetry. apply existsb_exists. exists arg. split; [assumption|].
  unfold BOUNDS_CHECK. lia.
Qed.

(** An opcode without an operation ends the block with -3 and the
    program counter of the instruction. *)
Lemma interp_instrs_bad_opcode (params : vm_params value)
  (inner_loop : bool) (pc : Z) (rest : list Z) (pc_error : Z)
  (rows : list (list value)) :
  let op := nth (Z.to_nat pc) (vp_program params) 0 in
  op <> OP_NOOP -> has_operation op = false ->
  interp_instrs exec_op exec_reduce params inner_loop (pc :: rest) pc_error rows
  = (-3, pc, rows).
Proof.
  intros op Hn Hop. cbn [interp_instrs]. fold op.
  destruct (Z.eqb_spec op OP_NOOP); [contradiction|].
  rewrite Hop. reflexivity.
Qed.

(** The branch of [NumExpr_run] on the status: -2 is reported as a bad
    argument and -3 as a bad opcode, each with [pc_error]. *)
Lemma report_status_bad_argument (pc_error : Z) (w : world) :
  err (report_status (-2) pc_error w)
  = Some (PyErr_Format RuntimeError "bad argument at pc=%d" [pc_error]).
Proof. reflexivity. Qed.

Lemma report_status_bad_opcode (pc_error : Z) (w : world) :
  err (report_status (-3) pc_error w)
  = Some (PyErr_Format RuntimeError "bad opcode at pc=%d" [pc_error]).
Proof. reflexivity. Qed.

(** [run_interpreter] ends in [return 0] whatever the engine returned;
    only the [return -1] in the middle give another value.  The statuses
    -2 and -3 of the block interpreter never leave it. *)
Lemma run_interpreter_returns (gs : global_state) (oc : alloc_outcomes)
  (sched : list (nat * nat)) (self : NumExprObject value) (iter : NpyIter value)
  (reduce_iter : option (NpyIter value)) (rol nob : bool) (w : world) :
  let '(r, _, _, _, _) :=
    run_interpreter exec_op exec_reduce NpyIter_ResetBasePointers gs oc sched
      self iter reduce_iter rol nob w in
  r = 0 \/ r = -1.
Proof.
  unfold run_interpreter.
  match goal with
  | |- context [match ?b with inl _ => _ | inr _ => _ end] =>
    destruct b as [[r w1]|[[[[[r pe] msg] it] rit] w1]] eqn:E
  end.
  - right. revert E.
    repeat match goal with
           | |- context [if ?b then _ else _] => destruct b
           | |- context [match ?x with _ => _ end] => destruct x
           end;
      first [discriminate | intros [= <- _]; reflexivity].
  - left. reflexivity.
Qed.

End Status.

Section StatusExample.
Local Existing Instance sample_headers.

(** C3 on the code.  The program [add r0, r7, r1] names register 7 in a
    register file of 2.  The block interpreter ends the first block with
    -2 at program counter 0, and so does the driver; [run_interpreter]
    returns 0 all the same, and the call returns the output array with
    no error set. *)
Lemma bad_argument_is_not_reported :
  let self := sample_object [2; 0; 7; 1] in
  let args := [Py_Array (sample_array [10])] in
  let blocks := NpyIter_blocks (sample_iter 10) in
  (let '(r, pc_error, _) :=
     interp_body sample_exec_op sample_exec_reduce (params_of self)
       true false BLOCK_SIZE1 (hd [] blocks) (-1) in
   r = -2 /\ pc_error = 0)
  /\ (let '(r, pc_error, _, _) :=
        vm_engine_iter_task sample_exec_op sample_exec_reduce (sample_iter 10)
          (params_of self) (-1) in
      r = -2 /\ pc_error = 0)
  /\ (let '(r, pc_error, _, _, w) :=
        run_interpreter sample_exec_op sample_exec_reduce
          sample_ResetBasePointers (sample_gs 1) all_succeed [] self
          (sample_iter 10) None false false sample_world in
      r = 0 /\ pc_error = 0 /\ err w = None)
  /\ (let res := sample_run (sample_gs 1) [] [2; 0; 7; 1] args in
      ret res = Some {| arr_data := 8192; arr_dims := [10];
                        arr_typenum := PyArray_DOUBLE; arr_elsize := 8;
                        arr_writeable := true |}
      /\ err (world_after res) = None).
Proof. vm_compute. repeat split. Qed.

(** The same for an opcode without an operation (10, the mark that
    opens the reduction family) followed by a copy: status -3 at program
    counter 0 in the block interpreter, no error from the call. *)
Lemma bad_opcode_is_not_reported :
  let self := sample_object [10; 0; 1; 1; 1; 0; 1; 0] in
  let args := [Py_Array (sample_array [10])] in
  (let '(r, pc_error, _, _) :=
     vm_engine_iter_task sample_exec_op sample_exec_reduce (sample_iter 10)
       (params_of self) (-1) in
   r = -3 /\ pc_error = 0)
  /\ (let res := sample_run (sample_gs 1) [] [10; 0; 1; 1; 1; 0; 1; 0] args in
      ret res = Some {| arr_data := 8192; arr_dims := [10];
                        arr_typenum := PyArray_DOUBLE; arr_elsize := 8;
                        arr_writeable := true |}
      /\ err (world_after res) = None).
Proof. vm_compute. repeat split. Qed.

End StatusExample.

(** ** Which engine an evaluation enters (C9) *)

Section Dispatch.
Context {hdr : Headers} {value : Type}.
Variable exec_op : Z -> Z -> Z -> Z -> list value -> value.
Variable exec_reduce :
  Z -> Z -> Z -> bool -> list (list value) -> list (list value).
Variable of_long : Z -> value.
Variable NpyIter_ResetBasePointers :
  NpyIter value -> list value -> Z * option string * NpyIter value.
Variable PyArray_allocate : list Z -> Z -> option Z.
Variable PyArray_FromArray : PyArrayObject -> Z -> option PyArrayObject.
Variable PyArray_item : PyArrayObject -> value.
Variable NpyIter_AdvancedNew : iter_request -> option (NpyIter value).

Lemma typecode_from_char_err_calls (c : Z) (w : world) :
  calls (snd (typecode_from_char_err c w)) = calls w.
Proof.
  unfold typecode_from_char_err. simpl.
  destruct (typecode_from_char c =? -1); reflexivity.
Qed.

Lemma parse_kwds_calls (kwds : option kwargs) (w w1 : world) :
  parse_kwds kwds w = inl w1 -> calls w1 = calls w.
Proof.
  unfold parse_kwds.
  repeat match goal with
         | |- context [match ?x with _ => _ end] => destruct x
         end; intros [= <-]; reflexivity.
Qed.

Lemma convert_inputs_calls (sig : PyString) (out : option PyArrayObject)
  (args : list PyObject) (nob : bool) (w w1 : world) :
  convert_inputs sig out args nob w = inl w1 -> calls w1 = calls w.
Proof.
  revert sig nob w. induction args as [|o args IH]; intros sig nob w;
    cbn [convert_inputs]; [discriminate|].
  pose proof (typecode_from_char_err_calls (hd 0 sig) w) as Ht.
  destruct (typecode_from_char_err (hd 0 sig) w) as [t w0]. simpl in Ht.
  destruct o as [a| |c];
    repeat match goal with
           | |- context [if ?b then _ else _] => destruct b
           | |- context [PyArray_DescrFromType ?t] =>
             destruct (PyArray_DescrFromType t)
           | |- context [match ?x with Some _ => _ | None => _ end] => destruct x
           end;
    try (intros [= <-]; simpl; congruence);
    try (destruct (convert_inputs _ _ _ _ _) as [w2|[[? ?] ?]] eqn:E;
         [ intros [= <-]; rewrite (IH _ _ _ E); congruence | discriminate ]).
Qed.

Ltac crush_setup :=
  repeat (cbv beta iota zeta;
          match goal with
          | |- context [if ?b then _ else _] => destruct b
          | |- context [match ?x with _ => _ end] =>
            lazymatch x with
            | context [match _ with _ => _ end] => fail
            | _ => destruct x
            end
          end);
  reflexivity.

Lemma reduction_setup_calls (self : NumExprObject value)
  (operands0 : option PyArrayObject) (operands : list PyArrayObject)
  (w : world) :
  match reduction_setup PyArray_allocate self operands0 operands w with
  | inl w1 => calls w1 = calls w
  | inr (_, w1) => calls w1 = calls w
  end.
Proof. unfold reduction_setup, typecode_from_char_err. crush_setup. Qed.

Lemma plain_setup_calls (self : NumExprObject value)
  (operands0 : option PyArrayObject) (operands : list PyArrayObject)
  (w : world) :
  match plain_setup self operands0 operands w with
  | inl w1 => calls w1 = calls w
  | inr (_, w1) => calls w1 = calls w
  end.
Proof. unfold plain_setup, typecode_from_char_err. crush_setup. Qed.

Lemma allocate_iterators_calls (order casting : Z)
  (operands : list PyArrayObject) (dtypes : list PyArray_Descr)
  (os : output_setup) (w : world) :
  match allocate_iterators NpyIter_AdvancedNew order casting operands dtypes
          os w with
  | inl (_, w1) => calls w1 = calls w
  | inr (_, _, _, w1) => calls w1 = calls w
  end.
Proof.
  unfold allocate_iterators.
  repeat match goal with
         | |- context [if ?b then _ else _] => destruct b
         | |- context [match NpyIter_AdvancedNew ?r with _ => _ end] =>
           destruct (NpyIter_AdvancedNew r)
         end; reflexivity.
Qed.

Lemma nested_loop_calls
  (engine : NpyIter value -> vm_params value -> Z
            -> Z * Z * option string * NpyIter value)
  (call : engine_call) (params : vm_params value) (more : list (list value)) :
  forall (inner : NpyIter value) (dataptr : list value) (pc_error : Z)
         (w : world) (c : engine_call),
    In c (calls (snd (nested_loop NpyIter_ResetBasePointers engine call params
                        inner dataptr more pc_error w))) ->
    c = call \/ In c (calls w).
Proof.
  induction more as [|d more IH]; intros inner dataptr pc_error w c;
    cbn [nested_loop];
    destruct (NpyIter_ResetBasePointers inner dataptr) as [[r errmsg] inner1];
    destruct (r >=? 0);
    try destruct (engine inner1 params pc_error) as [[[r' pe'] msg'] inner'];
    repeat match goal with
           | |- context [if ?b then _ else _] => destruct b
           end;
    cbn [snd log_call calls]; intros Hin;
    try (apply IH in Hin; cbn [log_call calls] in Hin);
    cbn [In] in *; intuition auto.
Qed.

(** The parallel engine is entered by [run_interpreter] only with more
    than one thread, serial mode not forced and no nested iterator. *)
Lemma run_interpreter_parallel_call (gs : global_state) (oc : alloc_outcomes)
  (sched : list (nat * nat)) (self : NumExprObject value) (iter : NpyIter value)
  (reduce_iter : option (NpyIter value)) (rol nob : bool) (w : world)
  (n : Z) :
  In (ran_parallel n)
     (calls (snd (run_interpreter exec_op exec_reduce NpyIter_ResetBasePointers
                    gs oc sched self iter reduce_iter rol nob w))) ->
  In (ran_parallel n) (calls w)
  \/ (force_serial gs = false /\ reduce_iter = None
      /\ n = NpyIter_GetIterSize iter).
Proof.
  unfold run_interpreter.
  destruct ((nthreads gs =? 1) || force_serial gs) eqn:Eserial.
  - destruct reduce_iter as [reduce_it|].
    + destruct rol.
      * destruct (it_iternext_errmsg reduce_it); [simpl; auto|].
        pose proof (nested_loop_calls
                      (vm_engine_iter_outer_reduce_task exec_op exec_reduce)
                      ran_outer_reduce_task (params_of self)
                      (tl (NpyIter_positions reduce_it)) iter
                      (hd [] (NpyIter_positions reduce_it)) (-1) w
                      (ran_parallel n)) as L.
        destruct (nested_loop _ _ _ _ _ _ _ _ _) as [[[[r pe] msg] it1] w1].
        cbn [snd] in L |- *.
        destruct msg; [destruct (r <? 0)|]; cbn [set_err calls];
          intros Hin; destruct (L Hin); try discriminate; auto.
      * destruct (it_iternext_errmsg iter); [simpl; auto|].
        pose proof (nested_loop_calls
                      (vm_engine_iter_task exec_op exec_reduce)
                      ran_iter_task (params_of self)
                      (tl (NpyIter_positions iter)) reduce_it
                      (hd [] (NpyIter_positions iter)) (-1) w
                      (ran_parallel n)) as L.
        destruct (nested_loop _ _ _ _ _ _ _ _ _) as [[[[r pe] msg] it1] w1].
        cbn [snd] in L |- *.
        destruct msg; [destruct (r <? 0)|]; cbn [set_err calls];
          intros Hin; destruct (L Hin); try discriminate; auto.
    + destruct (negb (it_reset_ok iter)); [simpl; auto|].
      destruct (vm_engine_iter_task _ _ _ _ _) as [[[r pe] msg] it1].
      cbn [snd].
      destruct msg; [destruct (r <? 0)|]; cbn [set_err log_call calls In];
        intros [Hin|Hin]; try discriminate; auto.
  - apply orb_false_elim in Eserial as [_ Hfs].
    destruct reduce_iter as [reduce_it|].
    + cbn [snd Z.ltb Z.compare set_err calls]. auto.
    + destruct (vm_engine_iter_parallel _ _ _ _ _ _ _ _ _ _ _ _ _)
        as [[[[r pe] msg] it1] hp1].
      cbn [snd].
      destruct msg; [destruct (r <? 0)|];
        cbn [set_err log_call set_allocations calls In];
        intros [Hin|Hin]; try (injection Hin as <-); auto.
Qed.

Lemma report_status_calls (r pc_error : Z) (w : world) :
  calls (report_status r pc_error w) = calls w.
Proof. unfold report_status. crush_setup. Qed.

Lemma decide_force_serial_false (gs : global_state) (is_reduction : bool)
  (iter : NpyIter value) :
  force_serial (decide_force_serial gs is_reduction iter) = false ->
  is_reduction = false /\ 2 * BLOCK_SIZE1 <= NpyIter_GetIterSize iter.
Proof.
  unfold decide_force_serial.
  destruct is_reduction; [discriminate|].
  destruct (Z.ltb_spec (NpyIter_GetIterSize iter) (2 * BLOCK_SIZE1));
    [discriminate|]. auto.
Qed.

Lemma evaluate_with_iterators_parallel_call (gs : global_state)
  (oc : alloc_outcomes) (sched : list (nat * nat)) (self : NumExprObject value)
  (is_reduction : bool) (order casting : Z) (operands : list PyArrayObject)
  (dtypes : list PyArray_Descr) (nob : bool) (os : output_setup) (w : world)
  (n : Z) :
  In (ran_parallel n)
     (calls (world_after
               (evaluate_with_iterators exec_op exec_reduce of_long
                  NpyIter_ResetBasePointers NpyIter_AdvancedNew gs oc sched
                  self is_reduction order casting operands dtypes nob os w))) ->
  In (ran_parallel n) (calls w)
  \/ (is_reduction = false /\ 2 * BLOCK_SIZE1 <= n).
Proof.
  unfold evaluate_with_iterators.
  pose proof (allocate_iterators_calls order casting operands dtypes os w) as Ha.
  destruct (allocate_iterators _ _ _ _ _ _ _)
    as [[[iter0|] w1]|[[[iter reduce_iter] rol] w1]].
  - cbn. rewrite Ha. auto.
  - cbn. rewrite Ha. auto.
  - destruct (initialize_output of_long is_reduction self iter reduce_iter)
      as [iter1 reduce_iter1] eqn:Einit.
    match goal with
    | |- context [run_interpreter ?eo ?er ?rb ?g ?o ?s ?sf ?i ?ri ?b1 ?b2 ?w0] =>
      pose proof (run_interpreter_parallel_call g o s sf i ri b1 b2 w0 n) as Hr;
      destruct (run_interpreter eo er rb g o s sf i ri b1 b2 w0)
        as [[[[r pe] iter2] reduce_iter2] w2]
    end.
    cbn [snd] in Hr. cbn [conclude_run].
    assert (In (ran_parallel n) (calls w2) ->
            In (ran_parallel n) (calls w)
            \/ (is_reduction = false /\ 2 * BLOCK_SIZE1 <= n)) as Hfinal.
    { intros Hin. destruct (Hr Hin) as [Hw1|(Hfs & _ & ->)].
      - left. rewrite <- Ha. exact Hw1.
      - right. apply decide_force_serial_false in Hfs as [Hred Hsize].
        split; [exact Hred|]. exact Hsize. }
    destruct (r <? 0); cbn [world_after failed];
      destruct reduce_iter2; cbn [iterator_deallocated set_allocations calls];
      try rewrite report_status_calls; exact Hfinal.
Qed.

(** C9, as the code has it.  Whatever the call, [NumExpr_run] enters the
    parallel engine only for a program whose last opcode is not of the
    reduction family and with an iteration of at least twice
    [BLOCK_SIZE1] elements.  [run_interpreter], entered with more than
    one thread configured and serial mode not forced, refuses an
    evaluation that has a nested reduction iterator: it enters no engine,
    leaves the iterators as they are and sets the error "Parallel engine
    doesn't support reduction yet".  An evaluation without a nested
    iterator it hands to the parallel engine whatever the program is, a
    full reduction included. *)
Theorem parallel_engine_not_entered :
  (forall (gs : global_state) (oc : alloc_outcomes) (sched : list (nat * nat))
          (self : NumExprObject value) (args : list PyObject)
          (kwds : option kwargs) (w : world) (n : Z),
      In (ran_parallel n)
         (calls (world_after
                   (NumExpr_run exec_op exec_reduce of_long
                      NpyIter_ResetBasePointers PyArray_allocate
                      PyArray_FromArray PyArray_item NpyIter_AdvancedNew
                      gs oc sched self args kwds w))) ->
      In (ran_parallel n) (calls w)
      \/ ((match last_opcode (program self) with Some op => op | None => 0 end
           >? OP_REDUCTION) = false
          /\ 2 * BLOCK_SIZE1 <= n))
  /\ (forall (gs : global_state) (oc : alloc_outcomes) (sched : list (nat * nat))
             (self : NumExprObject value) (iter reduce_it : NpyIter value)
             (rol nob : bool) (w : world),
         nthreads gs <> 1 -> force_serial gs = false ->
         run_interpreter exec_op exec_reduce NpyIter_ResetBasePointers gs oc
           sched self iter (Some reduce_it) rol nob w
         = (0, -1, iter, Some reduce_it,
            set_err (PyErr_SetString RuntimeError parallel_reduction_message)
              w))
  /\ (forall (gs : global_state) (oc : alloc_outcomes)
             (sched : list (nat * nat)) (self : NumExprObject value)
             (iter : NpyIter value) (rol nob : bool) (w : world),
         nthreads gs <> 1 -> force_serial gs = false ->
         let '(r, pc_error, errmsg, iter1, hp1) :=
           vm_engine_iter_parallel exec_op exec_reduce gs oc sched
             (it_address iter) iter (params_of self) (memsteps self) nob
             (-1) false (allocations w) in
         let '(r', pc_error', iter', reduce_iter', w') :=
           run_interpreter exec_op exec_reduce NpyIter_ResetBasePointers gs
             oc sched self iter None rol nob w in
         r' = 0 /\ pc_error' = pc_error /\ iter' = iter1
         /\ reduce_iter' = None
         /\ calls w' = ran_parallel (NpyIter_GetIterSize iter) :: calls w
         /\ allocations w' = hp1
         /\ (err w' <> err w ->
             exists msg,
               errmsg = Some msg /\ r < 0
               /\ err w' = Some (PyErr_SetString RuntimeError msg))).
Proof.
  split.
  - intros gs oc sched self args kwds w n. unfold NumExpr_run.
    destruct (negb _); [cbn; auto|].
    destruct (_ >? NPY_MAXARGS); [cbn; auto|].
    destruct (parse_kwds kwds w) as [w1|[[[casting order] vml] operands0]]
      eqn:Ek.
    { cbn. rewrite (parse_kwds_calls _ _ _ Ek). auto. }
    destruct (convert_inputs _ _ _ _ _) as [w1|[[operands dtypes] nob]] eqn:Ec.
    { cbn. rewrite (convert_inputs_calls _ _ _ _ _ _ Ec). auto. }
    set (is_reduction :=
           match last_opcode (program self) with Some op => op | None => 0 end
           >? OP_REDUCTION).
    assert (match (if is_reduction
                   then reduction_setup PyArray_allocate
                   else plain_setup) self operands0 operands w with
            | inl w1 => calls w1 = calls w
            | inr (_, w1) => calls w1 = calls w
            end) as Hs.
    { destruct is_reduction;
        [apply reduction_setup_calls | apply plain_setup_calls]. }
    destruct ((if is_reduction then _ else _) self operands0 operands w)
      as [w1|[os w1]].
    { cbn. rewrite Hs. auto. }
    destruct (first_empty operands).
    { pose proof (typecode_from_char_err_calls
                    (get_return_sig (program self)) w1) as Ht.
      destruct (typecode_from_char_err _ w1) as [t w2]. cbn [snd] in Ht.
      destruct (PyArray_SimpleNew _ _ _); cbn; rewrite Ht, Hs; auto. }
    destruct (_ =? 0).
    { unfold evaluate_constant, run_interpreter_const, typecode_from_char_err.
      rewrite <- Hs. clear Hs.
      repeat (cbv beta iota zeta;
              match goal with
              | |- context [if ?b then _ else _] => destruct b
              | |- context [match ?x with _ => _ end] =>
                lazymatch x with
                | context [match _ with _ => _ end] => fail
                | _ => destruct x
                end
              end);
        cbn [world_after failed set_err log_call calls In];
        intuition discriminate. }
    intros Hin. apply evaluate_with_iterators_parallel_call in Hin.
    rewrite Hs in Hin. exact Hin.
  - split.
    + intros gs oc sched self iter reduce_it rol nob w Hn Hfs.
      unfold run_interpreter.
      replace (nthreads gs =? 1) with false by lia. rewrite Hfs.
      reflexivity.
    + intros gs oc sched self iter rol nob w Hn Hfs.
      unfold run_interpreter.
      replace (nthreads gs =? 1) with false by lia. rewrite Hfs.
      cbn [orb].
      destruct (vm_engine_iter_parallel _ _ _ _ _ _ _ _ _ _ _ _ _)
        as [[[[r pe] msg] it1] hp1].
      destruct msg as [msg|]; [destruct (r <? 0) eqn:Er|];
        cbn [set_err log_call set_allocations calls allocations err];
        repeat split; try (intros N; contradiction N; reflexivity).
      intros _. exists msg. repeat split. lia.
Qed.

End Dispatch.

Section DispatchExample.
Local Existing Instance sample_headers.

(** Against C9 as stated: the program [sum r0, r1] over all axes is a
    reduction and passes [check_program].  [run_interpreter], entered
    with two threads, serial mode not forced and no nested iterator (a
    full reduction has none), runs the parallel engine on it: every task
    adds up its blocks into the outputs, and no error is set. *)
Lemma full_reduction_enters_parallel_engine :
  let self := sample_object [11; 0; 1; 255] in
  let '(r, pc_error, iter', reduce_iter', w') :=
    run_interpreter sample_exec_op sample_exec_reduce
      sample_ResetBasePointers (sample_gs 2) all_succeed
      [(0, 0); (1, 1); (0, 2)]%nat self (sample_iter 10) None false false
      sample_world in
  check_program self = Passed
  /\ (match last_opcode (program self) with Some op => op | None => 0 end
      >? OP_REDUCTION) = true
  /\ r = 0
  /\ err w' = None
  /\ calls w' = [ran_parallel 10]
  /\ it_cells iter'
     = [[6; 0]; [6; 1]; [6; 2]; [6; 3]; [22; 4]; [22; 5]; [22; 6]; [22; 7];
        [17; 8]; [17; 9]].
Proof. vm_compute. repeat split. Qed.

Lemma parallel_engine_not_entered_witness :
  ((match last_opcode (program (sample_object [2; 0; 1; 1])) with
    | Some op => op
    | None => 0
    end >? OP_REDUCTION) = false
   /\ 2 * BLOCK_SIZE1 <= 10)
  /\ run_interpreter sample_exec_op sample_exec_reduce
       sample_ResetBasePointers (sample_gs 2) all_succeed [] 
       (sample_object [11; 0; 1; 0]) (sample_iter 10) (Some (sample_iter 10))
       false false sample_world
     = (0, -1, sample_iter 10, Some (sample_iter 10),
        set_err (PyErr_SetString RuntimeError parallel_reduction_message)
          sample_world)
  /\ (let '(r', pc_error', iter', reduce_iter', w') :=
        run_interpreter sample_exec_op sample_exec_reduce
          sample_ResetBasePointers (sample_gs 2) all_succeed
          [(0, 0); (1, 1); (0, 2)]%nat (sample_object [11; 0; 1; 255])
          (sample_iter 10) None false false sample_world in
      r' = 0 /\ reduce_iter' = None /\ calls w' = [ran_parallel 10]).
Proof.
  split; [|split].
  - destruct (proj1 (parallel_engine_not_entered sample_exec_op
                       sample_exec_reduce sample_of_long
                       sample_ResetBasePointers sample_allocate
                       sample_FromArray sample_item sample_AdvancedNew)
                (sample_gs 2) all_succeed [(0, 0); (1, 1); (0, 2)]%nat
                (sample_object [2; 0; 1; 1]) [Py_Array (sample_array [10])]
                None sample_world 10) as [Hin|H].
    + vm_compute. left. reflexivity.
    + vm_compute in Hin. contradiction.
    + exact H.
  - apply (proj1 (proj2 (parallel_engine_not_entered sample_exec_op
                    sample_exec_reduce sample_of_long
                    sample_ResetBasePointers sample_allocate
                    sample_FromArray sample_item sample_AdvancedNew))).
    + discriminate.
    + reflexivity.
  - pose proof (proj2 (proj2 (parallel_engine_not_entered sample_exec_op
                    sample_exec_reduce sample_of_long
                    sample_ResetBasePointers sample_allocate
                    sample_FromArray sample_item sample_AdvancedNew))
                  (sample_gs 2) all_succeed [(0, 0); (1, 1); (0, 2)]%nat
                  (sample_object [11; 0; 1; 255]) (sample_iter 10) false
                  false sample_world ltac:(discriminate) eq_refl) as H.
    destruct (vm_engine_iter_parallel _ _ _ _ _ _ _ _ _ _ _ _ _)
      as [[[[r pe] msg] it1] hp1].
    destruct (run_interpreter _ _ _ _ _ _ _ _ _ _ _ _)
      as [[[[r' pe'] it'] rit'] w'].
    destruct H as (H1 & _ & _ & H4 & H5 & _).
    repeat split; assumption.
Defined.

End DispatchExample.

(** ** Empty inputs and the reduction unit (C10, C5) *)

Section EmptyInputs.
Context {hdr : Headers} {value : Type}.
Variable exec_op : Z -> Z -> Z -> Z -> list value -> value.
Variable exec_reduce :
  Z -> Z -> Z -> bool -> list (list value) -> list (list value).
Variable of_long : Z -> value.
Variable NpyIter_ResetBasePointers :
  NpyIter value -> list value -> Z * option string * NpyIter value.
Variable PyArray_allocate : list Z -> Z -> option Z.
Variable PyArray_FromArray : PyArrayObject -> Z -> option PyArrayObject.
Variable PyArray_item : PyArrayObject -> value.
Variable NpyIter_AdvancedNew : iter_request -> option (NpyIter value).

Lemma PyArray_SimpleNew_Some (dims : list Z) (typenum : Z)
  (a : PyArrayObject) :
  PyArray_SimpleNew PyArray_allocate dims typenum = Some a ->
  0 <= typenum /\ arr_dims a = dims /\ arr_typenum a = typenum.
Proof.
  unfold PyArray_SimpleNew. destruct (Z.ltb_spec typenum 0); [discriminate|].
  destruct (PyArray_allocate dims typenum); [|discriminate].
  intros [= <-]. auto.
Qed.

Lemma typecode_from_char_err_valid (c : Z) (w : world) :
  typecode_from_char c <> -1 ->
  typecode_from_char_err c w = (typecode_from_char c, w).
Proof.
  intros Hc. unfold typecode_from_char_err.
  destruct (Z.eqb_spec (typecode_from_char c) (-1)); [contradiction|].
  reflexivity.
Qed.

(** With a valid return signature the set-up of the output operand
    leaves the world as it is. *)
Lemma output_setup_world (is_reduction : bool) (self : NumExprObject value)
  (operands0 : option PyArrayObject) (operands : list PyArrayObject)
  (w w1 : world) (os : output_setup) :
  typecode_from_char (get_return_sig (program self)) <> -1 ->
  (if is_reduction then reduction_setup PyArray_allocate else plain_setup)
    self operands0 operands w = inr (os, w1) ->
  w1 = w.
Proof.
  intros Hc.
  assert ((typecode_from_char (get_return_sig (program self)) =? -1) = false)
    as E by lia.
  destruct is_reduction;
    unfold reduction_setup, plain_setup, typecode_from_char_err;
    rewrite ?E;
    repeat (cbv beta iota zeta;
            match goal with
            | |- context [if ?b then _ else _] => destruct b
            | |- context [match ?x with _ => _ end] =>
              lazymatch x with
              | context [match _ with _ => _ end] => fail
              | _ => destruct x
              end
            end);
    first [discriminate | intros [= _ <-]; reflexivity].
Qed.

Lemma first_empty_Some (operands : list PyArrayObject) (a : PyArrayObject) :
  first_empty operands = Some a -> In a operands /\ PyArray_SIZE a = 0.
Proof.
  unfold first_empty. intros E. apply find_some in E as [Hin Hsize].
  split; [assumption | lia].
Qed.

(** What [NumExpr_run] does once the checks on the arguments and the
    set-up of the output operand have passed and some input is empty. *)
Lemma NumExpr_run_empty_input (gs : global_state) (oc : alloc_outcomes)
  (sched : list (nat * nat)) (self : NumExprObject value) (args : list PyObject)
  (kwds : option kwargs) (w w1 : world) (casting order : Z) (vml nob : bool)
  (operands0 : option PyArrayObject) (operands : list PyArrayObject)
  (dtypes : list PyArray_Descr) (os : output_setup)
  (empty a : PyArrayObject) :
  PyString_Size (signature self) = Z.of_nat (List.length args) ->
  Z.of_nat (List.length args) + 1 <= NPY_MAXARGS ->
  parse_kwds kwds w = inr (casting, order, vml, operands0) ->
  convert_inputs (signature self) operands0 args false w
  = inr (operands, dtypes, nob) ->
  (if match last_opcode (program self) with Some op => op | None => 0 end
      >? OP_REDUCTION
   then reduction_setup PyArray_allocate else plain_setup)
    self operands0 operands w = inr (os, w1) ->
  first_empty operands = Some empty ->
  PyArray_SimpleNew PyArray_allocate (arr_dims empty)
    (typecode_from_char (get_return_sig (program self))) = Some a ->
  NumExpr_run exec_op exec_reduce of_long NpyIter_ResetBasePointers
    PyArray_allocate PyArray_FromArray PyArray_item NpyIter_AdvancedNew
    gs oc sched self args kwds w
  = {| ret := Some a; memory := [];
       gs_after := {| nthreads := nthreads gs; force_serial := false |};
       world_after := w |}
  /\ In empty operands /\ PyArray_SIZE empty = 0
  /\ arr_dims a = arr_dims empty
  /\ arr_typenum a = typecode_from_char (get_return_sig (program self)).
Proof.
  intros Hsig Hmax Hk Hc Hs He Ha.
  destruct (PyArray_SimpleNew_Some _ _ _ Ha) as (Ht & Hdims & Htype).
  destruct (first_empty_Some _ _ He) as (Hin & Hsize).
  assert (typecode_from_char (get_return_sig (program self)) <> -1) as Hvalid
    by lia.
  pose proof (output_setup_world _ _ _ _ _ _ _ Hvalid Hs) as ->.
  repeat split; auto.
  unfold NumExpr_run.
  rewrite Hsig, Z.eqb_refl. cbn [negb].
  replace (Z.of_nat (List.length args) + 1 >? NPY_MAXARGS) with false by lia.
  rewrite Hk, Hc, Hs, He.
  rewrite typecode_from_char_err_valid by assumption.
  rewrite Ha. reflexivity.
Qed.


End EmptyInputs.

Section EmptyInputsExamples.
Local Existing Instance sample_headers.



End EmptyInputsExamples.

Section ReductionUnit.
Context {hdr : Headers} {value : Type}.
Variable exec_op : Z -> Z -> Z -> Z -> list value -> value.
Variable exec_reduce :
  Z -> Z -> Z -> bool -> list (list value) -> list (list value).
Variable of_long : Z -> value.
Variable NpyIter_ResetBasePointers :
  NpyIter value -> list value -> Z * option string * NpyIter value.
Variable PyArray_allocate : list Z -> Z -> option Z.
Variable PyArray_FromArray : PyArrayObject -> Z -> option PyArrayObject.
Variable PyArray_item : PyArrayObject -> value.
Variable NpyIter_AdvancedNew : iter_request -> option (NpyIter value).

Lemma fill_output_cells (v : value) (iter : NpyIter value) :
  Forall (fun cell => hd_error cell = Some v) (it_cells (fill_output v iter)).
Proof.
  unfold fill_output. cbn [it_cells set_cells].
  apply List.Forall_forall. intros cell Hin.
  apply in_map_iff in Hin as (c & <- & _). reflexivity.
Qed.


End ReductionUnit.

Section ReductionUnitExamples.
Local Existing Instance sample_headers.



End ReductionUnitExamples.

(** ** Parallel and serial evaluation (C1) *)

Section BlockFacts.
Context {hdr : Headers} {value : Type}.
Variable exec_op : Z -> Z -> Z -> Z -> list value -> value.
Variable exec_reduce :
  Z -> Z -> Z -> bool -> list (list value) -> list (list value).

Abbreviation run_instrs := (interp_instrs exec_op exec_reduce).
Abbreviation run_body := (interp_body exec_op exec_reduce).

(** The status of a block is 0, -2 or -3; with 0 [*pc_error] is left as
    it was.  Neither the status nor the registers depend on what
    [*pc_error] held. *)
Lemma interp_instrs_outcome (params : vm_params value) (inner_loop : bool)
  (pcs : list Z) (pc_error : Z) (rows : list (list value)) :
  exists r rows',
    (forall pe, exists pe',
        run_instrs params inner_loop pcs pe rows = (r, pe', rows')
        /\ (r = 0 -> pe' = pe))
    /\ (r = 0 \/ r = -2 \/ r = -3).
Proof.
  revert rows. induction pcs as [|pc pcs IH]; intros rows.
  - exists 0, rows. split; [|auto]. intros pe. exists pe. auto.
  - cbn [interp_instrs].
    destruct (_ =? OP_NOOP); [apply IH|].
    destruct (negb _).
    { exists (-3), rows. split; [|auto]. intros pe. exists pc.
      split; [reflexivity | discriminate]. }
    destruct (existsb _ _).
    { exists (-2), rows. split; [|auto]. intros pe. exists pc.
      split; [reflexivity | discriminate]. }
    apply IH.
Qed.

Lemma exec_instr_length (op store_in arg1 arg2 arg3 : Z)
  (rows : list (list value)) :
  op <= OP_REDUCTION ->
  List.length (exec_instr exec_op exec_reduce true op store_in arg1 arg2 arg3
                 rows)
  = List.length rows.
Proof.
  intros Hop. unfold exec_instr.
  replace (op >? OP_REDUCTION) with false by lia.
  apply length_map.
Qed.

Lemma interp_instrs_length (params : vm_params value) (pcs : list Z)
  (pc_error : Z) (rows : list (list value)) :
  Forall (fun pc => nth (Z.to_nat pc) (vp_program params) 0 <= OP_REDUCTION)
         pcs ->
  List.length (snd (run_instrs params true pcs pc_error rows))
  = List.length rows.
Proof.
  intros Hplain. revert pc_error rows.
  induction Hplain as [|pc pcs Hpc _ IH]; intros pc_error rows;
    [reflexivity|].
  cbn [interp_instrs].
  destruct (_ =? OP_NOOP); [apply IH|].
  destruct (negb _); [reflexivity|].
  destruct (existsb _ _); [reflexivity|].
  rewrite IH. apply exec_instr_length, Hpc.
Qed.

Lemma plain_program_spec (params : vm_params value) :
  plain_program params = true ->
  Forall (fun pc => nth (Z.to_nat pc) (vp_program params) 0 <= OP_REDUCTION)
         (instr_pcs (vp_prog_len params)).
Proof.
  unfold plain_program. rewrite forallb_forall, List.Forall_forall.
  intros H pc Hin. specialize (H pc Hin). lia.
Qed.

(** A block of a program without reduction is as long after the body as
    before. *)
Lemma interp_body_length (params : vm_params value) (nob : bool) (n : Z)
  (block : list (list value)) (pc_error : Z) :
  plain_program params = true ->
  List.length (snd (run_body params true nob n block pc_error))
  = List.length block.
Proof.
  intros Hplain. unfold interp_body.
  pose proof (interp_instrs_length params (instr_pcs (vp_prog_len params))
                pc_error
                (map (fun cell => cell ++ vp_mem params)
                     (firstn (Z.to_nat n) block))
                (plain_program_spec params Hplain)) as Hlen.
  destruct (run_instrs _ _ _ _ _) as [[r pe] rows']. cbn [snd] in *.
  rewrite length_app, length_map, length_combine, Hlen, length_map.
  rewrite Nat.min_id, <- length_app, firstn_skipn. reflexivity.
Qed.

(** The status and the block after the body, and that a status 0 leaves
    [*pc_error] alone, whatever it held. *)
Lemma interp_body_outcome (params : vm_params value) (inner_loop nob : bool)
  (n : Z) (block : list (list value)) :
  exists r block',
    (forall pe, exists pe',
        run_body params inner_loop nob n block pe = (r, pe', block')
        /\ (r = 0 -> pe' = pe))
    /\ (r = 0 \/ r = -2 \/ r = -3).
Proof.
  unfold interp_body.
  destruct (interp_instrs_outcome params inner_loop
              (instr_pcs (vp_prog_len params)) 0
              (map (fun cell => cell ++ vp_mem params)
                   (firstn (Z.to_nat n) block)))
    as (r & rows' & Hall & Hr).
  eexists r, _. split; [|exact Hr].
  intros pe. destruct (Hall pe) as (pe' & E & Hpe). exists pe'.
  rewrite E. split; [reflexivity | exact Hpe].
Qed.

(** Whether the instructions fail, and at which one, is a matter of the
    program alone: neither the registers nor what [*pc_error] held have
    a say. *)
Lemma interp_instrs_status (params : vm_params value) (inner_loop : bool)
  (pcs : list Z) :
  forall (pe1 pe2 : Z) (rows1 rows2 : list (list value)),
    fst (fst (run_instrs params inner_loop pcs pe1 rows1))
    = fst (fst (run_instrs params inner_loop pcs pe2 rows2))
    /\ (fst (fst (run_instrs params inner_loop pcs pe1 rows1)) <> 0 ->
        snd (fst (run_instrs params inner_loop pcs pe1 rows1))
        = snd (fst (run_instrs params inner_loop pcs pe2 rows2))).
Proof.
  induction pcs as [|pc pcs IH]; intros pe1 pe2 rows1 rows2.
  - cbn. split; [reflexivity | congruence].
  - cbn [interp_instrs].
    destruct (_ =? OP_NOOP); [apply IH|].
    destruct (negb _); [cbn; auto|].
    destruct (existsb _ _); [cbn; auto|].
    apply IH.
Qed.

Lemma interp_body_status (params : vm_params value)
  (inner_loop nob1 nob2 : bool) (n1 n2 : Z)
  (block1 block2 : list (list value)) (pe1 pe2 : Z) :
  fst (fst (run_body params inner_loop nob1 n1 block1 pe1))
  = fst (fst (run_body params inner_loop nob2 n2 block2 pe2))
  /\ (fst (fst (run_body params inner_loop nob1 n1 block1 pe1)) <> 0 ->
      snd (fst (run_body params inner_loop nob1 n1 block1 pe1))
      = snd (fst (run_body params inner_loop nob2 n2 block2 pe2))).
Proof.
  unfold interp_body.
  pose proof (interp_instrs_status params inner_loop
                (instr_pcs (vp_prog_len params)) pe1 pe2
                (map (fun cell => cell ++ vp_mem params)
                     (firstn (Z.to_nat n1) block1))
                (map (fun cell => cell ++ vp_mem params)
                     (firstn (Z.to_nat n2) block2))) as H.
  destruct (run_instrs _ _ _ pe1 _) as [[r1 p1] rows1'].
  destruct (run_instrs _ _ _ pe2 _) as [[r2 p2] rows2'].
  exact H.
Qed.

(** With an output buffer, a block that fails has its outputs as they
    were: the buffer is copied to the output at the end of the body
    only. *)
Lemma interp_body_buffered_output (params : vm_params value) (n : Z)
  (block : list (list value)) (pc_error : Z) :
  plain_program params = true ->
  vp_out_buffer params = true ->
  fst (fst (run_body params true false n block pc_error)) < 0 ->
  map hd_error (snd (run_body params true false n block pc_error))
  = map hd_error block.
Proof.
  intros Hplain Hbuf. unfold interp_body.
  pose proof (interp_instrs_length params (instr_pcs (vp_prog_len params))
                pc_error
                (map (fun cell => cell ++ vp_mem params)
                     (firstn (Z.to_nat n) block))
                (plain_program_spec params Hplain)) as Hlen.
  destruct (run_instrs _ _ _ _ _) as [[r pe] rows']. cbn [fst snd] in *.
  intros Hr. rewrite Hbuf. replace (r <? 0) with true by lia.
  cbn [negb andb]. rewrite length_map in Hlen.
  rewrite <- (firstn_skipn (Z.to_nat n) block) at 3.
  rewrite !map_app. f_equal. rewrite map_map.
  revert rows' Hlen.
  induction (firstn (Z.to_nat n) block) as [|cell cells IH];
    intros rows' Hlen; [reflexivity|].
  destruct rows' as [|row' rows']; [discriminate|].
  cbn [combine map fst snd]. f_equal.
  - destruct cell; reflexivity.
  - apply IH. cbn [List.length] in Hlen. lia.
Qed.

End BlockFacts.

Section ChunkFacts.
Context {A : Type}.
Implicit Types (l : list A) (n : nat).

Lemma chunks_upto_fuel n (fuel1 fuel2 : nat) l :
  (0 < n)%nat -> (List.length l <= fuel1)%nat ->
  (List.length l <= fuel2)%nat ->
  chunks_upto fuel1 n l = chunks_upto fuel2 n l.
Proof.
  intros Hn. revert fuel2 l.
  induction fuel1 as [|fuel1 IH]; intros fuel2 l H1 H2.
  - destruct l; [|cbn in H1; lia]. destruct fuel2; reflexivity.
  - destruct l as [|x l]; [destruct fuel2; reflexivity|].
    destruct fuel2 as [|fuel2]; [cbn in H2; lia|].
    cbn [chunks_upto]. f_equal.
    apply IH; rewrite length_skipn; cbn [List.length] in *; lia.
Qed.

Lemma chunks_nil n : chunks n (@nil A) = [].
Proof. reflexivity. Qed.

Lemma chunks_step n l :
  (0 < n)%nat -> l <> [] ->
  chunks n l = firstn n l :: chunks n (skipn n l).
Proof.
  intros Hn Hl. unfold chunks.
  destruct l as [|x l]; [congruence|].
  cbn [List.length chunks_upto]. f_equal.
  apply chunks_upto_fuel; try lia.
  rewrite length_skipn. cbn [List.length]. lia.
Qed.

(** Induction along the pieces of a list. *)
Lemma chunks_induction n (Hn : (0 < n)%nat) (P : list A -> Prop) :
  P [] ->
  (forall l, l <> [] -> P (skipn n l) -> P l) ->
  forall l, P l.
Proof.
  intros Hnil Hstep l.
  remember (List.length l) as m eqn:Hm.
  revert l Hm. induction m as [m IH] using lt_wf_ind. intros l Hm.
  destruct l as [|x l]; [exact Hnil|].
  apply Hstep; [discriminate|].
  apply (IH (List.length (skipn n (x :: l)))); [|reflexivity].
  rewrite length_skipn. subst m. cbn [List.length]. lia.
Qed.

Lemma concat_chunks n l : (0 < n)%nat -> concat (chunks n l) = l.
Proof.
  intros Hn. induction l as [|l Hl IH] using (chunks_induction n Hn);
    [reflexivity|].
  rewrite chunks_step by assumption. cbn [concat].
  rewrite IH. apply firstn_skipn.
Qed.

Lemma chunks_shaped n l : (0 < n)%nat -> block_shaped n (chunks n l).
Proof.
  intros Hn. induction l as [|l Hl IH] using (chunks_induction n Hn);
    [constructor|].
  rewrite chunks_step by assumption.
  destruct (le_lt_dec n (List.length l)) as [Hge|Hlt].
  - apply block_shaped_cons; [|exact IH].
    rewrite length_firstn. lia.
  - rewrite skipn_all2 by lia. rewrite chunks_nil.
    apply block_shaped_last. rewrite length_firstn.
    destruct l; [congruence|]. cbn [List.length] in *. lia.
Qed.

Lemma chunks_app n (k : nat) l1 l2 :
  (0 < n)%nat -> List.length l1 = (k * n)%nat ->
  chunks n (l1 ++ l2) = chunks n l1 ++ chunks n l2.
Proof.
  intros Hn. revert l1. induction k as [|k IH]; intros l1 Hlen.
  - destruct l1; [reflexivity | discriminate].
  - assert (Hl1 : l1 <> []) by (intros ->; cbn in Hlen; lia).
    assert (Hl12 : l1 ++ l2 <> []) by (destruct l1; [congruence|discriminate]).
    rewrite (chunks_step n (l1 ++ l2)), (chunks_step n l1) by assumption.
    rewrite firstn_app, skipn_app.
    replace (n - List.length l1)%nat with 0%nat by lia.
    cbn [firstn skipn]. rewrite app_nil_r. cbn [app]. f_equal.
    apply IH. rewrite length_skipn. lia.
Qed.

(** Cutting into pieces of [k * n] and each piece into pieces of [n] is
    cutting into pieces of [n]. *)
Lemma chunks_regroup n (k : nat) l :
  (0 < n)%nat -> (0 < k)%nat ->
  concat (map (chunks n) (chunks (k * n) l)) = chunks n l.
Proof.
  intros Hn Hk. assert (Hkn : (0 < k * n)%nat) by nia.
  induction l as [|l Hl IH] using (chunks_induction (k * n) Hkn);
    [reflexivity|].
  rewrite (chunks_step (k * n)) by assumption. cbn [map concat].
  rewrite IH. rewrite <- (firstn_skipn (k * n) l) at 3.
  destruct (le_lt_dec (k * n) (List.length l)) as [Hge|Hlt].
  - symmetry. apply (chunks_app n k); [exact Hn|].
    rewrite length_firstn. lia.
  - rewrite skipn_all2 by lia. rewrite chunks_nil, !app_nil_r. reflexivity.
Qed.

End ChunkFacts.

Section SerialBlocks.
Context {hdr : Headers} {value : Type}.
Variable exec_op : Z -> Z -> Z -> Z -> list value -> value.
Variable exec_reduce :
  Z -> Z -> Z -> bool -> list (list value) -> list (list value).
Variable params : vm_params value.

Abbreviation body n block pc_error :=
  (interp_body exec_op exec_reduce params true false n block pc_error).
Abbreviation status := (body_status exec_op exec_reduce params).
Abbreviation result := (body_result exec_op exec_reduce params).
Abbreviation blocks_run := (run_blocks exec_op exec_reduce params).

Lemma body_passed (block : list (list value)) (pc_error : Z) :
  status block = 0 ->
  body (Z.of_nat (List.length block)) block pc_error
  = (0, pc_error, result block).
Proof.
  unfold body_status, body_result.
  destruct (interp_body_outcome exec_op exec_reduce params true false
              (Z.of_nat (List.length block)) block)
    as (r & block' & Hall & _).
  destruct (Hall 0) as (pe0 & E0 & _).
  destruct (Hall pc_error) as (pe & E & Hpe).
  rewrite E0, E. cbn [fst snd]. intros ->. rewrite Hpe; reflexivity.
Qed.

Lemma body_failed (block : list (list value)) (pc_error : Z) :
  status block <> 0 ->
  exists r pe block',
    body (Z.of_nat (List.length block)) block pc_error = (r, pe, block')
    /\ r < 0.
Proof.
  unfold body_status.
  destruct (interp_body_outcome exec_op exec_reduce params true false
              (Z.of_nat (List.length block)) block)
    as (r & block' & Hall & Hr).
  destruct (Hall 0) as (pe0 & E0 & _).
  destruct (Hall pc_error) as (pe & E & _).
  rewrite E0. cbn [fst]. intros Hne.
  exists r, pe, block'. split; [exact E | lia].
Qed.

(** When one block fails every block does, with the same status at the
    same instruction. *)
Lemma body_fails (block0 : list (list value)) :
  status block0 <> 0 ->
  exists r pe,
    r < 0
    /\ forall (block : list (list value)) (n pc_error : Z),
         fst (body n block pc_error) = (r, pe).
Proof.
  unfold body_status.
  destruct (interp_body_outcome exec_op exec_reduce params true false
              (Z.of_nat (List.length block0)) block0)
    as (r & block' & Hall & Hr).
  destruct (Hall 0) as (pe0 & E0 & _).
  rewrite E0. cbn [fst]. intros Hne.
  exists r, pe0. split; [lia|]. intros block n pc_error.
  destruct (interp_body_status exec_op exec_reduce params true false false
              (Z.of_nat (List.length block0)) n block0 block 0 pc_error)
    as [Hst Hpc].
  rewrite E0 in Hst, Hpc. cbn [fst snd] in Hst, Hpc.
  destruct (interp_body _ _ _ _ _ n block pc_error) as [[r' pe'] b'].
  cbn [fst snd] in *. rewrite <- Hst, <- (Hpc Hne). reflexivity.
Qed.

(** When one block passes every block does. *)
Lemma body_passes (block0 block : list (list value)) :
  status block0 = 0 -> status block = 0.
Proof.
  unfold body_status. intros H.
  rewrite (proj1 (interp_body_status exec_op exec_reduce params true
                    false false (Z.of_nat (List.length block))
                    (Z.of_nat (List.length block0)) block block0 0 0)).
  exact H.
Qed.

(** On the blocks of an iterator the two loops of the driver run every
    block with its own length. *)
Lemma engine_loops_run_blocks (blocks : list (list (list value)))
  (pc_error : Z) :
  0 < BLOCK_SIZE1 ->
  block_shaped (Z.to_nat BLOCK_SIZE1) blocks ->
  engine_loops exec_op exec_reduce params true false blocks pc_error
  = blocks_run blocks pc_error.
Proof.
  intros HB Hshape. revert pc_error.
  induction Hshape as [|b Hb|b bl Hb Hshape IH]; intros pc_error.
  - unfold engine_loops. cbn. reflexivity.
  - unfold engine_loops.
    cbn [fixed_size_loop run_blocks remainder_loop].
    destruct (Z.of_nat (List.length b) =? BLOCK_SIZE1) eqn:Efull.
    + apply Z.eqb_eq in Efull. rewrite Efull.
      destruct (interp_body _ _ _ _ _ _ _ _) as [[r pe] b'].
      destruct (r <? 0) eqn:Er; cbn; rewrite ?Er; reflexivity.
    + cbn [Z.ltb Z.compare].
      replace (Z.of_nat (List.length b) >? 0) with true by lia.
      cbn [remainder_loop].
      destruct (interp_body _ _ _ _ _ _ _ _) as [[r pe] b'].
      destruct (r <? 0); reflexivity.
  - unfold engine_loops in *.
    cbn [fixed_size_loop run_blocks].
    replace (Z.of_nat (List.length b) =? BLOCK_SIZE1) with true by lia.
    replace (Z.of_nat (List.length b)) with BLOCK_SIZE1 by lia.
    destruct (interp_body _ _ _ _ _ _ _ _) as [[r pe] b'].
    destruct (r <? 0) eqn:Er; [rewrite ?Er; reflexivity|].
    rewrite <- IH.
    destruct (fixed_size_loop _ _ _ _ _ _ _) as [[[r' pe'] fin] pend].
    destruct (r' <? 0); [reflexivity|].
    destruct (_ >? 0).
    + destruct (remainder_loop _ _ _ _ _ _ _ _) as [[r'' pe''] fin'].
      reflexivity.
    + reflexivity.
Qed.

Lemma run_blocks_passed (blocks : list (list (list value))) (pc_error : Z) :
  Forall (fun b => status b = 0) blocks ->
  blocks_run blocks pc_error = (0, pc_error, map result blocks).
Proof.
  induction 1 as [|b bl Hb _ IH]; [reflexivity|].
  cbn [run_blocks map].
  rewrite (body_passed b pc_error Hb). cbn [Z.ltb Z.compare].
  rewrite IH. reflexivity.
Qed.

Lemma run_blocks_status_0 (blocks : list (list (list value)))
  (pc_error pe : Z) (finished : list (list (list value))) :
  blocks_run blocks pc_error = (0, pe, finished) ->
  Forall (fun b => status b = 0) blocks.
Proof.
  revert finished. induction blocks as [|b bl IH]; intros finished;
    [constructor|].
  cbn [run_blocks].
  destruct (Z.eq_dec (status b) 0) as [Hb|Hb].
  - rewrite (body_passed b pc_error Hb). cbn [Z.ltb Z.compare].
    destruct (run_blocks _ _ _ _ _) as [[r' pe'] fin] eqn:E.
    intros [= -> -> <-]. constructor; [exact Hb|]. eapply IH; reflexivity.
  - destruct (body_failed b pc_error Hb) as (r & pe0 & b' & E & Hr).
    rewrite E. replace (r <? 0) with true by lia.
    intros [= -> _ _]. lia.
Qed.

End SerialBlocks.

Section RangeFacts.
Context {A : Type}.
Implicit Types (l pre post r new : list A).

Lemma slice_middle pre r post :
  slice (Z.of_nat (List.length pre))
        (Z.of_nat (List.length pre) + Z.of_nat (List.length r))
        (pre ++ r ++ post) = r.
Proof.
  unfold slice.
  replace (Z.to_nat (_ + _ - _)) with (List.length r) by lia.
  rewrite Nat2Z.id, skipn_app, skipn_all, Nat.sub_diag, skipn_O.
  cbn [app].
  rewrite firstn_app, firstn_all, Nat.sub_diag, firstn_O.
  apply app_nil_r.
Qed.

Lemma splice_middle pre r post new :
  List.length new = List.length r ->
  splice (Z.of_nat (List.length pre)) new (pre ++ r ++ post)
  = pre ++ new ++ post.
Proof.
  intros Hlen. unfold splice. rewrite Nat2Z.id, Hlen.
  rewrite firstn_app, firstn_all, Nat.sub_diag, firstn_O.
  rewrite app_nil_r. f_equal. f_equal.
  rewrite skipn_app.
  replace (List.length pre + List.length r - List.length pre)%nat
    with (List.length r) by lia.
  rewrite (skipn_all2 pre) by lia. cbn [app].
  rewrite skipn_app, skipn_all, Nat.sub_diag, skipn_O. reflexivity.
Qed.

(** A list is what precedes an index range, the range, and what
    follows. *)
Lemma slice_decomposition (a b : Z) l :
  0 <= a <= b -> b <= Z.of_nat (List.length l) ->
  l = firstn (Z.to_nat a) l ++ slice a b l ++ skipn (Z.to_nat b) l.
Proof.
  intros Hab Hb. unfold slice.
  rewrite <- (firstn_skipn (Z.to_nat a) l) at 1. f_equal.
  rewrite <- (firstn_skipn (Z.to_nat (b - a)) (skipn (Z.to_nat a) l)) at 1.
  f_equal. rewrite skipn_skipn. f_equal. lia.
Qed.

Lemma slice_length (a b : Z) l :
  0 <= a <= b -> b <= Z.of_nat (List.length l) ->
  List.length (slice a b l) = Z.to_nat (b - a).
Proof.
  intros Hab Hb. unfold slice. rewrite length_firstn, length_skipn. lia.
Qed.

Lemma chunks_count (n : nat) l :
  (0 < n)%nat ->
  List.length (chunks n l) = ((List.length l + n - 1) / n)%nat.
Proof.
  intros Hn. induction l as [|l Hl IH] using (chunks_induction n Hn).
  - cbn [chunks chunks_upto List.length]. symmetry.
    apply Nat.div_small. lia.
  - rewrite chunks_step by assumption. cbn [List.length]. rewrite IH.
    rewrite length_skipn.
    destruct (le_lt_dec n (List.length l)) as [Hge|Hlt].
    + replace (List.length l + n - 1)%nat
        with ((List.length l - n + n - 1) + 1 * n)%nat by lia.
      rewrite Nat.div_add by lia. lia.
    + replace (List.length l - n)%nat with 0%nat by lia.
      assert (0 < List.length l)%nat
        by (destruct l; [congruence | cbn; lia]).
      replace ((0 + n - 1) / n)%nat with 0%nat
        by (symmetry; apply Nat.div_small; lia).
      replace (List.length l + n - 1)%nat
        with ((List.length l - 1) + 1 * n)%nat by lia.
      rewrite Nat.div_add by lia.
      rewrite Nat.div_small by lia. reflexivity.
Qed.

(** In a list of blocks, those before a block are full; the block itself
    is not empty, and full unless it is the last. *)
Lemma block_shaped_at (n : nat) (c1 c2 : list (list A)) (c : list A) :
  (0 < n)%nat ->
  block_shaped n (c1 ++ c :: c2) ->
  List.length (concat c1) = (List.length c1 * n)%nat
  /\ (0 < List.length c <= n)%nat
  /\ (c2 <> [] -> List.length c = n).
Proof.
  intros Hn.
  induction c1 as [|b c1 IH]; cbn [app]; intros Hs.
  - cbn. inversion Hs as [|b Hb|b bl Hb Hbl]; subst.
    + split; [reflexivity|]. split; [lia|congruence].
    + split; [reflexivity|]. split; [lia|auto].
  - inversion Hs as [|b0 Hb|b0 bl Hb Hbl]; subst.
    + destruct c1; discriminate.
    + destruct (IH Hbl) as (H1 & H2 & H3).
      cbn [concat List.length]. rewrite length_app, H1.
      split; [lia|]. split; assumption.
Qed.

Lemma block_shaped_lengths (n : nat) (a b : list (list A)) :
  map (@List.length A) a = map (@List.length A) b ->
  block_shaped n a -> block_shaped n b.
Proof.
  intros Hmap Hs. revert b Hmap.
  induction Hs as [|x Hx|x a Hx Hs IH]; intros b Hmap.
  - destruct b; [constructor | discriminate].
  - destruct b as [|y [|z b]]; try discriminate.
    injection Hmap as Hy. apply block_shaped_last. lia.
  - destruct b as [|y b]; [discriminate|].
    injection Hmap as Hy Hrest.
    apply block_shaped_cons; [lia | apply IH, Hrest].
Qed.

Lemma concat_length_by_lengths (a b : list (list A)) :
  map (@List.length A) a = map (@List.length A) b ->
  List.length (concat a) = List.length (concat b).
Proof.
  revert b. induction a as [|x a IH]; intros [|y b] Hmap;
    try discriminate; [reflexivity|].
  injection Hmap as Hy Hrest. cbn [concat].
  rewrite !length_app, Hy, (IH b Hrest). reflexivity.
Qed.

End RangeFacts.

Section TaskFrame.
Context {hdr : Headers} {value : Type}.
Variable exec_op : Z -> Z -> Z -> Z -> list value -> value.
Variable exec_reduce :
  Z -> Z -> Z -> bool -> list (list value) -> list (list value).

(** The drivers write through an iterator and leave it the iterator it
    was. *)
Lemma engine_on_iter_identity (params : vm_params value)
  (inner_loop nob : bool) (iter : NpyIter value) (pc_error : Z) :
  iterator_identity (snd (engine_on_iter exec_op exec_reduce params
                            inner_loop nob iter pc_error))
  = iterator_identity iter.
Proof.
  unfold engine_on_iter. destruct (it_iternext_errmsg iter); [reflexivity|].
  destruct (engine_loops _ _ _ _ _ _ _) as [[r pe] blocks']. reflexivity.
Qed.

(** The turns of the threads leave every thread the iterator it had. *)
Lemma run_tasks_identity (params : vm_params value) (start vlen bs : Z)
  (th_memsteps : list Z) (sched : list (nat * nat)) :
  forall (iters : list (NpyIter value)) (cells : list (list value))
         (pc_error : Z),
    map iterator_identity
        (snd (fst (run_tasks exec_op exec_reduce params start vlen bs sched
                     iters th_memsteps cells pc_error)))
    = map iterator_identity iters.
Proof.
  induction sched as [|[tid t] rest IH]; intros iters cells pc_error;
    [reflexivity|].
  cbn [run_tasks].
  destruct (iters !! tid) as [it|] eqn:Hit; [|reflexivity].
  destruct (th_memsteps !! tid) as [m|]; [|reflexivity].
  destruct (task_range start vlen bs t) as [a b].
  pose proof (engine_on_iter_identity params true false
                (NpyIter_ResetToIterIndexRange (set_cells cells it) a b)
                pc_error) as He.
  unfold vm_engine_iter_task.
  destruct (engine_on_iter _ _ _ _ _ _ _) as [[[r pe] msg] iter1].
  cbn [snd] in He.
  assert (Hins : map iterator_identity (<[tid := iter1]> iters)
                 = map iterator_identity iters).
  { change (iterator_identity <$> <[tid := iter1]> iters
            = iterator_identity <$> iters).
    rewrite list_fmap_insert. apply list_insert_id.
    rewrite list_lookup_fmap, Hit. cbn. f_equal. rewrite He. reflexivity. }
  destruct (r <? 0); [exact Hins|].
  rewrite IH. exact Hins.
Qed.

End TaskFrame.

Section ParallelTasks.
Context {hdr : Headers} {value : Type}.
Variable exec_op : Z -> Z -> Z -> Z -> list value -> value.
Variable exec_reduce :
  Z -> Z -> Z -> bool -> list (list value) -> list (list value).
Variable params : vm_params value.
Hypothesis HB : 0 < BLOCK_SIZE1.
Hypothesis Hplain : plain_program params = true.

Abbreviation block_passes :=
  (fun b => body_status exec_op exec_reduce params b = 0).
Abbreviation after_task := (task_result exec_op exec_reduce params).
Abbreviation iter_task := (vm_engine_iter_task exec_op exec_reduce).

Lemma body_result_length (b : list (list value)) :
  List.length (body_result exec_op exec_reduce params b) = List.length b.
Proof. apply interp_body_length, Hplain. Qed.

Lemma task_result_length (region : list (list value)) :
  List.length (after_task region) = List.length region.
Proof.
  unfold task_result.
  rewrite <- (concat_chunks (Z.to_nat BLOCK_SIZE1) region) at 2 by lia.
  induction (chunks (Z.to_nat BLOCK_SIZE1) region) as [|b bl IH];
    [reflexivity|].
  cbn [map concat]. rewrite !length_app, IH, body_result_length.
  reflexivity.
Qed.

Lemma vm_engine_iter_task_blocks (iter : NpyIter value) (pc_error : Z) :
  it_iternext_errmsg iter = None ->
  iter_task iter params pc_error
  = let '(r, pe, blocks') :=
      run_blocks exec_op exec_reduce params (NpyIter_blocks iter) pc_error in
    (r, pe, None,
     set_cells (splice (it_start iter) (concat blocks') (it_cells iter))
               iter).
Proof.
  intros Hmsg. unfold vm_engine_iter_task, engine_on_iter. rewrite Hmsg.
  rewrite engine_loops_run_blocks; [reflexivity | exact HB |].
  apply chunks_shaped. lia.
Qed.

(** A pass of the sequential driver over its range: every block passed,
    [*pc_error] is as before, and the range holds the results. *)
Lemma vm_engine_iter_task_passed (iter iter' : NpyIter value)
  (pc_error pe : Z) :
  iter_task iter params pc_error = (0, pe, None, iter') ->
  it_iternext_errmsg iter = None
  /\ pe = pc_error
  /\ Forall block_passes (NpyIter_blocks iter)
  /\ iter' = set_cells
               (splice (it_start iter)
                  (after_task
                     (slice (it_start iter) (it_end iter) (it_cells iter)))
                  (it_cells iter)) iter.
Proof.
  intros Hrun.
  assert (Hmsg : it_iternext_errmsg iter = None).
  { unfold vm_engine_iter_task, engine_on_iter in Hrun.
    destruct (it_iternext_errmsg iter); [discriminate | reflexivity]. }
  rewrite (vm_engine_iter_task_blocks iter pc_error Hmsg) in Hrun.
  destruct (run_blocks _ _ _ _ _) as [[r pe0] blocks'] eqn:Eblocks.
  injection Hrun as -> -> <-.
  pose proof (run_blocks_status_0 _ _ _ _ _ _ _ Eblocks) as Hall.
  rewrite (run_blocks_passed _ _ _ _ _ Hall) in Eblocks.
  injection Eblocks as <- <-.
  repeat split; try assumption; reflexivity.
Qed.

Lemma vm_engine_iter_task_passes (iter : NpyIter value) (pc_error : Z) :
  it_iternext_errmsg iter = None ->
  Forall block_passes (NpyIter_blocks iter) ->
  iter_task iter params pc_error
  = (0, pc_error, None,
     set_cells
       (splice (it_start iter)
          (after_task (slice (it_start iter) (it_end iter) (it_cells iter)))
          (it_cells iter)) iter).
Proof.
  intros Hmsg Hall. rewrite (vm_engine_iter_task_blocks iter pc_error Hmsg).
  rewrite (run_blocks_passed _ _ _ _ _ Hall). reflexivity.
Qed.

(** A pass of the sequential driver over a range that is not empty, when
    the blocks fail: it ends at the first block with the status and the
    instruction of the failure, and with an output buffer the outputs
    are as they were. *)
Lemma vm_engine_iter_task_fails (r pe : Z) (iter : NpyIter value)
  (pc_error : Z) :
  r < 0 ->
  (forall (block : list (list value)) (n pc_error : Z),
     fst (interp_body exec_op exec_reduce params true false n block pc_error)
     = (r, pe)) ->
  it_iternext_errmsg iter = None ->
  0 <= it_start iter < it_end iter ->
  it_end iter <= NpyIter_GetIterSize iter ->
  exists cells',
    iter_task iter params pc_error = (r, pe, None, set_cells cells' iter)
    /\ (vp_out_buffer params = true ->
        map hd_error cells' = map hd_error (it_cells iter)).
Proof.
  intros Hr Hfail Hmsg Hrange Hend. unfold NpyIter_GetIterSize in Hend.
  rewrite (vm_engine_iter_task_blocks iter pc_error Hmsg).
  unfold NpyIter_blocks.
  set (mid := slice (it_start iter) (it_end iter) (it_cells iter)).
  assert (Hmid : List.length mid = Z.to_nat (it_end iter - it_start iter))
    by (apply slice_length; lia).
  assert (Hne : mid <> []).
  { intros E. rewrite E in Hmid. cbn [List.length] in Hmid. lia. }
  rewrite chunks_step by (lia || assumption). cbn [run_blocks].
  set (b := firstn (Z.to_nat BLOCK_SIZE1) mid).
  pose proof (Hfail b (Z.of_nat (List.length b)) pc_error) as E.
  pose proof (interp_body_length exec_op exec_reduce params false
                (Z.of_nat (List.length b)) b pc_error Hplain) as Hlen.
  pose proof (interp_body_buffered_output exec_op exec_reduce params
                (Z.of_nat (List.length b)) b pc_error Hplain) as Hout.
  destruct (interp_body _ _ _ _ _ _ b pc_error) as [[r' pe'] b'].
  cbn [fst snd] in *. injection E as -> ->.
  replace (r <? 0) with true by lia.
  eexists. split; [reflexivity|]. intros Hbuf.
  cbn [concat]. rewrite concat_chunks by lia.
  specialize (Hout Hbuf Hr).
  pose proof (slice_decomposition (it_start iter) (it_end iter)
                (it_cells iter) ltac:(lia) Hend) as Hcells.
  fold mid in Hcells.
  assert (Hpre : it_start iter
                 = Z.of_nat (List.length (firstn (Z.to_nat (it_start iter))
                                            (it_cells iter)))).
  { rewrite length_firstn. lia. }
  clearbody mid. revert Hcells Hpre.
  generalize (firstn (Z.to_nat (it_start iter)) (it_cells iter)) as pre.
  generalize (skipn (Z.to_nat (it_end iter)) (it_cells iter)) as post.
  intros post pre Hcells Hpre. rewrite Hpre, Hcells.
  rewrite splice_middle.
  - rewrite !map_app. f_equal. f_equal.
    rewrite Hout, <- map_app. unfold b.
    rewrite firstn_skipn. reflexivity.
  - rewrite length_app, Hlen. unfold b. rewrite <- length_app, firstn_skipn.
    reflexivity.
Qed.

Section Regions.
Variables pre post : list (list value).
Variable regions : list (list (list value)).
Variable n : nat.
Hypothesis Hn : (0 < n)%nat.
Hypothesis Hshape : block_shaped n regions.
Hypothesis Hok :
  Forall (fun r => Forall block_passes (chunks (Z.to_nat BLOCK_SIZE1) r))
         regions.

Abbreviation range_start := (Z.of_nat (List.length pre)).
Abbreviation range_end :=
  (Z.of_nat (List.length pre) + Z.of_nat (List.length (concat regions))).

(** The index range of task [t] is that of the [t]-th piece. *)
Lemma task_range_region (c1 c2 : list (list (list value)))
  (c : list (list value)) :
  map (@List.length _) (c1 ++ c :: c2) = map (@List.length _) regions ->
  task_range range_start range_end (Z.of_nat n) (List.length c1)
  = (Z.of_nat (List.length (pre ++ concat c1)),
     Z.of_nat (List.length (pre ++ concat c1)) + Z.of_nat (List.length c)).
Proof.
  intros Hlen.
  pose proof (block_shaped_lengths n _ _ (eq_sym Hlen) Hshape) as Hs.
  destruct (block_shaped_at n c1 c2 c Hn Hs) as (H1 & H2 & H3).
  pose proof (concat_length_by_lengths _ _ Hlen) as Hc.
  rewrite concat_app in Hc. cbn [concat] in Hc. rewrite !length_app in Hc.
  unfold task_range. rewrite length_app, H1.
  destruct c2 as [|c' c2'].
  - cbn [concat List.length] in Hc. f_equal; lia.
  - rewrite (H3 ltac:(discriminate)) in *. f_equal; lia.
Qed.

(** A task whose blocks pass replaces its piece by the results and
    touches nothing else. *)
Lemma run_task_region (iter : NpyIter value)
  (c1 c2 : list (list (list value))) (c : list (list value))
  (pc_error a b : Z) :
  it_iternext_errmsg iter = None ->
  it_cells iter = pre ++ concat (c1 ++ c :: c2) ++ post ->
  map (@List.length _) (c1 ++ c :: c2) = map (@List.length _) regions ->
  Forall block_passes (chunks (Z.to_nat BLOCK_SIZE1) c) ->
  task_range range_start range_end (Z.of_nat n) (List.length c1) = (a, b) ->
  iter_task (NpyIter_ResetToIterIndexRange iter a b) params pc_error
  = (0, pc_error, None,
     set_cells (pre ++ concat (c1 ++ after_task c :: c2) ++ post)
       (NpyIter_ResetToIterIndexRange iter a b)).
Proof.
  intros Hmsg Hcells Hlen Hpass Hrange.
  rewrite (task_range_region c1 c2 c Hlen) in Hrange.
  injection Hrange as <- <-.
  assert (Hsplit : it_cells iter
                   = (pre ++ concat c1) ++ c ++ (concat c2 ++ post)).
  { rewrite Hcells, concat_app. cbn [concat].
    rewrite <- !app_assoc. reflexivity. }
  rewrite vm_engine_iter_task_passes.
  - cbn [it_start it_end it_cells NpyIter_ResetToIterIndexRange].
    rewrite Hsplit, slice_middle, splice_middle
      by apply task_result_length.
    do 2 f_equal. rewrite concat_app. cbn [concat].
    rewrite <- !app_assoc. reflexivity.
  - exact Hmsg.
  - unfold NpyIter_blocks.
    cbn [it_start it_end it_cells NpyIter_ResetToIterIndexRange].
    rewrite Hsplit, slice_middle. exact Hpass.
Qed.

(** Tasks that run once each, all their blocks passing, leave the pieces
    as [apply_tasks] says, in whatever order they run and whichever
    thread runs each of them. *)
Lemma run_tasks_regions (th_memsteps : list Z) (sched : list (nat * nat)) :
  forall (cur : list (list (list value))) (iters : list (NpyIter value))
         (pc_error : Z),
    Forall (fun it => it_iternext_errmsg it = None) iters ->
    map (@List.length _) cur = map (@List.length _) regions ->
    NoDup (map snd sched) ->
    (forall tid t, (tid, t) ∈ sched ->
       is_Some (iters !! tid) /\ is_Some (th_memsteps !! tid)
       /\ (t < List.length regions)%nat /\ cur !! t = regions !! t) ->
    exists iters',
      run_tasks exec_op exec_reduce params range_start range_end (Z.of_nat n)
        sched iters th_memsteps (pre ++ concat cur ++ post) pc_error
      = (0, pc_error, None, iters',
         pre ++ concat (apply_tasks exec_op exec_reduce params
                          (map snd sched) cur) ++ post).
Proof.
  induction sched as [|[tid t] rest IH];
    intros cur iters pc_error Hmsg Hlen Hnd Hin.
  - cbn [run_tasks map apply_tasks fold_left]. eauto.
  - cbn [map snd] in Hnd. apply NoDup_cons in Hnd as [Ht Hnd].
    destruct (Hin tid t ltac:(set_solver)) as ([it Hit] & [m Hm] & Hlt & Hcur).
    destruct (lookup_lt_is_Some_2 regions t Hlt) as [r Hr].
    rewrite Hr in Hcur.
    pose proof (take_drop_middle cur t r Hcur) as Hmid.
    assert (Ht_len : List.length (take t cur) = t).
    { apply length_take_le. apply lookup_lt_Some in Hcur. lia. }
    assert (Halter : alter after_task t cur
                     = take t cur ++ after_task r :: drop (S t) cur).
    { rewrite <- Hmid at 1. rewrite <- Ht_len at 1.
      rewrite <- (Nat.add_0_r (List.length (take t cur))).
      rewrite alter_app_r. reflexivity. }
    assert (Hpass : Forall block_passes (chunks (Z.to_nat BLOCK_SIZE1) r))
      by exact (Forall_lookup_1 _ _ _ _ Hok Hr).
    assert (Hit_msg : it_iternext_errmsg it = None)
      by exact (Forall_lookup_1 _ _ _ _ Hmsg Hit).
    cbn [run_tasks]. rewrite Hit, Hm.
    destruct (task_range _ _ _ t) as [a b] eqn:Erange.
    rewrite <- Ht_len in Erange.
    rewrite (run_task_region (set_cells (pre ++ concat cur ++ post) it)
               (take t cur) (drop (S t) cur) r pc_error a b Hit_msg);
      try assumption.
    2: { rewrite Hmid. reflexivity. }
    2: { rewrite Hmid. exact Hlen. }
    cbn [Z.ltb Z.compare it_cells set_cells].
    destruct (IH (alter after_task t cur)
                (<[tid := set_cells
                     (pre ++ concat (take t cur ++ after_task r
                                       :: drop (S t) cur) ++ post)
                     (NpyIter_ResetToIterIndexRange
                        (set_cells (pre ++ concat cur ++ post) it) a b)]>
                   iters) pc_error) as [iters' E].
    + apply Forall_insert; [exact Hmsg | exact Hit_msg].
    + rewrite <- Hlen. rewrite Halter. rewrite <- Hmid at 3.
      rewrite !map_app. cbn [map]. rewrite task_result_length.
      reflexivity.
    + exact Hnd.
    + intros tid' t' Ht'.
      destruct (Hin tid' t' ltac:(set_solver)) as (Hi' & Hm' & Hlt' & Hcur').
      split; [|split; [exact Hm'|split; [exact Hlt'|]]].
      * apply lookup_lt_is_Some. rewrite length_insert.
        apply lookup_lt_is_Some. exact Hi'.
      * rewrite <- Hcur'. apply list_lookup_alter_ne. intros ->.
        apply Ht. apply list_elem_of_fmap. exists (tid', t'). auto.
    + exists iters'. rewrite <- Halter in E |- *. exact E.
Qed.

End Regions.

(** Where [sched] has no task twice, the tasks that ran hold their
    results and the others are as before. *)
Lemma apply_tasks_lookup (sched : list nat) :
  forall (cur : list (list (list value))) (i : nat),
    NoDup sched ->
    (i ∈ sched ->
     apply_tasks exec_op exec_reduce params sched cur !! i
     = after_task <$> cur !! i)
    /\ (i ∉ sched ->
        apply_tasks exec_op exec_reduce params sched cur !! i = cur !! i).
Proof.
  induction sched as [|t rest IH]; intros cur i Hnd.
  - split; [intros Hi; set_solver | reflexivity].
  - apply NoDup_cons in Hnd as [Ht Hnd].
    cbn [apply_tasks fold_left].
    destruct (IH (alter after_task t cur) i Hnd) as [Hin Hout].
    unfold apply_tasks in Hin, Hout.
    destruct (decide (i = t)) as [->|Hne].
    + split; [|intros Hi; set_solver].
      intros _. rewrite (Hout Ht). apply list_lookup_alter_eq.
    + split; intros Hi.
      * rewrite Hin by set_solver. rewrite list_lookup_alter_ne by auto.
        reflexivity.
      * rewrite Hout by set_solver. apply list_lookup_alter_ne. auto.
Qed.

(** After every task has run once, each piece holds its results. *)
Lemma apply_tasks_all (sched : list nat)
  (regions : list (list (list value))) :
  Permutation sched (seq 0 (List.length regions)) ->
  apply_tasks exec_op exec_reduce params sched regions
  = map after_task regions.
Proof.
  intros Hperm.
  assert (Hnd : NoDup sched).
  { rewrite Hperm. apply NoDup_seq. }
  apply list_eq. intros i.
  destruct (apply_tasks_lookup sched regions i Hnd) as [Hin Hout].
  change (map after_task regions) with (after_task <$> regions).
  rewrite list_lookup_fmap.
  destruct (le_lt_dec (List.length regions) i) as [Hge|Hlt].
  - rewrite (lookup_ge_None_2 regions i Hge). cbn.
    rewrite Hout; [apply lookup_ge_None_2, Hge|].
    rewrite Hperm, elem_of_seq. lia.
  - apply Hin. rewrite Hperm, elem_of_seq. lia.
Qed.

End ParallelTasks.

Section ParallelSerial.
Context {hdr : Headers} {value : Type}.
Variable exec_op : Z -> Z -> Z -> Z -> list value -> value.
Variable exec_reduce :
  Z -> Z -> Z -> bool -> list (list value) -> list (list value).

Lemma copy_iterators_succeeds (oc : alloc_outcomes) (threads th_iter : list Z)
  (hp : heap) :
  (forall i, NpyIter_Copy_ok oc i = true) ->
  exists th hp',
    copy_iterators oc threads th_iter hp = (Some th, hp')
    /\ List.length th = (List.length th_iter + List.length threads)%nat.
Proof.
  intros Hok. revert th_iter hp.
  induction threads as [|i rest IH]; intros th_iter hp; cbn [copy_iterators].
  - exists th_iter, hp. split; [reflexivity|]. cbn [List.length]. lia.
  - unfold NpyIter_Copy. rewrite Hok. cbn.
    destruct (IH (th_iter ++ [next_address hp])
                {| live := live hp ∪ {[next_address hp]};
                   next_address := next_address hp + 1;
                   invalid := invalid hp |}) as (th & hp' & E & Hlen).
    exists th, hp'. split; [exact E|].
    rewrite Hlen, length_app. cbn [List.length]. lia.
Qed.

Lemma copy_memsteps_succeeds (oc : alloc_outcomes)
  (threads th_iter th_memsteps : list Z) (hp : heap) :
  (forall i, PyMem_New_ok oc i = true) ->
  exists th hp',
    copy_memsteps oc threads th_iter th_memsteps hp = (Some th, hp')
    /\ List.length th = (List.length th_memsteps + List.length threads)%nat.
Proof.
  intros Hok. revert th_memsteps hp.
  induction threads as [|i rest IH]; intros th_memsteps hp;
    cbn [copy_memsteps].
  - exists th_memsteps, hp. split; [reflexivity|]. cbn [List.length]. lia.
  - unfold PyMem_New. rewrite Hok. cbn.
    destruct (IH (th_memsteps ++ [next_address hp])
                {| live := live hp ∪ {[next_address hp]};
                   next_address := next_address hp + 1;
                   invalid := invalid hp |}) as (th & hp' & E & Hlen).
    exists th, hp'. split; [exact E|].
    rewrite Hlen, length_app. cbn [List.length]. lia.
Qed.

Lemma additional_threads_length (nthreads : Z) :
  List.length (additional_threads nthreads) = (Z.to_nat nthreads - 1)%nat.
Proof. unfold additional_threads. rewrite length_map, length_seq. lia. Qed.

Lemma thread_iterators_length (iter : NpyIter value) (th_iter : list Z) :
  th_iter <> [] ->
  List.length (thread_iterators iter th_iter) = List.length th_iter.
Proof.
  destruct th_iter as [|p th]; [contradiction|]. intros _.
  unfold thread_iterators. cbn [skipn List.length]. rewrite length_map.
  reflexivity.
Qed.

(** The size of a task is a positive number of whole blocks. *)
Lemma parallel_block_size_blocks (gs : global_state) (start vlen : Z) :
  0 < BLOCK_SIZE1 -> 1 <= nthreads gs -> 1 <= vlen - start ->
  exists k : nat,
    (0 < k)%nat
    /\ parallel_block_size gs start vlen
       = Z.of_nat (k * Z.to_nat BLOCK_SIZE1).
Proof.
  intros HB Hth Hsize. unfold parallel_block_size.
  set (taskfactor := 16 * BLOCK_SIZE1 * nthreads gs).
  assert (Htf : 0 < taskfactor) by (unfold taskfactor; nia).
  rewrite Z.quot_div_nonneg by lia.
  assert (Hq : 1 <= (vlen - start + taskfactor - 1) / taskfactor).
  { apply Z.div_le_lower_bound; lia. }
  exists (Z.to_nat ((vlen - start + taskfactor - 1) / taskfactor)).
  split; [lia|]. rewrite Nat2Z.inj_mul, !Z2Nat.id by lia. reflexivity.
Qed.

Lemma task_count_chunks (n : nat) (mid : list (list value)) (start : Z) :
  (0 < n)%nat ->
  task_count start (start + Z.of_nat (List.length mid)) (Z.of_nat n)
  = List.length (chunks n mid).
Proof.
  intros Hn. rewrite chunks_count by exact Hn. unfold task_count.
  apply Nat2Z.inj. rewrite Nat2Z.inj_div.
  rewrite Z2Nat.id by (apply Z.div_pos; lia).
  f_equal. lia.
Qed.

Lemma task_results_regroup (params : vm_params value)
  (regions : list (list (list value))) :
  concat (map (task_result exec_op exec_reduce params) regions)
  = concat (map (body_result exec_op exec_reduce params)
              (concat (map (chunks (Z.to_nat BLOCK_SIZE1)) regions))).
Proof.
  induction regions as [|r regions IH]; [reflexivity|].
  cbn [map concat]. rewrite map_app, concat_app, IH. reflexivity.
Qed.

(** When the sequential driver passes over the whole range with status
    0, the parallel engine returns status 0 too, the same [*pc_error],
    and the caller's iterator with the same memory. *)
Lemma vm_engine_iter_parallel_passes (gs : global_state)
  (oc : alloc_outcomes)
  (sched : list (nat * nat)) (iter_p memsteps_p : Z)
  (iter iter_s : NpyIter value) (params : vm_params value)
  (need_output_buffering : bool) (pc_error pe : Z) (hp : heap) :
  0 < BLOCK_SIZE1 ->
  1 <= nthreads gs ->
  plain_program params = true ->
  0 <= it_start iter ->
  it_end iter <= NpyIter_GetIterSize iter ->
  2 * BLOCK_SIZE1 <= it_end iter - it_start iter ->
  (forall i, NpyIter_Copy_ok oc i = true) ->
  (forall i, PyMem_New_ok oc i = true) ->
  Forall (fun turn => (fst turn < Z.to_nat (nthreads gs))%nat) sched ->
  Permutation (map snd sched)
    (seq 0 (task_count (it_start iter) (it_end iter)
              (parallel_block_size gs (it_start iter) (it_end iter)))) ->
  vm_engine_iter_task exec_op exec_reduce iter
    (with_out_buffer need_output_buffering params) pc_error
  = (0, pe, None, iter_s) ->
  exists iter' hp',
    vm_engine_iter_parallel exec_op exec_reduce gs oc sched iter_p iter
      params memsteps_p need_output_buffering pc_error false hp
    = (0, pe, None, iter', hp')
    /\ it_cells iter' = it_cells iter_s
    /\ it_address iter' = it_address iter_s
    /\ it_operand0 iter' = it_operand0 iter_s.
Proof.
  intros HB Hth Hplain Hstart Hend Hsize Hcopy Hnew Hthreads Hperm Hserial.
  set (params' := with_out_buffer need_output_buffering params) in *.
  assert (Hplain' : plain_program params' = true) by exact Hplain.
  destruct (vm_engine_iter_task_passed exec_op exec_reduce params' HB
              iter iter_s pc_error pe Hserial)
    as (Hmsg & -> & Hall & ->).
  unfold NpyIter_GetIterSize in Hend.
  set (start := it_start iter) in *. set (vlen := it_end iter) in *.
  set (cells := it_cells iter) in *.
  set (mid := slice start vlen cells) in *.
  set (pre := firstn (Z.to_nat start) cells).
  set (post := skipn (Z.to_nat vlen) cells).
  assert (Hcells : cells = pre ++ mid ++ post)
    by (apply slice_decomposition; lia).
  assert (Hpre : Z.of_nat (List.length pre) = start).
  { unfold pre. rewrite length_firstn. lia. }
  assert (Hmid : Z.of_nat (List.length mid) = vlen - start).
  { unfold mid. rewrite slice_length by lia. lia. }
  destruct (parallel_block_size_blocks gs start vlen HB Hth ltac:(lia))
    as (k & Hk & Hbs).
  set (B := Z.to_nat BLOCK_SIZE1) in *.
  assert (Hn : (0 < k * B)%nat) by (unfold B; nia).
  set (regions := chunks (k * B) mid).
  assert (Hregions : concat regions = mid)
    by (apply concat_chunks; exact Hn).
  assert (Hok : Forall (fun r => Forall
                   (fun b => body_status exec_op exec_reduce params' b = 0)
                   (chunks B r)) regions).
  { unfold NpyIter_blocks in Hall. fold start vlen cells mid B in Hall.
    rewrite <- (chunks_regroup B k mid) in Hall by (unfold B; lia).
    apply List.Forall_concat in Hall.
    rewrite List.Forall_map in Hall. exact Hall. }
  assert (Hvlen : vlen
                  = Z.of_nat (List.length pre)
                    + Z.of_nat (List.length (concat regions))).
  { rewrite Hregions. lia. }
  unfold vm_engine_iter_parallel.
  destruct (copy_iterators_succeeds oc (additional_threads (nthreads gs))
              [iter_p] hp Hcopy) as (th_iter & hp1 & -> & Hlen_it).
  destruct (copy_memsteps_succeeds oc (additional_threads (nthreads gs))
              th_iter [memsteps_p] hp1 Hnew)
    as (th_memsteps & hp2 & -> & Hlen_ms).
  rewrite additional_threads_length in Hlen_it, Hlen_ms.
  cbn [List.length] in Hlen_it, Hlen_ms.
  assert (Hne : th_iter <> []).
  { intros ->. cbn [List.length] in Hlen_it. lia. }
  fold start vlen cells.
  change (Z.quot (vlen - start + 16 * BLOCK_SIZE1 * nthreads gs - 1)
                 (16 * BLOCK_SIZE1 * nthreads gs) * BLOCK_SIZE1)
    with (parallel_block_size gs start vlen).
  fold params'.
  pose proof (run_tasks_identity exec_op exec_reduce params' start vlen
                (parallel_block_size gs start vlen) th_memsteps sched
                (thread_iterators iter th_iter) cells pc_error) as Hid.
  clearbody mid pre post start vlen. subst start vlen.
  rewrite Hbs in Hperm, Hid |- *.
  rewrite Hregions, task_count_chunks in Hperm by exact Hn.
  fold regions in Hperm.
  destruct (run_tasks_regions exec_op exec_reduce params' HB Hplain'
              pre post regions (k * B) Hn
              (chunks_shaped (k * B) mid Hn) Hok th_memsteps sched regions
              (thread_iterators iter th_iter) pc_error) as [iters' E].
  - unfold thread_iterators. constructor; [exact Hmsg|].
    apply List.Forall_map. apply List.Forall_forall. intros p _. exact Hmsg.
  - reflexivity.
  - rewrite Hperm. apply NoDup_seq.
  - intros tid t Hin.
    assert (Htid : (tid < Z.to_nat (nthreads gs))%nat).
    { rewrite List.Forall_forall in Hthreads.
      apply (Hthreads (tid, t)). apply list_elem_of_In. exact Hin. }
    assert (Ht : t ∈ map snd sched).
    { apply list_elem_of_fmap. exists (tid, t). auto. }
    rewrite Hperm, elem_of_seq in Ht.
    split; [|split; [|split; [lia | reflexivity]]].
    + apply lookup_lt_is_Some. rewrite thread_iterators_length by exact Hne.
      lia.
    + apply lookup_lt_is_Some. lia.
  - rewrite <- Hregions in Hcells at 1. rewrite <- Hcells in E.
    rewrite E in Hid |- *.
    cbn [fst snd] in Hid.
    destruct iters' as [|iter0 iters']; [discriminate|].
    assert (Hid0 : iterator_identity iter0 = iterator_identity iter).
    { unfold thread_iterators in Hid. cbn [map] in Hid. congruence. }
    assert (Haddr : it_address iter0 = it_address iter)
      by (unfold iterator_identity in Hid0; congruence).
    assert (Hop : it_operand0 iter0 = it_operand0 iter)
      by (unfold iterator_identity in Hid0; congruence).
    cbn [hd].
    eexists _, _. split; [reflexivity|].
    cbn [it_cells it_address it_operand0 set_cells].
    split; [|split; assumption].
    rewrite (apply_tasks_all exec_op exec_reduce params' HB Hplain'
               (map snd sched) regions Hperm).
    rewrite task_results_regroup. fold B. unfold regions.
    rewrite (chunks_regroup B k mid) by (unfold B; lia).
    rewrite Hregions in Hcells. clearbody cells. subst cells.
    rewrite splice_middle; [reflexivity|].
    apply (task_result_length exec_op exec_reduce params' HB Hplain').
Qed.

(** A task of the range has indices of its own, inside the range. *)
Lemma task_range_inside (start vlen bs : Z) (t : nat) :
  0 < bs -> (t < task_count start vlen bs)%nat ->
  start <= fst (task_range start vlen bs t)
           < snd (task_range start vlen bs t)
  /\ snd (task_range start vlen bs t) <= vlen.
Proof.
  intros Hbs Ht. unfold task_count in Ht. unfold task_range. cbn [fst snd].
  assert (Hq : Z.of_nat t + 1 <= (vlen - start + bs - 1) / bs) by lia.
  pose proof (Z.mul_div_le (vlen - start + bs - 1) bs Hbs) as Hle.
  nia.
Qed.

(** The iterator of every thread reports what the caller's does. *)
Lemma thread_iterators_errmsg (iter it : NpyIter value) (th_iter : list Z)
  (tid : nat) :
  thread_iterators iter th_iter !! tid = Some it ->
  it_iternext_errmsg it = it_iternext_errmsg iter.
Proof.
  unfold thread_iterators. destruct tid as [|tid]; cbn.
  - intros [= <-]. reflexivity.
  - change (map (fun p => NpyIter_copy_at p iter) (skipn 1 th_iter))
      with ((fun p => NpyIter_copy_at p iter) <$> skipn 1 th_iter).
    intros H. apply list_lookup_fmap_Some in H as (p & -> & Hp).
    reflexivity.
Qed.

(** The thread that takes the first turn runs a task of the range on
    its own iterator; when that pass fails, its failure is the result of
    the engine and no other task has run. *)
Lemma vm_engine_iter_parallel_first_failure (gs : global_state)
  (oc : alloc_outcomes) (sched : list (nat * nat)) (iter_p memsteps_p : Z)
  (iter : NpyIter value) (params : vm_params value)
  (need_output_buffering : bool) (pc_error : Z) (hp : heap) :
  0 < BLOCK_SIZE1 ->
  1 <= nthreads gs ->
  1 <= it_end iter - it_start iter ->
  (forall i, NpyIter_Copy_ok oc i = true) ->
  (forall i, PyMem_New_ok oc i = true) ->
  Forall (fun turn => (fst turn < Z.to_nat (nthreads gs))%nat) sched ->
  Permutation (map snd sched)
    (seq 0 (task_count (it_start iter) (it_end iter)
              (parallel_block_size gs (it_start iter) (it_end iter)))) ->
  exists (it : NpyIter value) (a b : Z),
    it_iternext_errmsg it = it_iternext_errmsg iter
    /\ it_start iter <= a < b
    /\ b <= it_end iter
    /\ forall (r pe : Z) (msg : option string) (iter1 : NpyIter value),
         r < 0 ->
         vm_engine_iter_task exec_op exec_reduce
           (NpyIter_ResetToIterIndexRange (set_cells (it_cells iter) it) a b)
           (with_out_buffer need_output_buffering params) pc_error
         = (r, pe, msg, iter1) ->
         exists iter' hp',
           vm_engine_iter_parallel exec_op exec_reduce gs oc sched iter_p iter
             params memsteps_p need_output_buffering pc_error false hp
           = (r, pe, msg, iter', hp')
           /\ it_cells iter' = it_cells iter1
           /\ it_address iter' = it_address iter
           /\ it_operand0 iter' = it_operand0 iter.
Proof.
  intros HB Hth Hsize Hcopy Hnew Hthreads Hperm.
  set (start := it_start iter) in *. set (vlen := it_end iter) in *.
  destruct (parallel_block_size_blocks gs start vlen HB Hth Hsize)
    as (k & Hk & Hbs).
  set (bs := parallel_block_size gs start vlen) in *.
  assert (Hpos : 0 < bs) by (rewrite Hbs; nia).
  destruct sched as [|[tid t] rest].
  { apply Permutation_length in Hperm. rewrite length_seq in Hperm.
    cbn [map List.length] in Hperm. unfold task_count in Hperm.
    assert (1 <= (vlen - start + bs - 1) / bs)
      by (apply Z.div_le_lower_bound; lia).
    lia. }
  assert (Ht : (t < task_count start vlen bs)%nat).
  { assert (Hin : t ∈ map snd ((tid, t) :: rest)) by (cbn; set_solver).
    rewrite Hperm, elem_of_seq in Hin. lia. }
  assert (Htid : (tid < Z.to_nat (nthreads gs))%nat).
  { apply List.Forall_inv in Hthreads. exact Hthreads. }
  pose proof (task_range_inside start vlen bs t Hpos Ht) as Hrange.
  destruct (copy_iterators_succeeds oc (additional_threads (nthreads gs))
              [iter_p] hp Hcopy) as (th_iter & hp1 & Ecopy & Hlen_it).
  destruct (copy_memsteps_succeeds oc (additional_threads (nthreads gs))
              th_iter [memsteps_p] hp1 Hnew)
    as (th_memsteps & hp2 & Enew & Hlen_ms).
  rewrite additional_threads_length in Hlen_it, Hlen_ms.
  cbn [List.length] in Hlen_it, Hlen_ms.
  assert (Hne : th_iter <> []).
  { intros ->. cbn [List.length] in Hlen_it. lia. }
  destruct (lookup_lt_is_Some_2 (thread_iterators iter th_iter) tid)
    as [it Hit].
  { rewrite thread_iterators_length by exact Hne. lia. }
  destruct (lookup_lt_is_Some_2 th_memsteps tid) as [m Hm]; [lia|].
  destruct (task_range start vlen bs t) as [a b] eqn:Erange.
  cbn [fst snd] in Hrange.
  exists it, a, b.
  split; [exact (thread_iterators_errmsg iter it th_iter tid Hit)|].
  split; [lia|]. split; [lia|].
  intros r pe msg iter1 Hr Erun.
  pose proof (run_tasks_identity exec_op exec_reduce
                (with_out_buffer need_output_buffering params) start vlen bs
                th_memsteps ((tid, t) :: rest)
                (thread_iterators iter th_iter) (it_cells iter) pc_error)
    as Hid.
  unfold vm_engine_iter_parallel. rewrite Ecopy, Enew.
  fold start vlen.
  change (Z.quot (vlen - start + 16 * BLOCK_SIZE1 * nthreads gs - 1)
                 (16 * BLOCK_SIZE1 * nthreads gs) * BLOCK_SIZE1)
    with bs.
  cbn [run_tasks] in Hid |- *. rewrite Hit, Hm, Erange in Hid |- *.
  rewrite Erun in Hid |- *. replace (r <? 0) with true in Hid |- * by lia.
  cbn [fst snd] in Hid.
  destruct (<[tid := iter1]> (thread_iterators iter th_iter))
    as [|iter0 iters'] eqn:Eins; [discriminate|].
  assert (Hid0 : iterator_identity iter0 = iterator_identity iter).
  { unfold thread_iterators in Hid. cbn [map] in Hid. congruence. }
  cbn [hd]. eexists _, _. split; [reflexivity|].
  cbn [it_cells it_address it_operand0 set_cells].
  unfold iterator_identity in Hid0.
  repeat split; congruence.
Qed.


End ParallelSerial.

Section ParallelSerialExample.
Local Existing Instance sample_headers.



End ParallelSerialExample.

(** * Further properties of the code *)

(** ** What an accepted program looks like *)

Section ValidatorSoundness.
Context {hdr : Headers} {value : Type}.
Implicit Types self : NumExprObject value.

Lemma check_one_None self (pc op argno : Z) :
  check_one self pc op argno = None ->
  op_signature op argno <> -1
  /\ op_signature op argno <> 0
  /\ exists arg,
      byte_at (program self) (operand_location pc argno) = Some arg
      /\ check_arg self op (op_signature op argno) arg
           (operand_location pc argno) = Passed.
Proof.
  unfold check_one, operand_location.
  destruct (Z.eqb_spec (op_signature op argno) (-1)); [discriminate|].
  destruct (Z.eqb_spec (op_signature op argno) 0); [discriminate|].
  destruct (_ && _); [discriminate|].
  destruct (byte_at (program self) _) as [arg|]; [|discriminate].
  destruct (check_arg self op _ arg _) eqn:E; try discriminate.
  intros _. repeat split; try assumption. exists arg. split; [reflexivity|].
  exact E.
Qed.

Lemma check_arg_Passed_register self (op sig arg argloc : Z) :
  check_arg self op sig arg argloc = Passed -> sig <> Tn ->
  0 <= arg < PyString_Size (fullsig self)
  /\ (sig = nth (Z.to_nat arg) (fullsig self) 0
      \/ (sig = Tl /\ nth (Z.to_nat arg) (fullsig self) 0 = Ti)
      \/ (sig = Ti /\ nth (Z.to_nat arg) (fullsig self) 0 = Tl)).
Proof.
  unfold check_arg. intros Hc Hn.
  destruct (Z.eqb_spec sig Tn) as [|_]; [contradiction|].
  cbn [negb andb] in Hc.
  destruct (Z.geb_spec arg (PyString_Size (fullsig self)));
    [discriminate|].
  destruct (Z.ltb_spec arg 0); [discriminate|]. cbn [orb] in Hc.
  split; [lia|].
  destruct (Z.eqb_spec sig Tl), (Z.eqb_spec (nth (Z.to_nat arg) (fullsig self) 0) Ti),
    (Z.eqb_spec sig Ti), (Z.eqb_spec (nth (Z.to_nat arg) (fullsig self) 0) Tl);
    cbn [andb orb] in Hc; auto;
    destruct (Z.eqb_spec sig (nth (Z.to_nat arg) (fullsig self) 0));
    cbn [negb] in Hc; auto; discriminate.
Qed.

(** In an instruction that passes, every operand up to the first zero
    entry of the signature went through its turn of the loop. *)
Lemma check_args_Passed_turn self (pc op argno : Z) :
  check_args self pc op [0; 1; 2; 3] = Passed ->
  0 <= argno <= 3 ->
  (forall k, 0 <= k <= argno -> op_signature op k <> 0) ->
  check_one self pc op argno = None.
Proof.
  intros Hpass Hargno Hsig.
  assert (Hturn : forall k, 0 <= k <= argno ->
                            check_one self pc op k <> Some Passed).
  { intros k Hk E. apply check_one_Some_Passed in E.
    exact (Hsig k Hk E). }
  rewrite !check_args_cons in Hpass.
  destruct (check_one self pc op 0) as [r0|] eqn:E0.
  { subst r0. destruct (Hturn 0 ltac:(lia) E0). }
  destruct (Z.eq_dec argno 0) as [->|]; [exact E0|].
  destruct (check_one self pc op 1) as [r1|] eqn:E1.
  { subst r1. destruct (Hturn 1 ltac:(lia) E1). }
  destruct (Z.eq_dec argno 1) as [->|]; [exact E1|].
  destruct (check_one self pc op 2) as [r2|] eqn:E2.
  { subst r2. destruct (Hturn 2 ltac:(lia) E2). }
  destruct (Z.eq_dec argno 2) as [->|]; [exact E2|].
  destruct (check_one self pc op 3) as [r3|] eqn:E3.
  { subst r3. destruct (Hturn 3 ltac:(lia) E3). }
  replace argno with 3 by lia. exact E3.
Qed.

Lemma check_instr_Passed self (pc : Z) :
  check_instr self pc = Passed ->
  exists op,
    byte_at (program self) pc = Some op
    /\ (op <> OP_NOOP ->
        (OP_REDUCTION <= op -> pc = PyString_Size (program self) - 4)
        /\ check_args self pc op [0; 1; 2; 3] = Passed).
Proof.
  unfold check_instr.
  destruct (byte_at (program self) pc) as [op|]; [|discriminate].
  intros Hc. exists op. split; [reflexivity|]. intros Hop.
  destruct (Z.eqb_spec op OP_NOOP); [contradiction|].
  destruct (Z.geb_spec op OP_REDUCTION);
    destruct (Z.eqb_spec pc (PyString_Size (program self) - 4));
    cbn [negb andb] in Hc; try discriminate; split; try assumption; lia.
Qed.

(** X1.  A program that [check_program] accepts is made of whole
    instructions and has at most 255 buffers; each opcode other than the
    no-op is one of the table, and one of the reduction family stands in
    the last instruction only. *)
Theorem check_program_accepted_shape self :
  check_program self = Passed ->
  PyString_Size (program self) mod 4 = 0
  /\ PyString_Size (fullsig self) <= 255
  /\ forall pc,
      0 <= pc < PyString_Size (program self) -> pc mod 4 = 0 ->
      exists op,
        byte_at (program self) pc = Some op
        /\ (op <> OP_NOOP ->
            0 <= op <= OP_END
            /\ (OP_REDUCTION <= op ->
                pc = PyString_Size (program self) - 4)).
Proof.
  intros Hpass.
  destruct (check_program_Passed self Hpass) as (Hlen & Hbuf & Hall).
  split; [exact Hlen|]. split; [exact Hbuf|].
  intros pc Hpc Halign.
  destruct (instr_pcs_split _ pc Hpc Halign Hlen) as (rest & Hsplit & _).
  rewrite Hsplit in Hall. apply List.Forall_app in Hall as [_ Hall].
  inversion Hall as [|? ? Hinstr _]; subst.
  destruct (check_instr_Passed self pc Hinstr) as (op & Hop & Hrest).
  exists op. split; [exact Hop|]. intros Hnoop.
  destruct (Hrest Hnoop) as [Hred Hargs]. split; [|exact Hred].
  rewrite check_args_cons in Hargs.
  destruct (check_one self pc op 0) as [r|] eqn:E.
  - subst r. apply check_one_Some_Passed in E.
    unfold op_signature in E. cbn in E.
    destruct (Z.ltb_spec op 0), (Z.gtb_spec op OP_END); cbn in E;
      try discriminate; lia.
  - apply check_one_None in E as (Hlegal & _).
    unfold op_signature in Hlegal. cbn in Hlegal.
    destruct (Z.ltb_spec op 0), (Z.gtb_spec op OP_END); cbn in Hlegal;
      try congruence; lia.
Qed.

(** X2.  In an accepted program every register operand of every
    instruction names a buffer that exists, and one of the type the
    opcode's signature asks for (an 'i' buffer may stand for 'l' and the
    reverse). *)
Theorem check_program_operands_in_range self (pc op argno : Z) :
  check_program self = Passed ->
  0 <= pc < PyString_Size (program self) -> pc mod 4 = 0 ->
  byte_at (program self) pc = Some op -> op <> OP_NOOP ->
  0 <= argno <= 3 ->
  (forall k, 0 <= k <= argno -> op_signature op k <> 0) ->
  op_signature op argno <> Tn ->
  exists arg,
    byte_at (program self) (operand_location pc argno) = Some arg
    /\ 0 <= arg < PyString_Size (fullsig self)
    /\ (op_signature op argno = nth (Z.to_nat arg) (fullsig self) 0
        \/ (op_signature op argno = Tl
            /\ nth (Z.to_nat arg) (fullsig self) 0 = Ti)
        \/ (op_signature op argno = Ti
            /\ nth (Z.to_nat arg) (fullsig self) 0 = Tl)).
Proof.
  intros Hpass Hpc Halign Hop Hnoop Hargno Hsig Hreg.
  destruct (check_program_Passed self Hpass) as (Hlen & Hbuf & Hall).
  destruct (instr_pcs_split _ pc Hpc Halign Hlen) as (rest & Hsplit & _).
  rewrite Hsplit in Hall. apply List.Forall_app in Hall as [_ Hall].
  inversion Hall as [|? ? Hinstr _]; subst.
  destruct (check_instr_Passed self pc Hinstr) as (op' & Hop' & Hrest).
  rewrite Hop in Hop'. injection Hop' as <-.
  destruct (Hrest Hnoop) as [_ Hargs].
  pose proof (check_args_Passed_turn self pc op argno Hargs Hargno Hsig)
    as Hturn.
  apply check_one_None in Hturn as (_ & _ & arg & Harg & Hcheck).
  exists arg. split; [exact Harg|].
  apply (check_arg_Passed_register self op _ arg _ Hcheck Hreg).
Qed.

End ValidatorSoundness.

Section ValidatorReads.
Context {hdr : Headers} {value : Type}.
Implicit Types self : NumExprObject value.

Lemma check_instrs_fault self (pcs : list Z) :
  check_instrs self pcs = ReadPastEnd ->
  exists pc, In pc pcs /\ check_instr self pc = ReadPastEnd.
Proof.
  induction pcs as [|pc pcs IH]; cbn [check_instrs]; [discriminate|].
  destruct (check_instr self pc) eqn:E; try discriminate.
  - intros H. destruct (IH H) as (pc' & Hin & Hpc').
    exists pc'. split; [right; exact Hin | exact Hpc'].
  - intros _. exists pc. split; [left; reflexivity | exact E].
Qed.

Lemma check_one_fault self (pc op argno : Z) :
  check_one self pc op argno = Some ReadPastEnd ->
  byte_at (program self) (operand_location pc argno) = None.
Proof.
  unfold check_one, operand_location.
  destruct (_ =? -1); [discriminate|].
  destruct (_ =? 0); [discriminate|].
  destruct (_ && _); [discriminate|].
  destruct (byte_at (program self) _) as [arg|]; [|reflexivity].
  destruct (check_arg self op _ arg _) eqn:E; try discriminate.
  intros _. destruct (check_arg_no_fault _ _ _ _ _ E).
Qed.

Lemma instr_pcs_last (len : Z) :
  4 <= len -> len mod 4 = 0 ->
  instr_pcs len = instr_pcs (len - 4) ++ [len - 4].
Proof.
  intros Hlen Hmod.
  rewrite (instr_pcs_aligned len), (instr_pcs_aligned (len - 4));
    try lia.
  2:{ revert Hmod. Z.div_mod_to_equations. lia. }
  replace (Z.to_nat (len / 4)) with (S (Z.to_nat ((len - 4) / 4))).
  2:{ revert Hmod. Z.div_mod_to_equations. lia. }
  rewrite seq_S, map_app. cbn [map Nat.add]. do 2 f_equal.
  revert Hmod. Z.div_mod_to_equations. lia.
Qed.

(** X3.  [check_program] indexes the program outside its bytes in one
    case only: the last instruction has an opcode whose signature has
    four entries, so that its fourth operand is looked for in the
    instruction after the last. *)
Theorem check_program_fault_only_in_last_instruction self :
  check_program self = ReadPastEnd ->
  exists op,
    byte_at (program self) (PyString_Size (program self) - 4) = Some op
    /\ op <> OP_NOOP
    /\ forall k, 0 <= k <= 3 ->
                 op_signature op k <> 0 /\ op_signature op k <> -1.
Proof.
  unfold check_program.
  destruct (Z.eqb_spec (PyString_Size (program self) mod 4) 0) as [Hmod|];
    [|discriminate].
  cbn [negb]. destruct (_ >? 255); [discriminate|].
  intros Hfault. apply check_instrs_fault in Hfault as (pc & Hin & Hpc).
  apply instr_pcs_bounds in Hin as (Hpc0 & Hpc1 & Halign).
  assert (Hlast : pc = PyString_Size (program self) - 4).
  { destruct (Z_lt_le_dec (pc + 5) (PyString_Size (program self)))
      as [Hlt|Hge].
    - destruct (check_instr_no_fault self pc Hpc0 Hlt Hpc).
    - revert Hmod Halign. Z.div_mod_to_equations. lia. }
  rewrite <- Hlast. clear Hlast.
  assert (Hread : forall k, 0 <= k <= 2 ->
            byte_at (program self) (operand_location pc k) <> None).
  { intros k Hk. unfold operand_location.
    replace (k <? 3) with true by lia.
    destruct (byte_at_Some (program self) (pc + k + 1)) as [b ->];
      [|discriminate].
    unfold PyString_Size in *. revert Hmod Halign.
    Z.div_mod_to_equations. lia. }
  unfold check_instr in Hpc.
  destruct (byte_at (program self) pc) as [op|] eqn:Hop.
  2:{ destruct (byte_at_Some (program self) pc) as [b Hb];
        [unfold PyString_Size in *; lia | congruence]. }
  exists op. split; [reflexivity|].
  destruct (Z.eqb_spec op OP_NOOP); [discriminate|].
  split; [assumption|].
  destruct (_ && _); [discriminate|].
  rewrite !check_args_cons in Hpc.
  destruct (check_one self pc op 0) as [r0|] eqn:E0.
  { subst r0. apply check_one_fault in E0.
    destruct (Hread 0 ltac:(lia) E0). }
  destruct (check_one self pc op 1) as [r1|] eqn:E1.
  { subst r1. apply check_one_fault in E1.
    destruct (Hread 1 ltac:(lia) E1). }
  destruct (check_one self pc op 2) as [r2|] eqn:E2.
  { subst r2. apply check_one_fault in E2.
    destruct (Hread 2 ltac:(lia) E2). }
  destruct (check_one self pc op 3) as [r3|] eqn:E3;
    [|cbn in Hpc; discriminate].
  subst r3.
  apply check_one_None in E0 as (? & ? & _).
  apply check_one_None in E1 as (? & ? & _).
  apply check_one_None in E2 as (? & ? & _).
  assert (op_signature op 3 <> 0 /\ op_signature op 3 <> -1) as [? ?].
  { unfold check_one in E3.
    destruct (Z.eqb_spec (op_signature op 3) (-1)); [discriminate|].
    destruct (Z.eqb_spec (op_signature op 3) 0); [discriminate|].
    split; assumption. }
  intros k Hk.
  assert (k = 0 \/ k = 1 \/ k = 2 \/ k = 3) as [-> | [-> | [-> | ->]]] by lia;
    split; assumption.
Qed.

(** X4.  And it does so: when the instructions before the last pass,
    and the last one has an opcode with four signature entries whose
    first three operands pass, [check_program] reads
    [program[prog_len + 1]]. *)
Theorem check_program_reads_past_end self (op : Z) :
  let prog_len := PyString_Size (program self) in
  4 <= prog_len -> prog_len mod 4 = 0 ->
  PyString_Size (fullsig self) <= 255 ->
  check_instrs self (instr_pcs (prog_len - 4)) = Passed ->
  byte_at (program self) (prog_len - 4) = Some op -> op <> OP_NOOP ->
  (forall k, 0 <= k <= 2 -> check_one self (prog_len - 4) op k = None) ->
  op_signature op 3 <> 0 -> op_signature op 3 <> -1 ->
  check_program self = ReadPastEnd.
Proof.
  intros prog_len Hlen Hmod Hbuf Hbefore Hop Hnoop Hturns Hsig0 Hsig1.
  unfold check_program. fold prog_len.
  replace (prog_len mod 4 =? 0) with true by lia. cbn [negb].
  replace (PyString_Size (fullsig self) >? 255) with false by lia.
  rewrite (instr_pcs_last prog_len Hlen Hmod), check_instrs_app, Hbefore.
  cbn [check_instrs]. unfold check_instr. fold prog_len. rewrite Hop.
  destruct (Z.eqb_spec op OP_NOOP); [contradiction|].
  rewrite Z.eqb_refl. cbn [negb]. rewrite andb_false_r.
  rewrite !check_args_cons.
  rewrite (Hturns 0), (Hturns 1), (Hturns 2) by lia.
  unfold check_one. fold prog_len.
  destruct (Z.eqb_spec (op_signature op 3) (-1)); [contradiction|].
  destruct (Z.eqb_spec (op_signature op 3) 0); [contradiction|].
  replace (prog_len - 4 + 1 >=? prog_len) with false by lia.
  rewrite andb_false_r. change (3 <? 3) with false. cbv iota.
  replace (byte_at (program self) (prog_len - 4 + 3 + 2)) with (@None Z);
    [reflexivity|].
  symmetry. unfold byte_at.
  destruct (Z.ltb_spec (prog_len - 4 + 3 + 2) 0); [reflexivity|].
  apply nth_error_None. unfold prog_len, PyString_Size in *. lia.
Qed.

(** X5.  The operand bytes of a no-op are not looked at: a program of
    whole instructions that all have the no-op opcode is accepted
    whatever else it holds; so is the empty program. *)
Theorem check_program_accepts_noops self :
  PyString_Size (program self) mod 4 = 0 ->
  PyString_Size (fullsig self) <= 255 ->
  (forall pc, 0 <= pc < PyString_Size (program self) -> pc mod 4 = 0 ->
              byte_at (program self) pc = Some OP_NOOP) ->
  check_program self = Passed.
Proof.
  intros Hmod Hbuf Hnoop. unfold check_program.
  replace (PyString_Size (program self) mod 4 =? 0) with true by lia.
  cbn [negb].
  replace (PyString_Size (fullsig self) >? 255) with false by lia.
  apply check_instrs_Passed. apply List.Forall_forall. intros pc Hin.
  apply instr_pcs_bounds in Hin as (H0 & H1 & H2).
  unfold check_instr. rewrite (Hnoop pc) by (assumption || lia).
  rewrite Z.eqb_refl. reflexivity.
Qed.

End ValidatorReads.

Section ValidatorExamples.
Local Existing Instance sample_headers.

Lemma check_program_accepted_shape_witness :
  PyString_Size (program (sample_object [2; 0; 1; 1])) mod 4 = 0
  /\ PyString_Size (fullsig (sample_object [2; 0; 1; 1])) <= 255
  /\ forall pc,
      0 <= pc < PyString_Size (program (sample_object [2; 0; 1; 1])) ->
      pc mod 4 = 0 ->
      exists op,
        byte_at (program (sample_object [2; 0; 1; 1])) pc = Some op
        /\ (op <> OP_NOOP ->
            0 <= op <= OP_END
            /\ (OP_REDUCTION <= op ->
                pc = PyString_Size (program (sample_object [2; 0; 1; 1])) - 4)).
Proof.
  apply (check_program_accepted_shape (sample_object [2; 0; 1; 1])).
  reflexivity.
Defined.

Lemma check_program_operands_in_range_witness :
  exists arg,
    byte_at (program (sample_object [2; 0; 1; 1])) (operand_location 0 2)
    = Some arg
    /\ 0 <= arg < PyString_Size (fullsig (sample_object [2; 0; 1; 1]))
    /\ (op_signature 2 2
        = nth (Z.to_nat arg) (fullsig (sample_object [2; 0; 1; 1])) 0
        \/ (op_signature 2 2 = Tl
            /\ nth (Z.to_nat arg) (fullsig (sample_object [2; 0; 1; 1])) 0
               = Ti)
        \/ (op_signature 2 2 = Ti
            /\ nth (Z.to_nat arg) (fullsig (sample_object [2; 0; 1; 1])) 0
               = Tl)).
Proof.
  apply (check_program_operands_in_range (sample_object [2; 0; 1; 1]) 0 2 2).
  - reflexivity.
  - vm_compute. split; [discriminate | reflexivity].
  - reflexivity.
  - reflexivity.
  - discriminate.
  - lia.
  - intros k Hk.
    assert (k = 0 \/ k = 1 \/ k = 2) as [-> | [-> | ->]] by lia;
      vm_compute; discriminate.
  - vm_compute. discriminate.
Defined.

Lemma check_program_fault_only_in_last_instruction_witness :
  exists op,
    byte_at (program sample_select) (PyString_Size (program sample_select) - 4)
    = Some op
    /\ op <> OP_NOOP
    /\ forall k, 0 <= k <= 3 ->
                 op_signature op k <> 0 /\ op_signature op k <> -1.
Proof.
  apply (check_program_fault_only_in_last_instruction sample_select).
  reflexivity.
Defined.

Lemma check_program_reads_past_end_witness :
  check_program sample_select = ReadPastEnd.
Proof.
  apply (check_program_reads_past_end sample_select 9).
  - vm_compute. discriminate.
  - reflexivity.
  - vm_compute. discriminate.
  - reflexivity.
  - reflexivity.
  - discriminate.
  - intros k Hk.
    assert (k = 0 \/ k = 1 \/ k = 2) as [-> | [-> | ->]] by lia;
      reflexivity.
  - vm_compute. discriminate.
  - vm_compute. discriminate.
Defined.

Lemma check_program_accepts_noops_witness :
  check_program (sample_object [0; 7; 7; 7; 0; 9; 9; 9]) = Passed.
Proof.
  apply check_program_accepts_noops.
  - reflexivity.
  - vm_compute. discriminate.
  - intros pc Hpc Halign.
    assert (pc = 0 \/ pc = 4) as [-> | ->];
      [|reflexivity|reflexivity].
    change (PyString_Size (program (sample_object [0; 7; 7; 7; 0; 9; 9; 9])))
      with 8 in Hpc.
    revert Halign. Z.div_mod_to_equations. lia.
Defined.

End ValidatorExamples.

(** ** The return signature and the type codes *)

Section ReturnSignature.
Context {hdr : Headers}.

Lemma byte_at_app_l (p q : PyString) (i : Z) :
  i < PyString_Size p -> byte_at (p ++ q) i = byte_at p i.
Proof.
  intros Hi. unfold byte_at, PyString_Size in *.
  destruct (Z.ltb_spec i 0); [reflexivity|].
  apply nth_error_app1. lia.
Qed.

Lemma byte_at_app_r (p q : PyString) (i : Z) :
  0 <= i -> byte_at (p ++ q) (PyString_Size p + i) = byte_at q i.
Proof.
  intros Hi. unfold byte_at, PyString_Size.
  destruct (Z.ltb_spec (Z.of_nat (List.length p) + i) 0); [lia|].
  destruct (Z.ltb_spec i 0); [lia|].
  rewrite nth_error_app2 by lia. f_equal. lia.
Qed.

(** The loop looks only at bytes below [end_]. *)
Lemma get_return_sig_loop_app (p q : PyString) (slots : nat) :
  forall end_, end_ <= PyString_Size p ->
    get_return_sig_loop (p ++ q) end_ slots = get_return_sig_loop p end_ slots.
Proof.
  induction slots as [|slots IH]; intros end_ Hend; [reflexivity|].
  cbn [get_return_sig_loop]. destruct (end_ - 4 <? 0); [reflexivity|].
  rewrite byte_at_app_l by lia.
  destruct (byte_at p (end_ - 4)) as [b|]; [|reflexivity].
  destruct (as_char b =? OP_NOOP); [|reflexivity].
  apply IH. lia.
Qed.

Lemma get_return_sig_loop_S (s : PyString) (end_ : Z) (slots : nat) :
  get_return_sig_loop s end_ (S slots)
  = if end_ - 4 <? 0 then None
    else
      match byte_at s (end_ - 4) with
      | None => None
      | Some b =>
        if as_char b =? OP_NOOP
        then get_return_sig_loop s (end_ - 4) slots
        else Some (as_char b)
      end.
Proof. reflexivity. Qed.

Lemma PyString_Size_app (p q : PyString) :
  PyString_Size (p ++ q) = PyString_Size p + PyString_Size q.
Proof. unfold PyString_Size. rewrite length_app. lia. Qed.

(** X6.  [get_return_sig] is decided by the last instruction that is
    not a no-op: a no-op appended to a program changes nothing, and an
    appended instruction with another opcode (read as a [char], below
    128) gives the first entry of that opcode's signature, or 'X' when
    that entry is not positive. *)
Theorem get_return_sig_last_instruction (p : PyString) (op a b c : Z) :
  op < 128 ->
  get_return_sig (p ++ [op; a; b; c])
  = if op =? OP_NOOP then get_return_sig p
    else if op_signature op 0 <=? 0 then char_X else op_signature op 0.
Proof.
  intros Hop. unfold get_return_sig.
  rewrite PyString_Size_app.
  change (PyString_Size [op; a; b; c]) with 4.
  assert (Hp : 0 <= PyString_Size p) by (unfold PyString_Size; lia).
  replace (Z.to_nat ((PyString_Size p + 4) / 4))
    with (S (Z.to_nat (PyString_Size p / 4))).
  2:{ replace (PyString_Size p + 4) with (PyString_Size p + 1 * 4) by lia.
      rewrite Z.div_add by lia.
      assert (0 <= PyString_Size p / 4) by (apply Z.div_pos; lia). lia. }
  rewrite (get_return_sig_loop_S (p ++ [op; a; b; c])).
  replace (PyString_Size p + 4 - 4) with (PyString_Size p + 0) by lia.
  destruct (Z.ltb_spec (PyString_Size p + 0) 0); [lia|].
  rewrite byte_at_app_r by lia.
  change (byte_at [op; a; b; c] 0) with (Some op).
  assert (Hchar : as_char op = op).
  { unfold as_char. destruct (Z.ltb_spec op 128); [reflexivity | lia]. }
  cbv beta iota. rewrite Hchar.
  destruct (op =? OP_NOOP); [|reflexivity].
  rewrite get_return_sig_loop_app by lia.
  rewrite Z.add_0_r. reflexivity.
Qed.

(** X7.  [typecode_from_char] gives -1 for exactly the characters
    outside 'bilfdcs', and different signature characters have
    different type numbers. *)
Theorem typecode_from_char_faithful (c1 c2 : Z) :
  (typecode_from_char c1 = -1
   <-> ~ In c1 [Tb; Ti; Tl; Tf; Td; Tc; Ts])
  /\ (typecode_from_char c1 = typecode_from_char c2 ->
      typecode_from_char c1 <> -1 -> c1 = c2).
Proof.
  unfold typecode_from_char, Tb, Ti, Tl, Tf, Td, Tc, Ts, PyArray_BOOL,
    PyArray_INT, PyArray_LONGLONG, PyArray_FLOAT, PyArray_DOUBLE,
    PyArray_CDOUBLE, PyArray_STRING. cbn [In].
  split.
  - repeat match goal with
           | |- context [c1 =? ?k] => destruct (Z.eqb_spec c1 k)
           end; split; intros H; try lia; try discriminate;
      try (exfalso; apply H; tauto).
  - repeat match goal with
           | |- context [c1 =? ?k] => destruct (Z.eqb_spec c1 k)
           end;
    repeat match goal with
           | |- context [c2 =? ?k] => destruct (Z.eqb_spec c2 k)
           end; intros; try lia; try congruence.
Qed.

End ReturnSignature.

Section ReturnSignatureExample.
Local Existing Instance sample_headers.

Lemma get_return_sig_last_instruction_witness :
  get_return_sig ([2; 0; 1; 1] ++ [0; 5; 5; 5])
  = if 0 =? OP_NOOP then get_return_sig [2; 0; 1; 1]
    else if op_signature 0 0 <=? 0 then char_X else op_signature 0 0.
Proof.
  apply (get_return_sig_last_instruction [2; 0; 1; 1] 0 5 5 5).
  reflexivity.
Defined.

End ReturnSignatureExample.

(** ** [stringcmp] as an order *)

Section StringOrder.

Lemma bytewise_compare_swap (a b : list Z) :
  bytewise_compare b a = - bytewise_compare a b.
Proof.
  revert b. induction a as [|x a IH]; intros [|y b]; try reflexivity.
  cbn [bytewise_compare].
  destruct (Z.ltb_spec x y), (Z.gtb_spec x y), (Z.ltb_spec y x),
    (Z.gtb_spec y x); try lia; try reflexivity.
  apply IH.
Qed.

Lemma bytewise_compare_0 (a b : list Z) :
  List.length a = List.length b ->
  bytewise_compare a b = 0 <-> a = b.
Proof.
  revert b. induction a as [|x a IH]; intros [|y b] Hlen;
    try discriminate; [tauto|].
  cbn [bytewise_compare].
  injection Hlen as Hlen. specialize (IH b Hlen).
  destruct (Z.ltb_spec x y), (Z.gtb_spec x y); try lia.
  - split; [discriminate | intros [= ? ?]; lia].
  - split; [discriminate | intros [= ? ?]; lia].
  - replace y with x by lia. split.
    + intros K. f_equal. apply IH, K.
    + intros [= ->]. apply IH. reflexivity.
Qed.

Lemma bytewise_compare_lt_trans (a b c : list Z) :
  List.length a = List.length b -> List.length b = List.length c ->
  bytewise_compare a b = -1 -> bytewise_compare b c = -1 ->
  bytewise_compare a c = -1.
Proof.
  revert b c.
  induction a as [|x a IH]; intros [|y b] [|z c] Hab Hbc;
    try discriminate; cbn [bytewise_compare]; try discriminate.
  injection Hab as Hab. injection Hbc as Hbc.
  destruct (Z.ltb_spec x y), (Z.gtb_spec x y), (Z.ltb_spec y z),
    (Z.gtb_spec y z), (Z.ltb_spec x z), (Z.gtb_spec x z);
    try lia; try discriminate; try reflexivity.
  apply IH; assumption.
Qed.

(** Zeros appended to both sides do not change the comparison. *)
Lemma bytewise_compare_zeros (a b : list Z) (n : nat) :
  List.length a = List.length b ->
  bytewise_compare (a ++ repeat 0 n) (b ++ repeat 0 n)
  = bytewise_compare a b.
Proof.
  revert b. induction a as [|x a IH]; intros [|y b] Hlen;
    try discriminate.
  - cbn [app bytewise_compare]. induction n as [|n IHn]; [reflexivity|].
    cbn [repeat bytewise_compare]. exact IHn.
  - injection Hlen as Hlen. cbn [app bytewise_compare].
    rewrite (IH b Hlen). reflexivity.
Qed.

(** Padding further than the longer width changes nothing. *)
Lemma nul_padded_further (s : list Z) (w m M : Z) :
  0 <= w <= m -> m <= M ->
  nul_padded s w M = nul_padded s w m ++ repeat 0 (Z.to_nat (M - m)).
Proof.
  intros Hw HM. unfold nul_padded. rewrite <- app_assoc, <- repeat_app.
  do 2 f_equal. lia.
Qed.

Lemma padded_compare_further (s1 s2 : list Z) (w1 w2 M : Z) :
  0 < w1 <= Z.of_nat (List.length s1) ->
  0 < w2 <= Z.of_nat (List.length s2) ->
  Z.max w1 w2 <= M ->
  bytewise_compare (map as_char (nul_padded s1 w1 M))
                   (map as_char (nul_padded s2 w2 M))
  = padded_char_compare s1 s2 w1 w2.
Proof.
  intros H1 H2 HM. unfold padded_char_compare.
  rewrite (nul_padded_further s1 w1 (Z.max w1 w2) M),
    (nul_padded_further s2 w2 (Z.max w1 w2) M) by lia.
  rewrite !map_app, !map_repeat. change (as_char 0) with 0.
  apply bytewise_compare_zeros.
  rewrite !length_map, !nul_padded_length by lia. reflexivity.
Qed.

(** X8.  Exchanging the two strings negates the result of
    [stringcmp]. *)
Theorem stringcmp_antisymmetric (s1 s2 : list Z) (w1 w2 : Z) :
  0 < w1 <= Z.of_nat (List.length s1) ->
  0 < w2 <= Z.of_nat (List.length s2) ->
  exists r,
    stringcmp s1 s2 w1 w2 = Some r /\ stringcmp s2 s1 w2 w1 = Some (- r).
Proof.
  intros H1 H2. eexists. split; [apply stringcmp_as_chars; assumption|].
  rewrite stringcmp_as_chars by assumption. unfold padded_char_compare.
  rewrite (Z.max_comm w2 w1). f_equal. apply bytewise_compare_swap.
Qed.

(** X9.  On strings of widths of at least 1, each held in a buffer of at
    least its width, [stringcmp] gives 0 exactly when the two strings,
    padded with NUL bytes to the longer width, hold the same [char]
    values: trailing NUL bytes never distinguish two strings. *)
Theorem stringcmp_zero_iff_equal (s1 s2 : list Z) (w1 w2 : Z) :
  0 < w1 <= Z.of_nat (List.length s1) ->
  0 < w2 <= Z.of_nat (List.length s2) ->
  stringcmp s1 s2 w1 w2 = Some 0
  <-> map as_char (nul_padded s1 w1 (Z.max w1 w2))
      = map as_char (nul_padded s2 w2 (Z.max w1 w2)).
Proof.
  intros H1 H2. rewrite stringcmp_as_chars by assumption.
  unfold padded_char_compare.
  rewrite <- bytewise_compare_0
    by (rewrite !length_map, !nul_padded_length by lia; reflexivity).
  split; [intros [= E]; exact E | intros ->; reflexivity].
Qed.

(** X10.  On strings of widths of at least 1, each held in a buffer of
    at least its width, [stringcmp] orders strings of different widths
    consistently: when it puts a first string before a second and the
    second before a third, it puts the first before the third. *)
Theorem stringcmp_transitive (s1 s2 s3 : list Z) (w1 w2 w3 : Z) :
  0 < w1 <= Z.of_nat (List.length s1) ->
  0 < w2 <= Z.of_nat (List.length s2) ->
  0 < w3 <= Z.of_nat (List.length s3) ->
  stringcmp s1 s2 w1 w2 = Some (-1) ->
  stringcmp s2 s3 w2 w3 = Some (-1) ->
  stringcmp s1 s3 w1 w3 = Some (-1).
Proof.
  intros H1 H2 H3.
  rewrite !stringcmp_as_chars by assumption.
  set (M := Z.max w1 (Z.max w2 w3)).
  rewrite <- (padded_compare_further s1 s2 w1 w2 M),
    <- (padded_compare_further s2 s3 w2 w3 M),
    <- (padded_compare_further s1 s3 w1 w3 M) by (assumption || lia).
  intros [= E12] [= E23]. f_equal.
  apply (bytewise_compare_lt_trans _ (map as_char (nul_padded s2 w2 M)));
    try assumption;
    rewrite !length_map, !nul_padded_length by lia; reflexivity.
Qed.

Lemma stringcmp_antisymmetric_witness :
  exists r,
    stringcmp [97; 98] [97; 98; 99] 2 3 = Some r
    /\ stringcmp [97; 98; 99] [97; 98] 3 2 = Some (- r).
Proof.
  apply (stringcmp_antisymmetric [97; 98] [97; 98; 99] 2 3);
    cbn [List.length]; lia.
Defined.

Lemma stringcmp_zero_iff_equal_witness :
  stringcmp [97; 98; 0] [97; 98] 3 2 = Some 0
  <-> map as_char (nul_padded [97; 98; 0] 3 (Z.max 3 2))
      = map as_char (nul_padded [97; 98] 2 (Z.max 3 2)).
Proof.
  apply (stringcmp_zero_iff_equal [97; 98; 0] [97; 98] 3 2);
    cbn [List.length]; lia.
Defined.

Lemma stringcmp_transitive_witness :
  stringcmp [97] [97; 98; 99] 1 3 = Some (-1).
Proof.
  apply (stringcmp_transitive [97] [97; 98] [97; 98; 99] 1 2 3);
    try (cbn [List.length]; lia); reflexivity.
Defined.

End StringOrder.

(** ** Space for the temporaries *)

Section TempsSpace.
Context {value : Type}.
Variable malloc_ok : Z -> bool.

Lemma Forall2_elem_l {A B : Type} (R : A -> B -> Prop) (l : list A)
  (k : list B) (x : A) :
  Forall2 R l k -> x ∈ l -> exists y, y ∈ k /\ R x y.
Proof.
  induction 1 as [|a b l k Hab _ IH]; intros Hx; [set_solver|].
  apply elem_of_cons in Hx as [->|Hx].
  - exists b. split; [set_solver | exact Hab].
  - destruct (IH Hx) as (y & Hy & HR). exists y. split; [set_solver|].
    exact HR.
Qed.

Lemma get_temps_space_loop_succeeds (rs : list Z) :
  forall (mem : list Z) (hp : heap),
    NoDup rs ->
    (forall r, r ∈ rs -> 0 <= r < Z.of_nat (List.length mem)) ->
    (forall r, r ∈ rs -> malloc_ok r = true) ->
    fresh_heap hp -> 0 < next_address hp ->
    exists ps mem' hp',
      get_temps_space_loop malloc_ok rs mem hp = Some (0, mem', hp')
      /\ List.length mem' = List.length mem
      /\ Forall2 (fun r p => byte_at mem' r = Some p) rs ps
      /\ (forall r, r ∉ rs -> byte_at mem' r = byte_at mem r)
      /\ live hp' = live hp ∪ list_to_set ps
      /\ (forall p, p ∈ ps -> (p ∉ live hp) /\ p <> NULL).
Proof.
  induction rs as [|r rest IH]; intros mem hp Hnd Hrange Hok Hfresh Hnext.
  - exists [], mem, hp. cbn. repeat split; try constructor; try set_solver.
  - apply NoDup_cons in Hnd as [Hr Hnd].
    pose proof (Hrange r ltac:(set_solver)) as Hr_range.
    cbn [get_temps_space_loop].
    destruct (Z.ltb_spec r 0); [lia|].
    destruct (Z.geb_spec r (Z.of_nat (List.length mem))); [lia|].
    cbn [orb]. rewrite (Hok r) by set_solver.
    unfold malloc, allocate.
    destruct (Z.eqb_spec (next_address hp) NULL) as [E|_];
      [unfold NULL in E; lia|].
    set (hp1 := {| live := live hp ∪ {[next_address hp]};
                   next_address := next_address hp + 1;
                   invalid := invalid hp |}).
    set (mem1 := <[Z.to_nat r := next_address hp]> mem).
    destruct (IH mem1 hp1 Hnd) as (ps & mem' & hp' & Hget & Hlen & Hps
                                   & Hother & Hlive & Hnew).
    + intros r' Hr'. unfold mem1. rewrite length_insert.
      apply Hrange. set_solver.
    + intros r' Hr'. apply Hok. set_solver.
    + intros p Hp. cbn in Hp |- *.
      apply elem_of_union in Hp as [Hp|Hp].
      * specialize (Hfresh p Hp). lia.
      * apply elem_of_singleton in Hp. lia.
    + cbn. lia.
    + exists (next_address hp :: ps), mem', hp'.
      split; [exact Hget|].
      split; [rewrite Hlen; apply length_insert|].
      split.
      { constructor; [|exact Hps].
        rewrite (Hother r Hr). apply byte_at_insert_eq.
        unfold PyString_Size. lia. }
      split.
      { intros r' Hr'. rewrite Hother by set_solver.
        apply byte_at_insert_ne; [lia | set_solver]. }
      split.
      { rewrite Hlive. cbn. set_solver. }
      intros p Hp. apply elem_of_cons in Hp as [->|Hp].
      * split; [|unfold NULL; lia].
        intros Hin. specialize (Hfresh _ Hin). lia.
      * destruct (Hnew p Hp) as [Hp1 Hp2]. split; [|exact Hp2].
        cbn in Hp1. set_solver.
Qed.

Lemma free_temps_space_loop_releases (rs ps : list Z) (mem : list Z) :
  Forall2 (fun r p => byte_at mem r = Some p) rs ps ->
  (forall p, p ∈ ps -> p <> NULL) ->
  forall hp, exists hp',
    free_temps_space_loop rs mem hp = Some hp'
    /\ live hp' = live hp ∖ list_to_set ps.
Proof.
  induction 1 as [|r p rs ps Hrp _ IH]; intros Hnull hp.
  - exists hp. split; [reflexivity|]. cbn. set_solver.
  - cbn [free_temps_space_loop]. rewrite Hrp.
    destruct (IH ltac:(intros q Hq; apply Hnull; set_solver) (free p hp))
      as (hp' & Hfree & Hlive).
    exists hp'. split; [exact Hfree|]. rewrite Hlive.
    unfold free. destruct (Z.eqb_spec p NULL) as [E|_].
    + destruct (Hnull p ltac:(set_solver) E).
    + rewrite live_release. set_solver.
Qed.

Lemma temp_registers_elem (params : vm_params value) (r : Z) :
  r ∈ temp_registers params
  <-> 1 + vp_n_inputs params + vp_n_constants params <= r
      < 1 + vp_n_inputs params + vp_n_constants params
        + Z.max 0 (vp_n_temps params).
Proof.
  unfold temp_registers. rewrite list_elem_of_In, in_map_iff. split.
  - intros (i & <- & Hi). apply in_seq in Hi. lia.
  - intros Hr.
    exists (Z.to_nat
              (r - (1 + vp_n_inputs params + vp_n_constants params))).
    split; [lia|]. apply in_seq. lia.
Qed.

Lemma temp_registers_NoDup (params : vm_params value) :
  NoDup (temp_registers params).
Proof.
  unfold temp_registers. apply NoDup_fmap_2; [|apply NoDup_seq].
  intros i j Hij. lia.
Qed.

(** X11.  When every allocation succeeds, [get_temps_space] returns 0
    with a new allocation in the register of each temporary and the
    other registers as they were; [free_temps_space] then releases
    exactly these, and the allocations are as before the two calls. *)
Theorem temps_space_round_trip (params : vm_params value) (mem : list Z)
  (hp : heap) :
  let k := 1 + vp_n_inputs params + vp_n_constants params in
  0 <= k -> k + vp_n_temps params <= Z.of_nat (List.length mem) ->
  (forall r, k <= r < k + vp_n_temps params -> malloc_ok r = true) ->
  fresh_heap hp -> 0 < next_address hp ->
  exists mem' hp' hp'',
    get_temps_space malloc_ok params mem hp = Some (0, mem', hp')
    /\ List.length mem' = List.length mem
    /\ (forall r, k <= r < k + vp_n_temps params ->
                  exists p, byte_at mem' r = Some p
                            /\ p ∈ live hp' /\ p ∉ live hp)
    /\ (forall r, ~ (k <= r < k + vp_n_temps params) ->
                  byte_at mem' r = byte_at mem r)
    /\ free_temps_space params mem' hp' = Some hp''
    /\ live hp'' = live hp.
Proof.
  intros k Hk Hlen Hok Hfresh Hnext.
  destruct (get_temps_space_loop_succeeds (temp_registers params) mem hp
              (temp_registers_NoDup params))
    as (ps & mem' & hp' & Hget & Hlen' & Hps & Hother & Hlive & Hnew);
    try assumption.
  { intros r Hr. apply temp_registers_elem in Hr. fold k in Hr. lia. }
  { intros r Hr. apply temp_registers_elem in Hr. fold k in Hr.
    apply Hok. lia. }
  destruct (free_temps_space_loop_releases _ _ _ Hps
              (fun p Hp => proj2 (Hnew p Hp)) hp') as (hp'' & Hfree & Hlive').
  exists mem', hp', hp''.
  split; [exact Hget|]. split; [exact Hlen'|]. split.
  { intros r Hr.
    destruct (Forall2_elem_l _ _ _ r Hps) as (p & Hp & Hrp).
    { apply temp_registers_elem. fold k. lia. }
    exists p. split; [exact Hrp|]. split; [|apply Hnew, Hp].
    rewrite Hlive. set_solver. }
  split.
  { intros r Hr. apply Hother. rewrite temp_registers_elem. fold k. lia. }
  split; [exact Hfree|].
  rewrite Hlive', Hlive.
  assert (forall p, p ∈ ps -> p ∉ live hp) by (intros p Hp; apply Hnew, Hp).
  set_solver.
Qed.

Lemma get_temps_space_loop_fails (rs1 : list Z) :
  forall (r : Z) (rs2 mem : list Z) (hp : heap),
    NoDup (rs1 ++ r :: rs2) ->
    (forall r', r' ∈ rs1 ++ r :: rs2 ->
                0 <= r' < Z.of_nat (List.length mem)) ->
    (forall r', r' ∈ rs1 -> malloc_ok r' = true) ->
    malloc_ok r = false ->
    fresh_heap hp -> 0 < next_address hp ->
    exists ps mem' hp',
      get_temps_space_loop malloc_ok (rs1 ++ r :: rs2) mem hp
      = Some (-1, mem', hp')
      /\ Forall2 (fun r' p => byte_at mem' r' = Some p) rs1 ps
      /\ byte_at mem' r = Some NULL
      /\ (forall r', r' ∉ rs1 -> r' <> r -> byte_at mem' r' = byte_at mem r')
      /\ live hp' = live hp ∪ list_to_set ps
      /\ (forall p, p ∈ ps -> (p ∉ live hp) /\ p <> NULL).
Proof.
  induction rs1 as [|r1 rs1 IH];
    intros r rs2 mem hp Hnd Hrange Hok Hfail Hfresh Hnext.
  - cbn [app] in *. pose proof (Hrange r ltac:(set_solver)) as Hr.
    cbn [get_temps_space_loop].
    destruct (Z.ltb_spec r 0); [lia|].
    destruct (Z.geb_spec r (Z.of_nat (List.length mem))); [lia|].
    cbn [orb]. rewrite Hfail. cbn [malloc]. rewrite Z.eqb_refl.
    exists [], (<[Z.to_nat r := NULL]> mem), hp.
    split; [reflexivity|]. split; [constructor|].
    split; [apply byte_at_insert_eq; unfold PyString_Size; lia|].
    split; [intros r' _ Hne; apply byte_at_insert_ne; [lia | congruence]|].
    split; [cbn; set_solver | set_solver].
  - cbn [app] in *. apply NoDup_cons in Hnd as [Hr1 Hnd].
    pose proof (Hrange r1 ltac:(set_solver)) as Hr1_range.
    cbn [get_temps_space_loop].
    destruct (Z.ltb_spec r1 0); [lia|].
    destruct (Z.geb_spec r1 (Z.of_nat (List.length mem))); [lia|].
    cbn [orb]. rewrite (Hok r1) by set_solver.
    unfold malloc at 1, allocate.
    destruct (Z.eqb_spec (next_address hp) NULL) as [E|_];
      [unfold NULL in E; lia|].
    set (hp1 := {| live := live hp ∪ {[next_address hp]};
                   next_address := next_address hp + 1;
                   invalid := invalid hp |}).
    set (mem1 := <[Z.to_nat r1 := next_address hp]> mem).
    destruct (IH r rs2 mem1 hp1 Hnd) as (ps & mem' & hp' & Hget & Hps
                                         & Hnull & Hother & Hlive & Hnew).
    + intros r' Hr'. unfold mem1. rewrite length_insert.
      apply Hrange. set_solver.
    + intros r' Hr'. apply Hok. set_solver.
    + exact Hfail.
    + intros p Hp. cbn in Hp |- *.
      apply elem_of_union in Hp as [Hp|Hp].
      * specialize (Hfresh p Hp). lia.
      * apply elem_of_singleton in Hp. lia.
    + cbn. lia.
    + exists (next_address hp :: ps), mem', hp'.
      split; [exact Hget|].
      split.
      { constructor; [|exact Hps].
        rewrite (Hother r1) by set_solver. apply byte_at_insert_eq.
        unfold PyString_Size. lia. }
      split; [exact Hnull|].
      split.
      { intros r' Hr' Hne. rewrite Hother by set_solver.
        apply byte_at_insert_ne; [lia | set_solver]. }
      split.
      { rewrite Hlive. cbn. set_solver. }
      intros p Hp. apply elem_of_cons in Hp as [->|Hp].
      * split; [|unfold NULL; lia].
        intros Hin. specialize (Hfresh _ Hin). lia.
      * destruct (Hnew p Hp) as [Hp1 Hp2]. split; [|exact Hp2].
        cbn in Hp1. set_solver.
Qed.

Lemma temp_registers_split (params : vm_params value) (r : Z) :
  r ∈ temp_registers params ->
  exists rs1 rs2,
    temp_registers params = rs1 ++ r :: rs2
    /\ (forall r', r' ∈ rs1
                   <-> 1 + vp_n_inputs params + vp_n_constants params <= r'
                       < r)
    /\ (forall r', r' ∈ rs2 -> r < r').
Proof.
  intros Hr. apply temp_registers_elem in Hr. unfold temp_registers.
  set (k := 1 + vp_n_inputs params + vp_n_constants params) in *.
  set (i := Z.to_nat (r - k)).
  set (n := Z.to_nat (vp_n_temps params)).
  exists (map (fun i => k + Z.of_nat i) (seq 0 i)),
         (map (fun i => k + Z.of_nat i) (seq (S i) (n - S i))).
  split; [|split].
  - assert (E : seq 0 n = seq 0 i ++ i :: seq (S i) (n - S i)).
    { transitivity (seq 0 (i + S (n - S i))); [f_equal; lia|].
      rewrite seq_app. reflexivity. }
    rewrite E, map_app. cbn [map]. do 2 f_equal. lia.
  - intros r'. rewrite list_elem_of_In, in_map_iff. split.
    + intros (j & <- & Hj). apply in_seq in Hj. lia.
    + intros Hr'. exists (Z.to_nat (r' - k)). split; [lia|].
      apply in_seq. lia.
  - intros r'. rewrite list_elem_of_In, in_map_iff.
    intros (j & <- & Hj). apply in_seq in Hj. lia.
Qed.

(** X12.  When the allocation for a temporary fails, [get_temps_space]
    returns -1 with [NULL] in that register and releases nothing: the
    temporaries before it keep their new allocations, and the registers
    after it hold what they held before the call. *)
Theorem temps_space_failure_keeps_allocations (params : vm_params value)
  (mem : list Z) (hp : heap) (r : Z) :
  let k := 1 + vp_n_inputs params + vp_n_constants params in
  0 <= k -> k + vp_n_temps params <= Z.of_nat (List.length mem) ->
  k <= r < k + vp_n_temps params ->
  (forall r', k <= r' < r -> malloc_ok r' = true) ->
  malloc_ok r = false ->
  fresh_heap hp -> 0 < next_address hp ->
  exists mem' hp',
    get_temps_space malloc_ok params mem hp = Some (-1, mem', hp')
    /\ byte_at mem' r = Some NULL
    /\ (forall r', k <= r' < r ->
                   exists p, byte_at mem' r' = Some p
                             /\ p <> NULL /\ p ∈ live hp' /\ p ∉ live hp)
    /\ (forall r', r < r' -> byte_at mem' r' = byte_at mem r')
    /\ live hp ⊆ live hp'.
Proof.
  intros k Hk Hlen Hr Hok Hfail Hfresh Hnext.
  assert (Hin : r ∈ temp_registers params).
  { apply temp_registers_elem. fold k. lia. }
  destruct (temp_registers_split params r Hin)
    as (rs1 & rs2 & Hsplit & Hrs1 & Hrs2).
  fold k in Hrs1.
  pose proof (temp_registers_NoDup params) as Hnd.
  unfold get_temps_space. rewrite Hsplit in Hnd |- *.
  destruct (get_temps_space_loop_fails rs1 r rs2 mem hp Hnd)
    as (ps & mem' & hp' & Hget & Hps & Hnull & Hother & Hlive & Hnew);
    try assumption.
  { intros r' Hr'. rewrite <- Hsplit in Hr'.
    apply temp_registers_elem in Hr'. fold k in Hr'. lia. }
  { intros r' Hr'. apply Hok, Hrs1, Hr'. }
  exists mem', hp'. split; [exact Hget|]. split; [exact Hnull|]. split.
  { intros r' Hr'.
    destruct (Forall2_elem_l _ _ _ r' Hps) as (p & Hp & Hrp);
      [apply Hrs1; lia|].
    exists p. split; [exact Hrp|]. destruct (Hnew p Hp) as [Hp1 Hp2].
    split; [exact Hp2|]. split; [|exact Hp1].
    rewrite Hlive. set_solver. }
  split.
  { intros r' Hr'. apply Hother; [|lia].
    intros Hr1. apply Hrs1 in Hr1. lia. }
  rewrite Hlive. set_solver.
Qed.

End TempsSpace.

Section TempsSpaceExample.

Lemma caller_heap_fresh : fresh_heap caller_heap.
Proof.
  intros p Hp. cbn in Hp.
  apply elem_of_union in Hp as [Hp|Hp]; apply elem_of_singleton in Hp;
    subst p; reflexivity.
Defined.

Lemma temps_space_round_trip_witness :
  exists mem' hp' hp'',
    get_temps_space (fun _ => true) sample_temps_params [4096; 256; 0; 0]
      caller_heap = Some (0, mem', hp')
    /\ List.length mem' = List.length [4096; 256; 0; 0]
    /\ (forall r, 2 <= r < 2 + 2 ->
                  exists p, byte_at mem' r = Some p
                            /\ p ∈ live hp' /\ p ∉ live caller_heap)
    /\ (forall r, ~ (2 <= r < 2 + 2) ->
                  byte_at mem' r = byte_at [4096; 256; 0; 0] r)
    /\ free_temps_space sample_temps_params mem' hp' = Some hp''
    /\ live hp'' = live caller_heap.
Proof.
  apply (temps_space_round_trip (fun _ => true) sample_temps_params
           [4096; 256; 0; 0] caller_heap).
  - discriminate.
  - discriminate.
  - reflexivity.
  - exact caller_heap_fresh.
  - reflexivity.
Defined.

Lemma temps_space_failure_keeps_allocations_witness :
  exists mem' hp',
    get_temps_space (fun r => r <? 3) sample_temps_params [4096; 256; 7; 9]
      caller_heap = Some (-1, mem', hp')
    /\ byte_at mem' 3 = Some NULL
    /\ (forall r', 2 <= r' < 3 ->
                   exists p, byte_at mem' r' = Some p
                             /\ p <> NULL /\ p ∈ live hp'
                             /\ p ∉ live caller_heap)
    /\ (forall r', 3 < r' -> byte_at mem' r' = byte_at [4096; 256; 7; 9] r')
    /\ live caller_heap ⊆ live hp'.
Proof.
  apply (temps_space_failure_keeps_allocations (fun r => r <? 3)
           sample_temps_params [4096; 256; 7; 9] caller_heap 3).
  - discriminate.
  - discriminate.
  - split; [discriminate | reflexivity].
  - intros r' Hr'. apply Z.ltb_lt. apply Hr'.
  - reflexivity.
  - exact caller_heap_fresh.
  - reflexivity.
Defined.

End TempsSpaceExample.

(** ** The allocations of the parallel engine *)

Section CopyBounds.

Lemma skipn_1_app_nonempty (l k : list Z) :
  l <> [] -> skipn 1 (l ++ k) = skipn 1 l ++ k.
Proof. destruct l; [congruence | reflexivity]. Qed.

Lemma copy_iterators_bound (oc : alloc_outcomes) (threads : list Z) :
  forall (th : list Z) (hp : heap) (r : option (list Z)) (hp' : heap),
    th <> [] ->
    copy_iterators oc threads th hp = (r, hp') ->
    match r with
    | Some th' =>
      exists copies,
        th' = th ++ copies
        /\ List.length copies = List.length threads
        /\ live hp' = live hp ∪ list_to_set copies
        /\ (fresh_heap hp ->
            fresh_heap hp' /\ forall c, c ∈ copies -> c ∉ live hp)
    | None => live hp' ⊆ live hp ∖ list_to_set (skipn 1 th)
    end.
Proof.
  induction threads as [|i rest IH]; intros th hp r hp' Hth;
    cbn [copy_iterators].
  - intros [= <- <-]. exists []. rewrite app_nil_r.
    repeat split; try assumption; set_solver.
  - unfold NpyIter_Copy. destruct (NpyIter_Copy_ok oc i).
    + cbn [allocate]. intros Hcopy.
      apply IH in Hcopy; [|destruct th; discriminate].
      cbn [live next_address] in Hcopy.
      destruct r as [th'|].
      * destruct Hcopy as (copies & -> & Hlen & Hlive & Hfresh).
        exists (next_address hp :: copies).
        split; [rewrite <- app_assoc; reflexivity|].
        split; [cbn; lia|].
        split; [rewrite Hlive; cbn; set_solver|].
        intros Hf.
        assert (Hf1 : fresh_heap
                        {| live := live hp ∪ {[next_address hp]};
                           next_address := next_address hp + 1;
                           invalid := invalid hp |}).
        { intros p Hp. cbn in Hp |- *.
          apply elem_of_union in Hp as [Hp|Hp].
          - specialize (Hf p Hp). lia.
          - apply elem_of_singleton in Hp. lia. }
        destruct (Hfresh Hf1) as [Hf' Hnew]. split; [exact Hf'|].
        intros c Hc. apply elem_of_cons in Hc as [->|Hc].
        -- intros Hin. specialize (Hf _ Hin). lia.
        -- specialize (Hnew c Hc). cbn in Hnew. set_solver.
      * rewrite skipn_1_app_nonempty in Hcopy by assumption.
        rewrite list_to_set_app_L in Hcopy. cbn in Hcopy. set_solver.
    + intros [= <- <-].
      rewrite live_release_down by apply live_release. reflexivity.
Qed.

Lemma copy_memsteps_bound (oc : alloc_outcomes) (threads : list Z)
  (th_iter : list Z) :
  forall (th : list Z) (hp : heap) (r : option (list Z)) (hp' : heap),
    th <> [] ->
    copy_memsteps oc threads th_iter th hp = (r, hp') ->
    match r with
    | Some th' =>
      exists copies,
        th' = th ++ copies
        /\ List.length copies = List.length threads
        /\ live hp' = live hp ∪ list_to_set copies
        /\ (fresh_heap hp -> forall c, c ∈ copies -> c ∉ live hp)
    | None =>
      live hp' ⊆ live hp ∖ list_to_set (skipn 1 th) ∖ list_to_set th_iter
    end.
Proof.
  induction threads as [|i rest IH]; intros th hp r hp' Hth;
    cbn [copy_memsteps].
  - intros [= <- <-]. exists []. rewrite app_nil_r.
    repeat split; try assumption; set_solver.
  - unfold PyMem_New. destruct (PyMem_New_ok oc i).
    + cbn [allocate]. intros Hcopy.
      apply IH in Hcopy; [|destruct th; discriminate].
      cbn [live next_address] in Hcopy.
      destruct r as [th'|].
      * destruct Hcopy as (copies & -> & Hlen & Hlive & Hfresh).
        exists (next_address hp :: copies).
        split; [rewrite <- app_assoc; reflexivity|].
        split; [cbn; lia|].
        split; [rewrite Hlive; cbn; set_solver|].
        intros Hf.
        assert (Hf1 : fresh_heap
                        {| live := live hp ∪ {[next_address hp]};
                           next_address := next_address hp + 1;
                           invalid := invalid hp |}).
        { intros p Hp. cbn in Hp |- *.
          apply elem_of_union in Hp as [Hp|Hp].
          - specialize (Hf p Hp). lia.
          - apply elem_of_singleton in Hp. lia. }
        intros c Hc. apply elem_of_cons in Hc as [->|Hc].
        -- intros Hin. specialize (Hf _ Hin). lia.
        -- specialize (Hfresh Hf1 c Hc). cbn in Hfresh. set_solver.
      * rewrite skipn_1_app_nonempty in Hcopy by assumption.
        rewrite list_to_set_app_L in Hcopy. cbn in Hcopy. set_solver.
    + intros [= <- <-].
      rewrite live_release_all by apply live_release.
      rewrite live_release_down by apply live_release. reflexivity.
Qed.

Lemma live_release_pairs (a b : list Z) :
  List.length a = List.length b ->
  forall hp,
    live (fold_left
            (fun hp pm => PyMem_Del (snd pm) (NpyIter_Deallocate (fst pm) hp))
            (combine a b) hp)
    = live hp ∖ list_to_set a ∖ list_to_set b.
Proof.
  revert b. induction a as [|x a IH]; intros [|y b] Hlen hp;
    try discriminate.
  - cbn. set_solver.
  - injection Hlen as Hlen. cbn [combine fold_left fst snd].
    rewrite (IH b Hlen). unfold PyMem_Del, NpyIter_Deallocate.
    rewrite !live_release. set_solver.
Qed.

End CopyBounds.

Section ParallelAllocations.
Context {hdr : Headers} {value : Type}.
Variable exec_op : Z -> Z -> Z -> Z -> list value -> value.
Variable exec_reduce :
  Z -> Z -> Z -> bool -> list (list value) -> list (list value).

(** X13.  Whatever the allocator and the threads do,
    [vm_engine_iter_parallel] leaves no allocation of its own behind:
    the live allocations after the call are among those before it; and
    when every copy could be made they are exactly those before it, so
    that the caller's iterator and stride table are still live. *)
Theorem vm_engine_iter_parallel_releases_copies (gs : global_state)
  (oc : alloc_outcomes) (sched : list (nat * nat)) (iter_p memsteps_p : Z)
  (iter : NpyIter value) (params : vm_params value) (nob errmsg_null : bool)
  (pc_error : Z) (hp : heap) :
  fresh_heap hp ->
  let hp' :=
    snd (vm_engine_iter_parallel exec_op exec_reduce gs oc sched iter_p iter
           params memsteps_p nob pc_error errmsg_null hp) in
  live hp' ⊆ live hp
  /\ ((forall i, NpyIter_Copy_ok oc i = true) ->
      (forall i, PyMem_New_ok oc i = true) ->
      live hp' = live hp).
Proof.
  intros Hfresh. unfold vm_engine_iter_parallel.
  destruct errmsg_null; [cbn; split; [set_solver | reflexivity]|].
  destruct (copy_iterators oc (additional_threads (nthreads gs)) [iter_p] hp)
    as [r1 hp1] eqn:E1.
  assert (Hslot0 : [iter_p] <> []) by discriminate.
  pose proof (copy_iterators_bound oc _ _ _ _ _ Hslot0 E1) as B1.
  destruct r1 as [th_iter|].
  2:{ cbn [snd]. split; [set_solver|].
      intros Hcopy _.
      destruct (copy_iterators_succeeds oc (additional_threads (nthreads gs))
                  [iter_p] hp Hcopy) as (th & hpx & E & _).
      rewrite E in E1. discriminate. }
  destruct B1 as (copies & -> & Hlen1 & Hlive1 & Hfresh1).
  destruct (Hfresh1 Hfresh) as [Hf1 Hnew1].
  destruct (copy_memsteps oc (additional_threads (nthreads gs))
              ([iter_p] ++ copies) [memsteps_p] hp1) as [r2 hp2] eqn:E2.
  assert (Hmslot0 : [memsteps_p] <> []) by discriminate.
  pose proof (copy_memsteps_bound oc _ _ _ _ _ _ Hmslot0 E2) as B2.
  destruct r2 as [th_memsteps|].
  2:{ cbn [snd]. split; [set_solver|].
      intros _ Hnew.
      destruct (copy_memsteps_succeeds oc (additional_threads (nthreads gs))
                  ([iter_p] ++ copies) [memsteps_p] hp1 Hnew)
        as (th & hpx & E & _).
      rewrite E in E2. discriminate. }
  destruct B2 as (mcopies & -> & Hlen2 & Hlive2 & Hnew2).
  specialize (Hnew2 Hf1).
  destruct (run_tasks _ _ _ _ _ _ _ _ _ _ _)
    as [[[[ret pe] msg] iters1] cells1].
  cbn [snd].
  change (skipn 1 ([iter_p] ++ copies)) with copies.
  change (skipn 1 ([memsteps_p] ++ mcopies)) with mcopies.
  rewrite (live_release_pairs copies mcopies) by congruence.
  rewrite Hlive2, Hlive1.
  split; [set_solver|]. intros _ _.
  assert (forall c, c ∈ mcopies -> c ∉ live hp).
  { intros c Hc Hin. apply (Hnew2 c Hc). rewrite Hlive1. set_solver. }
  set_solver.
Qed.

End ParallelAllocations.

Section ParallelAllocationsExample.
Local Existing Instance sample_headers.

Lemma vm_engine_iter_parallel_releases_copies_witness :
  let hp' :=
    snd (vm_engine_iter_parallel sample_exec_op sample_exec_reduce
           (sample_gs 3) memsteps_fail [(0, 0); (1, 1); (0, 2)]%nat 12288
           (sample_iter 10)
           (params_of (sample_object [2; 0; 1; 1])) 16384 false (-1) false
           caller_heap) in
  live hp' ⊆ live caller_heap
  /\ ((forall i, NpyIter_Copy_ok memsteps_fail i = true) ->
      (forall i, PyMem_New_ok memsteps_fail i = true) ->
      live hp' = live caller_heap).
Proof.
  apply (vm_engine_iter_parallel_releases_copies (hdr := sample_headers)
           sample_exec_op sample_exec_reduce (sample_gs 3) memsteps_fail
           [(0, 0); (1, 1); (0, 2)]%nat 12288 16384 (sample_iter 10)
           (params_of (sample_object [2; 0; 1; 1])) false false (-1)
           caller_heap).
  exact caller_heap_fresh.
Defined.

End ParallelAllocationsExample.

(** ** The size of a task *)

Section TaskSize.
Context {hdr : Headers}.

(** X14.  [th_params.block_size] is a whole number of blocks, the
    smallest for which sixteen tasks per thread cover the index range;
    for an empty range it is 0. *)
Theorem parallel_block_size_sixteen_tasks (gs : global_state)
  (start vlen : Z) :
  0 < BLOCK_SIZE1 -> 1 <= nthreads gs -> start <= vlen ->
  let block_size := parallel_block_size gs start vlen in
  block_size mod BLOCK_SIZE1 = 0
  /\ vlen - start <= 16 * nthreads gs * block_size
  /\ 16 * nthreads gs * (block_size - BLOCK_SIZE1) < vlen - start
  /\ (vlen = start -> block_size = 0).
Proof.
  intros HB Hth Hrange. unfold parallel_block_size.
  set (taskfactor := 16 * BLOCK_SIZE1 * nthreads gs).
  assert (Htf : 0 < taskfactor) by (unfold taskfactor; nia).
  rewrite Z.quot_div_nonneg by lia.
  set (numblocks := (vlen - start + taskfactor - 1) / taskfactor).
  assert (Hq : numblocks * taskfactor <= vlen - start + taskfactor - 1
               < (numblocks + 1) * taskfactor).
  { unfold numblocks.
    pose proof (Z.div_mod (vlen - start + taskfactor - 1) taskfactor
                  ltac:(lia)) as Hdm.
    pose proof (Z.mod_pos_bound (vlen - start + taskfactor - 1) taskfactor
                  Htf) as Hmb.
    nia. }
  cbv zeta. split; [apply Z.mod_mul; lia|].
  unfold taskfactor in Hq. split; [nia|]. split; [nia|].
  intros ->. assert (numblocks = 0) by nia. lia.
Qed.

End TaskSize.

Section TaskSizeExample.
Local Existing Instance sample_headers.

Lemma parallel_block_size_sixteen_tasks_witness :
  let block_size := parallel_block_size (sample_gs 2) 0 1000 in
  block_size mod BLOCK_SIZE1 = 0
  /\ 1000 - 0 <= 16 * nthreads (sample_gs 2) * block_size
  /\ 16 * nthreads (sample_gs 2) * (block_size - BLOCK_SIZE1) < 1000 - 0
  /\ (1000 = 0 -> block_size = 0).
Proof.
  apply (parallel_block_size_sixteen_tasks (sample_gs 2) 0 1000).
  - reflexivity.
  - discriminate.
  - discriminate.
Defined.

End TaskSizeExample.

(** ** The sequential driver at a failing block *)

Section FirstFailure.
Context {hdr : Headers} {value : Type}.
Variable exec_op : Z -> Z -> Z -> Z -> list value -> value.
Variable exec_reduce :
  Z -> Z -> Z -> bool -> list (list value) -> list (list value).
Variable params : vm_params value.

(** X15.  When the body returns a negative status on the first block,
    [vm_engine_iter_task] returns that status at once: the first block
    is as the body left it and the blocks after it are not touched. *)
Theorem vm_engine_iter_task_stops_at_failure (iter : NpyIter value)
  (pc_error : Z) (rest : list (list (list value))) (b : list (list value)) :
  0 < BLOCK_SIZE1 ->
  it_iternext_errmsg iter = None ->
  NpyIter_blocks iter = b :: rest ->
  body_status exec_op exec_reduce params b <> 0 ->
  exists r pe b',
    interp_body exec_op exec_reduce params true false
      (Z.of_nat (List.length b)) b pc_error = (r, pe, b')
    /\ r < 0
    /\ vm_engine_iter_task exec_op exec_reduce iter params pc_error
       = (r, pe, None,
          set_cells
            (splice (it_start iter) (concat (b' :: rest)) (it_cells iter))
            iter).
Proof.
  intros HB Hmsg Hblocks Hfails.
  destruct (body_failed exec_op exec_reduce params b pc_error Hfails)
    as (r & pe & b' & Hbody & Hr).
  exists r, pe, b'. split; [exact Hbody|]. split; [exact Hr|].
  unfold vm_engine_iter_task, engine_on_iter. rewrite Hmsg.
  rewrite engine_loops_run_blocks;
    [|exact HB | apply chunks_shaped; lia].
  rewrite Hblocks. cbn [run_blocks]. rewrite Hbody.
  replace (r <? 0) with true by lia. reflexivity.
Qed.

End FirstFailure.

Section FirstFailureExample.
Local Existing Instance sample_headers.

Lemma vm_engine_iter_task_stops_at_failure_witness :
  exists r pe b',
    interp_body sample_exec_op sample_exec_reduce
      (params_of (sample_object [2; 0; 7; 1])) true false
      (Z.of_nat (List.length [[0; 0]; [0; 1]; [0; 2]; [0; 3]]))
      [[0; 0]; [0; 1]; [0; 2]; [0; 3]] (-1) = (r, pe, b')
    /\ r < 0
    /\ vm_engine_iter_task sample_exec_op sample_exec_reduce (sample_iter 10)
         (params_of (sample_object [2; 0; 7; 1])) (-1)
       = (r, pe, None,
          set_cells
            (splice (it_start (sample_iter 10))
               (concat
                  (b' :: [[[0; 4]; [0; 5]; [0; 6]; [0; 7]];
                          [[0; 8]; [0; 9]]]))
               (it_cells (sample_iter 10))) (sample_iter 10)).
Proof.
  apply (vm_engine_iter_task_stops_at_failure (hdr := sample_headers)
           sample_exec_op sample_exec_reduce
           (params_of (sample_object [2; 0; 7; 1])) (sample_iter 10) (-1)
           [[[0; 4]; [0; 5]; [0; 6]; [0; 7]]; [[0; 8]; [0; 9]]]
           [[0; 0]; [0; 1]; [0; 2]; [0; 3]]).
  - reflexivity.
  - reflexivity.
  - vm_compute. reflexivity.
  - vm_compute. discriminate.
Defined.

End FirstFailureExample.

(** ** The inputs of a call *)

Section Inputs.

(** X16.  When the loop over the inputs succeeds there is one operand
    and one descriptor for each argument; an argument that is an array
    is taken as it is, the descriptor is the one of the signature
    character at its position, and output buffering is asked for exactly
    when it was asked for before or [out] has the data pointer of one of
    the operands. *)
Theorem convert_inputs_result (args : list PyObject) :
  forall (sig : PyString) (out : option PyArrayObject) (nob0 nob : bool)
         (w : world) (operands : list PyArrayObject)
         (dtypes : list PyArray_Descr),
    convert_inputs sig out args nob0 w = inr (operands, dtypes, nob) ->
    List.length operands = List.length args
    /\ List.length dtypes = List.length args
    /\ (forall i a, nth_error args i = Some (Py_Array a) ->
                    nth_error operands i = Some a)
    /\ (forall i d, nth_error dtypes i = Some d ->
                    PyArray_DescrFromType (typecode_from_char (nth i sig 0))
                    = Some d)
    /\ nob = nob0
             || match out with
                | Some o =>
                  existsb (fun a => arr_data o =? arr_data a) operands
                | None => false
                end.
Proof.
  induction args as [|o args IH];
    intros sig out nob0 nob w operands dtypes; cbn [convert_inputs].
  - intros [= <- <- <-]. repeat split; try (intros [|?] ?; discriminate).
    destruct out; cbn; rewrite orb_false_r; reflexivity.
  - unfold typecode_from_char_err.
    set (t := typecode_from_char (hd 0 sig)).
    set (w1 := if t =? -1 then _ else w).
    assert (Hconv :
              forall (a : option PyArrayObject),
                match a, PyArray_DescrFromType t with
                | Some a', Some d =>
                  match convert_inputs (tl sig) out args
                          (nob0 || match out, a with
                                   | Some out_array, Some a'0 =>
                                     arr_data out_array =? arr_data a'0
                                   | _, _ => false
                                   end) w1 with
                  | inl w2 => inl w2
                  | inr (operands, dtypes, nob) =>
                    inr (a' :: operands, d :: dtypes, nob)
                  end
                | Some _, None => inl w1
                | None, _ =>
                  inl (match out with
                       | Some _ => null_dereference (set_err PyErr_NumPy w1)
                       | None => set_err PyErr_NumPy w1
                       end)
                end = inr (operands, dtypes, nob) ->
                exists a' d rest_operands rest_dtypes,
                  a = Some a' /\ PyArray_DescrFromType t = Some d
                  /\ operands = a' :: rest_operands
                  /\ dtypes = d :: rest_dtypes
                  /\ convert_inputs (tl sig) out args
                       (nob0 || match out with
                                | Some out_array =>
                                  arr_data out_array =? arr_data a'
                                | None => false
                                end) w1
                     = inr (rest_operands, rest_dtypes, nob)).
    { intros [a'|]; [|destruct (PyArray_DescrFromType t); discriminate].
      destruct (PyArray_DescrFromType t) as [d|]; [|discriminate].
      destruct (convert_inputs (tl sig) out args _ w1)
        as [w2|[[ops dts] nb]] eqn:E; [discriminate|].
      intros [= <- <- <-]. exists a', d, ops, dts.
      repeat split. rewrite <- E. destruct out; reflexivity. }
    intros Hrun.
    assert (exists a, (match o with
                       | Py_Array a0 => Some a0 = a
                       | _ => True
                       end)
                      /\ exists a' d rest_operands rest_dtypes,
                          a = Some a' /\ PyArray_DescrFromType t = Some d
                          /\ operands = a' :: rest_operands
                          /\ dtypes = d :: rest_dtypes
                          /\ convert_inputs (tl sig) out args
                               (nob0 || match out with
                                        | Some out_array =>
                                          arr_data out_array =? arr_data a'
                                        | None => false
                                        end) w1
                             = inr (rest_operands, rest_dtypes, nob))
      as (a & Ho & a' & d & ops & dts & -> & Hd & -> & -> & Hrest).
    { destruct o as [a0| |c].
      - exists (Some a0). split; [reflexivity|]. apply Hconv, Hrun.
      - destruct (t =? -1); [discriminate|].
        exists None. split; [exact I|]. apply Hconv, Hrun.
      - destruct (t =? -1); [discriminate|].
        exists c. split; [exact I|]. apply Hconv, Hrun. }
    apply IH in Hrest as (Hlen1 & Hlen2 & Harr & Hdt & Hnob).
    split; [cbn; lia|]. split; [cbn; lia|]. split.
    { intros [|i] a0; cbn [nth_error].
      - intros [= ->]. symmetry. exact Ho.
      - apply Harr. }
    split.
    { intros [|i] d0; cbn [nth_error nth].
      - intros [= <-]. destruct sig; exact Hd.
      - intros Hi. specialize (Hdt i d0 Hi).
        destruct sig as [|c sig]; [|exact Hdt].
        cbn [tl] in Hdt. destruct i; exact Hdt. }
    rewrite Hnob. destruct out as [o'|]; cbn [existsb].
    + rewrite orb_assoc. reflexivity.
    + rewrite !orb_false_r. reflexivity.
Qed.

End Inputs.

Section InputsExample.

Lemma convert_inputs_result_witness :
  List.length [sample_array [10]]
  = List.length [Py_Array (sample_array [10])]
  /\ List.length [{| type_num := 12; elsize := 8 |}]
     = List.length [Py_Array (sample_array [10])]
  /\ (forall i a,
         nth_error [Py_Array (sample_array [10])] i = Some (Py_Array a) ->
         nth_error [sample_array [10]] i = Some a)
  /\ (forall i d,
         nth_error [{| type_num := 12; elsize := 8 |}] i = Some d ->
         PyArray_DescrFromType (typecode_from_char (nth i [Td] 0)) = Some d)
  /\ true = false
            || match Some (sample_array [3; 4]) with
               | Some o =>
                 existsb (fun a => arr_data o =? arr_data a)
                         [sample_array [10]]
               | None => false
               end.
Proof.
  apply (convert_inputs_result [Py_Array (sample_array [10])] [Td]
           (Some (sample_array [3; 4])) false true sample_world).
  reflexivity.
Defined.

End InputsExample.

(** ** The axes of a reduction *)

Section ReductionAxes.

Lemma flat_map_ext_pointwise {A B : Type} (f g : A -> list B) (l : list A) :
  (forall x, In x l -> f x = g x) -> flat_map f l = flat_map g l.
Proof.
  induction l as [|x l IH]; intros H; [reflexivity|].
  cbn [flat_map]. rewrite (H x (or_introl eq_refl)), IH; [reflexivity|].
  intros y Hy. apply H. right. exact Hy.
Qed.

Lemma filter_flat_map {A B : Type} (p : B -> bool) (f : A -> list B)
  (l : list A) :
  List.filter p (flat_map f l) = flat_map (fun x => List.filter p (f x)) l.
Proof.
  induction l as [|x l IH]; [reflexivity|].
  cbn [flat_map]. rewrite List.filter_app, IH. reflexivity.
Qed.

Lemma flat_map_map {A B C : Type} (f : B -> list C) (g : A -> B)
  (l : list A) :
  flat_map f (map g l) = flat_map (fun x => f (g x)) l.
Proof.
  induction l as [|x l IH]; [reflexivity|].
  cbn [map flat_map]. rewrite IH. reflexivity.
Qed.

Lemma flat_map_nil_all {A B : Type} (f : A -> list B) (l : list A) :
  (forall x, In x l -> f x = []) -> flat_map f l = [].
Proof.
  induction l as [|x l IH]; intros H; [reflexivity|].
  cbn [flat_map]. rewrite (H x (or_introl eq_refl)), IH; [reflexivity|].
  intros y Hy. apply H. right. exact Hy.
Qed.

Lemma flat_map_singletons {A B : Type} (f : A -> list B) (g : A -> B)
  (l : list A) :
  (forall x, In x l -> f x = [g x]) -> flat_map f l = map g l.
Proof.
  induction l as [|x l IH]; intros H; [reflexivity|].
  cbn [flat_map map]. rewrite (H x (or_introl eq_refl)), IH; [reflexivity|].
  intros y Hy. apply H. right. exact Hy.
Qed.

Lemma map_seq_shift (d : Z) (dn m : nat) :
  d = Z.of_nat dn ->
  map (fun i => Z.of_nat i - d) (seq dn m) = map Z.of_nat (seq 0 m).
Proof.
  intros ->. rewrite <- (Nat.add_0_r dn) at 1.
  generalize 0%nat as s. induction m as [|m IH]; intros s; [reflexivity|].
  cbn [seq map]. f_equal; [lia|].
  rewrite <- IH. f_equal. f_equal. lia.
Qed.

(** X17.  For a reduction along [reduction_axis] over [oa_ndim]
    broadcast dimensions, the [op_axes] row of an input has one entry
    for each dimension but the reduced one; each entry is -1 or an axis
    of the input; and the axes entered are all the axes of the input
    but the one [op_axes_reduction_values] names, in increasing
    order. *)
Theorem input_op_axes_row (oa_ndim reduction_axis : Z) (a : PyArrayObject) :
  0 <= reduction_axis < oa_ndim -> PyArray_NDIM a <= oa_ndim ->
  let row := input_op_axes oa_ndim reduction_axis a in
  Z.of_nat (List.length row) = oa_ndim - 1
  /\ Forall (fun v => -1 <= v < PyArray_NDIM a) row
  /\ List.filter (fun v => 0 <=? v) row
     = List.filter
         (fun v => negb (v =? input_reduction_axis oa_ndim reduction_axis a))
         (map Z.of_nat (seq 0 (List.length (arr_dims a)))).
Proof.
  intros Hra Hndim. unfold input_op_axes, input_reduction_axis.
  set (ndim := PyArray_NDIM a) in *.
  set (d := oa_ndim - ndim).
  assert (Hnd : 0 <= ndim) by (unfold ndim, PyArray_NDIM; lia).
  set (g := fun idim : Z => if idim <? d then -1 else idim - d).
  set (n := Z.to_nat oa_ndim). set (r := Z.to_nat reduction_axis).
  cbv zeta. rewrite flat_map_map.
  assert (Hseq : seq 0 n = seq 0 r ++ r :: seq (S r) (n - S r)).
  { transitivity (seq 0 (r + S (n - S r))); [f_equal; lia|].
    rewrite seq_app. reflexivity. }
  split; [|split].
  - rewrite Hseq, flat_map_app. cbn [flat_map].
    replace (Z.of_nat r =? reduction_axis) with true by lia. cbn [app].
    rewrite (flat_map_singletons _ (fun i => g (Z.of_nat i)) (seq 0 r)).
    2:{ intros i Hi. apply in_seq in Hi.
        replace (Z.of_nat i =? reduction_axis) with false by lia.
        reflexivity. }
    rewrite (flat_map_singletons _ (fun i => g (Z.of_nat i))
               (seq (S r) (n - S r))).
    2:{ intros i Hi. apply in_seq in Hi.
        replace (Z.of_nat i =? reduction_axis) with false by lia.
        reflexivity. }
    rewrite length_app, !length_map, !length_seq. lia.
  - apply List.Forall_forall. intros v Hv.
    apply in_flat_map in Hv as (i & Hi & Hv). apply in_seq in Hi.
    destruct (Z.of_nat i =? reduction_axis); [destruct Hv|].
    destruct Hv as [<-|[]].
    destruct (Z.ltb_spec (Z.of_nat i) d); lia.
  - rewrite filter_flat_map.
    rewrite (flat_map_ext_pointwise _
               (fun i =>
                  List.filter
                    (fun v => negb (v =? (if reduction_axis <? d then -1
                                          else reduction_axis - d)))
                    (if Z.of_nat i <? d then [] else [Z.of_nat i - d]))).
    2:{ intros i _.
        destruct (Z.eqb_spec (Z.of_nat i) reduction_axis) as [E|E],
          (Z.ltb_spec (Z.of_nat i) d), (Z.ltb_spec reduction_axis d);
          cbn [List.filter]; try lia;
          repeat match goal with
                 | |- context [?x <=? ?y] => destruct (Z.leb_spec x y)
                 | |- context [?x =? ?y] => destruct (Z.eqb_spec x y)
                 end; cbn [negb]; try reflexivity; lia. }
    rewrite <- filter_flat_map. f_equal.
    replace n with (Z.to_nat d + List.length (arr_dims a))%nat
      by (unfold n, d, ndim, PyArray_NDIM in *; lia).
    rewrite seq_app, flat_map_app.
    rewrite flat_map_nil_all.
    2:{ intros i Hi. apply in_seq in Hi.
        destruct (Z.ltb_spec (Z.of_nat i) d); [reflexivity | lia]. }
    cbn [app Nat.add].
    rewrite (flat_map_singletons _ (fun i => Z.of_nat i - d)).
    2:{ intros i Hi. apply in_seq in Hi.
        destruct (Z.ltb_spec (Z.of_nat i) d); [lia | reflexivity]. }
    apply map_seq_shift. unfold d, ndim, PyArray_NDIM in *. lia.
Qed.

Lemma input_op_axes_row_witness :
  let row := input_op_axes 3 1 (sample_array [5; 7]) in
  Z.of_nat (List.length row) = 3 - 1
  /\ Forall (fun v => -1 <= v < PyArray_NDIM (sample_array [5; 7])) row
  /\ List.filter (fun v => 0 <=? v) row
     = List.filter
         (fun v => negb (v =? input_reduction_axis 3 1 (sample_array [5; 7])))
         (map Z.of_nat (seq 0 (List.length (arr_dims (sample_array [5; 7]))))).
Proof.
  apply (input_op_axes_row 3 1 (sample_array [5; 7])).
  - split; [discriminate | reflexivity].
  - discriminate.
Defined.

End ReductionAxes.

Section ReductionSize.
Context {hdr : Headers} {value : Type}.
Variable PyArray_allocate : list Z -> Z -> option Z.

Lemma reduction_size_fold (oa_ndim reduction_axis : Z)
  (operands : list PyArrayObject) (init : Z) :
  let step := fun reduction_size a =>
    let ndim := PyArray_NDIM a in
    if reduction_axis <? oa_ndim - ndim then reduction_size
    else
      let size :=
        nth (Z.to_nat (reduction_axis - (oa_ndim - ndim))) (arr_dims a) 0 in
      if size >? reduction_size then size else reduction_size in
  let result := fold_left step operands init in
  init <= result
  /\ (forall a, In a operands -> oa_ndim - PyArray_NDIM a <= reduction_axis ->
        nth (Z.to_nat (reduction_axis - (oa_ndim - PyArray_NDIM a)))
            (arr_dims a) 0 <= result)
  /\ (result = init
      \/ exists a, In a operands
                   /\ oa_ndim - PyArray_NDIM a <= reduction_axis
                   /\ nth (Z.to_nat
                             (reduction_axis - (oa_ndim - PyArray_NDIM a)))
                          (arr_dims a) 0 = result).
Proof.
  cbv zeta. revert init.
  induction operands as [|a operands IH]; intros init; cbn [fold_left].
  - split; [lia|]. split; [intros a []|left; reflexivity].
  - set (init' := if reduction_axis <? oa_ndim - PyArray_NDIM a then init
                  else _).
    destruct (IH init') as (Hle & Hall & Hmax).
    assert (Hinit : init <= init'
                    /\ (oa_ndim - PyArray_NDIM a <= reduction_axis ->
                        nth (Z.to_nat
                               (reduction_axis - (oa_ndim - PyArray_NDIM a)))
                            (arr_dims a) 0 <= init')
                    /\ (init' = init
                        \/ (oa_ndim - PyArray_NDIM a <= reduction_axis
                            /\ nth (Z.to_nat
                                      (reduction_axis
                                       - (oa_ndim - PyArray_NDIM a)))
                                   (arr_dims a) 0 = init'))).
    { unfold init'.
      destruct (Z.ltb_spec reduction_axis (oa_ndim - PyArray_NDIM a));
        [split; [lia|]; split; [lia | left; reflexivity]|].
      destruct (Z.gtb_spec
                  (nth (Z.to_nat (reduction_axis - (oa_ndim - PyArray_NDIM a)))
                       (arr_dims a) 0) init).
      - split; [lia|]. split; [lia|]. right. split; [lia | reflexivity].
      - split; [lia|]. split; [lia|]. left. reflexivity. }
    destruct Hinit as (H1 & H2 & H3).
    split; [lia|]. split.
    + intros b [<-|Hb] Hhas; [specialize (H2 Hhas); lia|].
      apply Hall; assumption.
    + destruct Hmax as [E|(b & Hb & Hhas & Hsize)].
      * destruct H3 as [E'|[Hhas Hsize]].
        -- left. congruence.
        -- right. exists a. split; [left; reflexivity|].
           split; [exact Hhas | congruence].
      * right. exists b. split; [right; exact Hb|]. split; assumption.
Qed.

(** X18.  [reduction_size] is the largest extent that an input has
    along the reduction axis, and 1 when no input has a larger one: it
    is at least 1, no input is longer along that axis, and unless it is
    1 some input has exactly that extent. *)
Theorem reduction_size_is_largest_extent (oa_ndim reduction_axis : Z)
  (operands : list PyArrayObject) :
  let extent := fun a =>
    nth (Z.to_nat (reduction_axis - (oa_ndim - PyArray_NDIM a)))
        (arr_dims a) 0 in
  let reduction_size := reduction_size_of oa_ndim reduction_axis operands in
  1 <= reduction_size
  /\ (forall a, In a operands -> oa_ndim - PyArray_NDIM a <= reduction_axis ->
                extent a <= reduction_size)
  /\ (reduction_size = 1
      \/ exists a, In a operands
                   /\ oa_ndim - PyArray_NDIM a <= reduction_axis
                   /\ extent a = reduction_size).
Proof.
  exact (reduction_size_fold oa_ndim reduction_axis operands 1).
Qed.

Lemma fold_max_ndim_le (operands : list PyArrayObject) (init bound : Z) :
  init <= bound ->
  Forall (fun a => PyArray_NDIM a <= bound) operands ->
  fold_left (fun m a => Z.max m (PyArray_NDIM a)) operands init <= bound.
Proof.
  intros Hinit Hall. revert init Hinit.
  induction Hall as [|a operands Ha _ IH]; intros init Hinit;
    cbn [fold_left]; [exact Hinit|].
  apply IH. lia.
Qed.

(** X19.  A reduction along an axis other than 255 that is negative, or
    that no input has (every input has at most that many dimensions),
    is refused with the error "reduction axis is out of bounds" before
    anything is allocated. *)
Theorem reduction_axis_out_of_bounds (self : NumExprObject value)
  (operands0 : option PyArrayObject) (operands : list PyArrayObject)
  (w : world) (reduction_axis : Z) :
  get_reduction_axis (program self) = Some reduction_axis ->
  reduction_axis <> 255 ->
  reduction_axis < 0
  \/ Forall (fun a => PyArray_NDIM a <= reduction_axis) operands ->
  reduction_setup PyArray_allocate self operands0 operands w
  = inl (set_err (PyErr_Format ValueError
                    "reduction axis is out of bounds" []) w).
Proof.
  intros Haxis H255 Hout. unfold reduction_setup. rewrite Haxis.
  destruct (Z.eqb_spec reduction_axis 255); [contradiction|].
  cbn [negb].
  replace ((reduction_axis <? 0)
           || (reduction_axis
               >=? fold_left (fun m a => Z.max m (PyArray_NDIM a))
                     operands 0))
    with true; [reflexivity|].
  symmetry. apply orb_true_iff.
  destruct (Z.ltb_spec reduction_axis 0); [left; reflexivity|].
  right. destruct Hout as [Hneg|Hall]; [lia|].
  pose proof (fold_max_ndim_le operands 0 reduction_axis ltac:(lia) Hall).
  lia.
Qed.

End ReductionSize.

Section ReductionSizeExample.
Local Existing Instance sample_headers.

Lemma reduction_axis_out_of_bounds_witness :
  reduction_setup sample_allocate (sample_object [11; 0; 1; 2]) None
    [sample_array [5; 7]] sample_world
  = inl (set_err (PyErr_Format ValueError
                    "reduction axis is out of bounds" []) sample_world).
Proof.
  apply (reduction_axis_out_of_bounds sample_allocate
           (sample_object [11; 0; 1; 2]) None [sample_array [5; 7]]
           sample_world 2).
  - reflexivity.
  - discriminate.
  - right. constructor; [discriminate | constructor].
Defined.

End ReductionSizeExample.

(** ** The errors a call can end with *)

Section ErrorKinds.
Context {hdr : Headers} {value : Type}.
Variable exec_op : Z -> Z -> Z -> Z -> list value -> value.
Variable exec_reduce :
  Z -> Z -> Z -> bool -> list (list value) -> list (list value).
Variable of_long : Z -> value.
Variable NpyIter_ResetBasePointers :
  NpyIter value -> list value -> Z * option string * NpyIter value.
Variable PyArray_allocate : list Z -> Z -> option Z.
Variable PyArray_FromArray : PyArrayObject -> Z -> option PyArrayObject.
Variable PyArray_item : PyArrayObject -> value.
Variable NpyIter_AdvancedNew : iter_request -> option (NpyIter value).

Lemma no_pc_report_set_same (w w' : world) :
  err w' = err w -> no_pc_report_set w w'.
Proof. intros E e fmt pc args. rewrite E. auto. Qed.

Lemma no_pc_report_set_trans (w w1 w2 : world) :
  no_pc_report_set w w1 -> no_pc_report_set w1 w2 ->
  no_pc_report_set w w2.
Proof. intros H1 H2 e fmt pc args H. apply H1, H2, H. Qed.

Ltac settle_error :=
  first [ apply no_pc_report_set_same; reflexivity
        | intros ? ? ? ? ?; discriminate ].

Ltac crush_error :=
  repeat (cbv beta iota zeta;
          match goal with
          | |- context [if ?b then _ else _] => destruct b
          | |- context [match ?x with _ => _ end] =>
            lazymatch x with
            | context [match _ with _ => _ end] => fail
            | _ => destruct x
            end
          end);
  settle_error.

Lemma typecode_from_char_err_error (c : Z) (w : world) :
  no_pc_report_set w (snd (typecode_from_char_err c w)).
Proof.
  unfold typecode_from_char_err. cbn [snd].
  destruct (typecode_from_char c =? -1); settle_error.
Qed.

Lemma parse_kwds_error (kwds : option kwargs) (w w1 : world) :
  parse_kwds kwds w = inl w1 -> no_pc_report_set w w1.
Proof.
  unfold parse_kwds.
  repeat match goal with
         | |- context [match ?x with _ => _ end] => destruct x
         end; intros [= <-]; settle_error.
Qed.

Lemma convert_inputs_error (sig : PyString) (out : option PyArrayObject)
  (args : list PyObject) (nob : bool) (w w1 : world) :
  convert_inputs sig out args nob w = inl w1 -> no_pc_report_set w w1.
Proof.
  revert sig nob w. induction args as [|o args IH]; intros sig nob w;
    cbn [convert_inputs]; [discriminate|].
  pose proof (typecode_from_char_err_error (hd 0 sig) w) as Ht.
  destruct (typecode_from_char_err (hd 0 sig) w) as [t w0]. cbn [snd] in Ht.
  destruct o as [a| |c];
    repeat match goal with
           | |- context [if ?b then _ else _] => destruct b
           | |- context [PyArray_DescrFromType ?t] =>
             destruct (PyArray_DescrFromType t)
           | |- context [match ?x with Some _ => _ | None => _ end] => destruct x
           end;
    try (intros [= <-]; first [exact Ht | intros ? ? ? ? ?; discriminate]);
    try (destruct (convert_inputs _ _ _ _ _) as [w2|[[? ?] ?]] eqn:E;
         [ intros [= <-];
           exact (no_pc_report_set_trans _ _ _ Ht (IH _ _ _ E))
         | discriminate ]).
Qed.

Lemma reduction_setup_error (self : NumExprObject value)
  (operands0 : option PyArrayObject) (operands : list PyArrayObject)
  (w : world) :
  match reduction_setup PyArray_allocate self operands0 operands w with
  | inl w1 => no_pc_report_set w w1
  | inr (_, w1) => no_pc_report_set w w1
  end.
Proof. unfold reduction_setup, typecode_from_char_err. crush_error. Qed.

Lemma plain_setup_error (self : NumExprObject value)
  (operands0 : option PyArrayObject) (operands : list PyArrayObject)
  (w : world) :
  match plain_setup self operands0 operands w with
  | inl w1 => no_pc_report_set w w1
  | inr (_, w1) => no_pc_report_set w w1
  end.
Proof. unfold plain_setup, typecode_from_char_err. crush_error. Qed.

Lemma allocate_iterators_error (order casting : Z)
  (operands : list PyArrayObject) (dtypes : list PyArray_Descr)
  (os : output_setup) (w : world) :
  match allocate_iterators NpyIter_AdvancedNew order casting operands dtypes
          os w with
  | inl (_, w1) => no_pc_report_set w w1
  | inr (_, _, _, w1) => no_pc_report_set w w1
  end.
Proof.
  unfold allocate_iterators.
  repeat match goal with
         | |- context [if ?b then _ else _] => destruct b
         | |- context [match NpyIter_AdvancedNew ?r with _ => _ end] =>
           destruct (NpyIter_AdvancedNew r)
         end; settle_error.
Qed.

Lemma nested_loop_error
  (engine : NpyIter value -> vm_params value -> Z
            -> Z * Z * option string * NpyIter value)
  (call : engine_call) (params : vm_params value) (more : list (list value)) :
  forall (inner : NpyIter value) (dataptr : list value) (pc_error : Z)
         (w : world),
    err (snd (nested_loop NpyIter_ResetBasePointers engine call params
                inner dataptr more pc_error w)) = err w.
Proof.
  induction more as [|d more IH]; intros inner dataptr pc_error w;
    cbn [nested_loop];
    destruct (NpyIter_ResetBasePointers inner dataptr) as [[r errmsg] inner1];
    destruct (r >=? 0);
    try destruct (engine inner1 params pc_error) as [[[r' pe'] msg'] inner'];
    repeat match goal with
           | |- context [if ?b then _ else _] => destruct b
           end;
    cbn [snd]; try rewrite IH; reflexivity.
Qed.

(** The only errors [run_interpreter] sets are messages set with
    [PyErr_SetString]. *)
Lemma run_interpreter_error (gs : global_state) (oc : alloc_outcomes)
  (sched : list (nat * nat)) (self : NumExprObject value) (iter : NpyIter value)
  (reduce_iter : option (NpyIter value)) (rol nob : bool) (w : world) :
  no_pc_report_set w
    (snd (run_interpreter exec_op exec_reduce NpyIter_ResetBasePointers
            gs oc sched self iter reduce_iter rol nob w)).
Proof.
  unfold run_interpreter.
  destruct ((nthreads gs =? 1) || force_serial gs).
  - destruct reduce_iter as [reduce_it|].
    + destruct rol.
      * destruct (it_iternext_errmsg reduce_it); [cbn; settle_error|].
        pose proof (nested_loop_error
                      (vm_engine_iter_outer_reduce_task exec_op exec_reduce)
                      ran_outer_reduce_task (params_of self)
                      (tl (NpyIter_positions reduce_it)) iter
                      (hd [] (NpyIter_positions reduce_it)) (-1) w) as L.
        destruct (nested_loop _ _ _ _ _ _ _ _ _) as [[[[r pe] msg] it1] w1].
        cbn [snd] in L |- *.
        destruct msg; [destruct (r <? 0)|]; first
          [ apply no_pc_report_set_same; exact L
          | intros ? ? ? ? ?; discriminate ].
      * destruct (it_iternext_errmsg iter); [cbn; settle_error|].
        pose proof (nested_loop_error
                      (vm_engine_iter_task exec_op exec_reduce)
                      ran_iter_task (params_of self)
                      (tl (NpyIter_positions iter)) reduce_it
                      (hd [] (NpyIter_positions iter)) (-1) w) as L.
        destruct (nested_loop _ _ _ _ _ _ _ _ _) as [[[[r pe] msg] it1] w1].
        cbn [snd] in L |- *.
        destruct msg; [destruct (r <? 0)|]; first
          [ apply no_pc_report_set_same; exact L
          | intros ? ? ? ? ?; discriminate ].
    + destruct (negb (it_reset_ok iter)); [cbn; settle_error|].
      destruct (vm_engine_iter_task _ _ _ _ _) as [[[r pe] msg] it1].
      cbn [snd]. destruct msg; [destruct (r <? 0)|]; settle_error.
  - destruct reduce_iter as [reduce_it|].
    + cbn. settle_error.
    + destruct (vm_engine_iter_parallel _ _ _ _ _ _ _ _ _ _ _ _ _)
        as [[[[r pe] msg] it1] hp1].
      cbn [snd]. destruct msg; [destruct (r <? 0)|]; settle_error.
Qed.

Lemma report_status_error (pc_error : Z) (w : world) :
  no_pc_report_set w (report_status (-1) pc_error w).
Proof.
  unfold report_status. cbn [Z.eqb].
  destruct (err w) eqn:E; [apply no_pc_report_set_same; reflexivity|].
  intros ? ? ? ? ?; discriminate.
Qed.

Lemma evaluate_with_iterators_error (gs : global_state)
  (oc : alloc_outcomes) (sched : list (nat * nat)) (self : NumExprObject value)
  (is_reduction : bool) (order casting : Z) (operands : list PyArrayObject)
  (dtypes : list PyArray_Descr) (nob : bool) (os : output_setup)
  (w : world) :
  no_pc_report_set w
    (world_after
       (evaluate_with_iterators exec_op exec_reduce of_long
          NpyIter_ResetBasePointers NpyIter_AdvancedNew gs oc sched
          self is_reduction order casting operands dtypes nob os w)).
Proof.
  unfold evaluate_with_iterators.
  pose proof (allocate_iterators_error order casting operands dtypes os w)
    as Ha.
  destruct (allocate_iterators _ _ _ _ _ _ _)
    as [[[iter0|] w1]|[[[iter reduce_iter] rol] w1]].
  - cbn. intros e fmt pc args H. apply Ha, H.
  - cbn. exact Ha.
  - destruct (initialize_output of_long is_reduction self iter reduce_iter)
      as [iter1 reduce_iter1] eqn:Einit.
    match goal with
    | |- context [run_interpreter ?eo ?er ?rb ?g ?o ?s ?sf ?i ?ri ?b1 ?b2 ?w0] =>
      pose proof (run_interpreter_error g o s sf i ri b1 b2 w0) as Hr;
      pose proof (run_interpreter_returns eo er rb g o s sf i ri b1 b2 w0)
        as Hret;
      destruct (run_interpreter eo er rb g o s sf i ri b1 b2 w0)
        as [[[[r pe] iter2] reduce_iter2] w2]
    end.
    cbn [snd] in Hr. cbn [conclude_run].
    apply (no_pc_report_set_trans _ _ _ Ha).
    apply (no_pc_report_set_trans _ _ _ Hr).
    destruct Hret as [-> | ->]; cbn [Z.ltb Z.compare world_after failed].
    + destruct reduce_iter2; apply no_pc_report_set_same; reflexivity.
    + pose proof (report_status_error pe w2) as Hs.
      destruct reduce_iter2; intros e fmt pc args H; apply Hs; exact H.
Qed.

Lemma evaluate_constant_error (gs : global_state)
  (self : NumExprObject value) (os : output_setup) (w : world) :
  no_pc_report_set w
    (world_after
       (evaluate_constant exec_op exec_reduce PyArray_allocate
          PyArray_FromArray PyArray_item gs self os w)).
Proof.
  unfold evaluate_constant, run_interpreter_const, typecode_from_char_err.
  repeat (cbv beta iota zeta;
          match goal with
          | |- context [if ?b then _ else _] => destruct b
          | |- context [match ?x with _ => _ end] =>
            lazymatch x with
            | context [match _ with _ => _ end] => fail
            | _ => destruct x
            end
          end);
    cbn [world_after failed]; settle_error.
Qed.

Lemma NumExpr_run_error (gs : global_state)
  (oc : alloc_outcomes) (sched : list (nat * nat)) (self : NumExprObject value)
  (args : list PyObject) (kwds : option kwargs) (w : world) :
  no_pc_report_set w
    (world_after
       (NumExpr_run exec_op exec_reduce of_long NpyIter_ResetBasePointers
          PyArray_allocate PyArray_FromArray PyArray_item
          NpyIter_AdvancedNew gs oc sched self args kwds w)).
Proof.
  unfold NumExpr_run.
  destruct (negb _); [cbn; settle_error|].
  destruct (_ >? NPY_MAXARGS); [cbn; settle_error|].
  destruct (parse_kwds kwds w) as [w1|[[[casting order] vml] operands0]]
    eqn:Ek.
  { cbn. exact (parse_kwds_error _ _ _ Ek). }
  destruct (convert_inputs _ _ _ _ _) as [w1|[[operands dtypes] nob]] eqn:Ec.
  { cbn. exact (convert_inputs_error _ _ _ _ _ _ Ec). }
  set (is_reduction :=
         match last_opcode (program self) with Some op => op | None => 0 end
         >? OP_REDUCTION).
  assert (match (if is_reduction
                 then reduction_setup PyArray_allocate
                 else plain_setup) self operands0 operands w with
          | inl w1 => no_pc_report_set w w1
          | inr (_, w1) => no_pc_report_set w w1
          end) as Hs.
  { destruct is_reduction;
      [apply reduction_setup_error | apply plain_setup_error]. }
  destruct ((if is_reduction then _ else _) self operands0 operands w)
    as [w1|[os w1]].
  { cbn. exact Hs. }
  apply (no_pc_report_set_trans _ _ _ Hs).
  destruct (first_empty operands).
  { pose proof (typecode_from_char_err_error
                  (get_return_sig (program self)) w1) as Ht.
    destruct (typecode_from_char_err _ w1) as [t w2]. cbn [snd] in Ht.
    destruct (PyArray_SimpleNew _ _ _); cbn [world_after failed]; [exact Ht|].
    intros ? ? ? ? ?; discriminate. }
  destruct (_ =? 0).
  { apply evaluate_constant_error. }
  apply evaluate_with_iterators_error.
Qed.

(** X20.  A call of [NumExpr_run] entered with no error pending never
    ends with an error that formats a program counter: the reports "bad
    argument at pc=%d" and "bad opcode at pc=%d", the only calls of
    [PyErr_Format] in it with an argument after the format, are never
    made, whatever the program, the arguments, the threads and the
    services do. *)
Theorem NumExpr_run_never_reports_pc (gs : global_state)
  (oc : alloc_outcomes) (sched : list (nat * nat)) (self : NumExprObject value)
  (args : list PyObject) (kwds : option kwargs) (w : world) :
  err w = None ->
  forall (e : exception) (fmt : string) (pc : Z) (more : list Z),
    err (world_after
           (NumExpr_run exec_op exec_reduce of_long NpyIter_ResetBasePointers
              PyArray_allocate PyArray_FromArray PyArray_item
              NpyIter_AdvancedNew gs oc sched self args kwds w))
    <> Some (PyErr_Format e fmt (pc :: more)).
Proof.
  intros Hw e fmt pc more H.
  apply (NumExpr_run_error gs oc sched self args kwds w) in H.
  congruence.
Qed.

End ErrorKinds.

Section ErrorKindsExample.
Local Existing Instance sample_headers.

Lemma NumExpr_run_never_reports_pc_witness :
  err sample_world = None
  /\ forall (e : exception) (fmt : string) (pc : Z) (more : list Z),
      err (world_after
             (sample_run (sample_gs 1) [] [2; 0; 7; 1]
                [Py_Array (sample_array [10])]))
      <> Some (PyErr_Format e fmt (pc :: more)).
Proof.
  split; [reflexivity|].
  apply (NumExpr_run_never_reports_pc (hdr := sample_headers)
           sample_exec_op sample_exec_reduce sample_of_long
           sample_ResetBasePointers sample_allocate sample_FromArray
           sample_item sample_AdvancedNew (sample_gs 1) all_succeed []
           (sample_object [2; 0; 7; 1]) [Py_Array (sample_array [10])] None
           sample_world).
  reflexivity.
Defined.

End ErrorKindsExample.

(** ** The iterators of a call *)

Section Resources.
Context {hdr : Headers} {value : Type}.
Variable exec_op : Z -> Z -> Z -> Z -> list value -> value.
Variable exec_reduce :
  Z -> Z -> Z -> bool -> list (list value) -> list (list value).
Variable of_long : Z -> value.
Variable NpyIter_ResetBasePointers :
  NpyIter value -> list value -> Z * option string * NpyIter value.
Variable PyArray_allocate : list Z -> Z -> option Z.
Variable PyArray_FromArray : PyArrayObject -> Z -> option PyArrayObject.
Variable PyArray_item : PyArrayObject -> value.
Variable NpyIter_AdvancedNew : iter_request -> option (NpyIter value).

(** Re-pointing an iterator gives the same iterator. *)
Hypothesis ResetBasePointers_same_iterator :
  forall iter dataptr,
    it_address (snd (NpyIter_ResetBasePointers iter dataptr))
    = it_address iter.

Lemma engine_on_iter_address (params : vm_params value)
  (inner_loop nob : bool) (iter : NpyIter value) (pc_error : Z) :
  it_address (snd (engine_on_iter exec_op exec_reduce params inner_loop nob
                     iter pc_error)) = it_address iter.
Proof.
  unfold engine_on_iter. destruct (it_iternext_errmsg iter); [reflexivity|].
  destruct (engine_loops _ _ _ _ _ _ _) as [[r pe] blocks']. reflexivity.
Qed.

Lemma nested_loop_resources
  (engine : NpyIter value -> vm_params value -> Z
            -> Z * Z * option string * NpyIter value)
  (call : engine_call) (params : vm_params value) (more : list (list value)) :
  (forall it p pc, it_address (snd (engine it p pc)) = it_address it) ->
  forall (inner : NpyIter value) (dataptr : list value) (pc_error : Z)
         (w : world),
    let '(_, _, _, inner', w') :=
      nested_loop NpyIter_ResetBasePointers engine call params inner dataptr
        more pc_error w in
    it_address inner' = it_address inner /\ allocations w' = allocations w.
Proof.
  intros Hengine.
  induction more as [|d more IH]; intros inner dataptr pc_error w;
    cbn [nested_loop];
    pose proof (ResetBasePointers_same_iterator inner dataptr) as Hreset;
    destruct (NpyIter_ResetBasePointers inner dataptr) as [[r errmsg] inner1];
    cbn [snd] in Hreset;
    destruct (r >=? 0);
    try (pose proof (Hengine inner1 params pc_error) as He;
         destruct (engine inner1 params pc_error)
           as [[[r' pe'] msg'] inner'];
         cbn [snd] in He);
    repeat match goal with
           | |- context [if ?b then _ else _] => destruct b
           end;
    try (split; [congruence | reflexivity]).
  - specialize (IH inner' d pe' (log_call call w)).
    destruct (nested_loop _ _ _ _ _ _ _ _ _) as [[[[r2 pe2] m2] in2] w2].
    destruct IH as [IH1 IH2]. split; [congruence | exact IH2].
  - specialize (IH inner1 d pc_error w).
    destruct (nested_loop _ _ _ _ _ _ _ _ _) as [[[[r2 pe2] m2] in2] w2].
    destruct IH as [IH1 IH2]. split; [congruence | exact IH2].
Qed.

Lemma vm_engine_iter_parallel_resources (gs : global_state)
  (oc : alloc_outcomes) (sched : list (nat * nat)) (iter_p memsteps_p : Z)
  (iter : NpyIter value) (params : vm_params value) (nob errmsg_null : bool)
  (pc_error : Z) (hp : heap) :
  let '(_, _, _, iter', hp') :=
    vm_engine_iter_parallel exec_op exec_reduce gs oc sched iter_p iter
      params memsteps_p nob pc_error errmsg_null hp in
  it_address iter' = it_address iter /\ live hp' ⊆ live hp.
Proof.
  unfold vm_engine_iter_parallel.
  destruct errmsg_null; [split; [reflexivity | set_solver]|].
  destruct (copy_iterators oc (additional_threads (nthreads gs)) [iter_p] hp)
    as [r1 hp1] eqn:E1.
  assert (Hslot0 : [iter_p] <> []) by discriminate.
  pose proof (copy_iterators_bound oc _ _ _ _ _ Hslot0 E1) as B1.
  destruct r1 as [th_iter|]; [|split; [reflexivity | set_solver]].
  destruct B1 as (copies & -> & Hlen1 & Hlive1 & _).
  destruct (copy_memsteps oc (additional_threads (nthreads gs))
              ([iter_p] ++ copies) [memsteps_p] hp1) as [r2 hp2] eqn:E2.
  assert (Hmslot0 : [memsteps_p] <> []) by discriminate.
  pose proof (copy_memsteps_bound oc _ _ _ _ _ _ Hmslot0 E2) as B2.
  destruct r2 as [th_memsteps|]; [|split; [reflexivity | set_solver]].
  destruct B2 as (mcopies & -> & Hlen2 & Hlive2 & _).
  pose proof (run_tasks_identity exec_op exec_reduce
                (with_out_buffer nob params) (it_start iter) (it_end iter)
                (Z.quot (it_end iter - it_start iter
                         + 16 * BLOCK_SIZE1 * nthreads gs - 1)
                        (16 * BLOCK_SIZE1 * nthreads gs) * BLOCK_SIZE1)
                ([memsteps_p] ++ mcopies) sched
                (thread_iterators iter ([iter_p] ++ copies)) (it_cells iter)
                pc_error) as Hid.
  destruct (run_tasks _ _ _ _ _ _ _ _ _ _ _)
    as [[[[ret pe] msg] iters1] cells1].
  cbn [fst snd] in Hid. split.
  - destruct iters1 as [|iter0 iters1]; [discriminate|].
    cbn [hd set_cells it_address].
    unfold thread_iterators in Hid. cbn [map] in Hid.
    assert (Hid0 : iterator_identity iter0 = iterator_identity iter)
      by congruence.
    unfold iterator_identity in Hid0. congruence.
  - change (skipn 1 ([iter_p] ++ copies)) with copies.
    change (skipn 1 ([memsteps_p] ++ mcopies)) with mcopies.
    rewrite (live_release_pairs copies mcopies) by congruence.
    rewrite Hlive2, Hlive1. set_solver.
Qed.

Lemma run_interpreter_resources (gs : global_state) (oc : alloc_outcomes)
  (sched : list (nat * nat)) (self : NumExprObject value) (iter : NpyIter value)
  (reduce_iter : option (NpyIter value)) (rol nob : bool) (w : world) :
  let '(_, _, iter', reduce_iter', w') :=
    run_interpreter exec_op exec_reduce NpyIter_ResetBasePointers gs oc sched
      self iter reduce_iter rol nob w in
  it_address iter' = it_address iter
  /\ option_map (@it_address value) reduce_iter'
     = option_map (@it_address value) reduce_iter
  /\ live (allocations w') ⊆ live (allocations w).
Proof.
  unfold run_interpreter.
  destruct ((nthreads gs =? 1) || force_serial gs).
  - destruct reduce_iter as [reduce_it|].
    + destruct rol.
      * destruct (it_iternext_errmsg reduce_it);
          [cbn; repeat split; set_solver|].
        pose proof (nested_loop_resources
                      (vm_engine_iter_outer_reduce_task exec_op exec_reduce)
                      ran_outer_reduce_task (params_of self)
                      (tl (NpyIter_positions reduce_it))
                      (fun it p pc => engine_on_iter_address p false true it pc)
                      iter (hd [] (NpyIter_positions reduce_it)) (-1) w) as L.
        destruct (nested_loop _ _ _ _ _ _ _ _ _) as [[[[r pe] msg] it1] w1].
        destruct L as [L1 L2].
        destruct msg; [destruct (r <? 0)|]; cbn [set_err allocations];
          rewrite ?L2; repeat split; try assumption; set_solver.
      * destruct (it_iternext_errmsg iter);
          [cbn; repeat split; set_solver|].
        pose proof (nested_loop_resources
                      (vm_engine_iter_task exec_op exec_reduce)
                      ran_iter_task (params_of self)
                      (tl (NpyIter_positions iter))
                      (fun it p pc => engine_on_iter_address p true false it pc)
                      reduce_it (hd [] (NpyIter_positions iter)) (-1) w) as L.
        destruct (nested_loop _ _ _ _ _ _ _ _ _) as [[[[r pe] msg] it1] w1].
        destruct L as [L1 L2].
        destruct msg; [destruct (r <? 0)|]; cbn [set_err allocations option_map];
          rewrite ?L2, ?L1; repeat split; set_solver.
    + destruct (negb (it_reset_ok iter)); [cbn; repeat split; set_solver|].
      pose proof (engine_on_iter_address
                    (with_out_buffer nob (params_of self)) true false iter
                    (-1)) as L.
      unfold vm_engine_iter_task.
      destruct (engine_on_iter _ _ _ _ _ _ _) as [[[r pe] msg] it1].
      cbn [snd] in L.
      destruct msg; [destruct (r <? 0)|];
        cbn [set_err log_call allocations]; repeat split;
        try assumption; set_solver.
  - destruct reduce_iter as [reduce_it|].
    + cbn. repeat split; set_solver.
    + pose proof (vm_engine_iter_parallel_resources gs oc sched
                    (it_address iter) (memsteps self) iter (params_of self)
                    nob false (-1) (allocations w)) as L.
      destruct (vm_engine_iter_parallel _ _ _ _ _ _ _ _ _ _ _ _ _)
        as [[[[r pe] msg] it1] hp1].
      destruct L as [L1 L2].
      destruct msg; [destruct (r <? 0)|];
        cbn [set_err log_call set_allocations allocations]; repeat split;
        try assumption; set_solver.
Qed.

Ltac crush_allocations :=
  repeat (cbv beta iota zeta;
          match goal with
          | |- context [if ?b then _ else _] => destruct b
          | |- context [match ?x with _ => _ end] =>
            lazymatch x with
            | context [match _ with _ => _ end] => fail
            | _ => destruct x
            end
          end);
  reflexivity.

Lemma typecode_from_char_err_allocations (c : Z) (w : world) :
  allocations (snd (typecode_from_char_err c w)) = allocations w.
Proof.
  unfold typecode_from_char_err. cbn [snd].
  destruct (typecode_from_char c =? -1); reflexivity.
Qed.

Lemma parse_kwds_allocations (kwds : option kwargs) (w w1 : world) :
  parse_kwds kwds w = inl w1 -> allocations w1 = allocations w.
Proof.
  unfold parse_kwds.
  repeat match goal with
         | |- context [match ?x with _ => _ end] => destruct x
         end; intros [= <-]; reflexivity.
Qed.

Lemma convert_inputs_allocations (sig : PyString)
  (out : option PyArrayObject) (args : list PyObject) (nob : bool)
  (w w1 : world) :
  convert_inputs sig out args nob w = inl w1 ->
  live (allocations w1) = live (allocations w).
Proof.
  revert sig nob w. induction args as [|o args IH]; intros sig nob w;
    cbn [convert_inputs]; [discriminate|].
  pose proof (typecode_from_char_err_allocations (hd 0 sig) w) as Ht.
  destruct (typecode_from_char_err (hd 0 sig) w) as [t w0]. cbn [snd] in Ht.
  destruct o as [a| |c];
    repeat match goal with
           | |- context [if ?b then _ else _] => destruct b
           | |- context [PyArray_DescrFromType ?t] =>
             destruct (PyArray_DescrFromType t)
           | |- context [match ?x with Some _ => _ | None => _ end] => destruct x
           end;
    try (intros [= <-]; cbn; congruence);
    try (destruct (convert_inputs _ _ _ _ _) as [w2|[[? ?] ?]] eqn:E;
         [ intros [= <-]; rewrite (IH _ _ _ E); congruence | discriminate ]).
Qed.

Lemma reduction_setup_allocations (self : NumExprObject value)
  (operands0 : option PyArrayObject) (operands : list PyArrayObject)
  (w : world) :
  match reduction_setup PyArray_allocate self operands0 operands w with
  | inl w1 => allocations w1 = allocations w
  | inr (_, w1) => allocations w1 = allocations w
  end.
Proof.
  unfold reduction_setup, typecode_from_char_err. crush_allocations.
Qed.

Lemma plain_setup_allocations (self : NumExprObject value)
  (operands0 : option PyArrayObject) (operands : list PyArrayObject)
  (w : world) :
  match plain_setup self operands0 operands w with
  | inl w1 => allocations w1 = allocations w
  | inr (_, w1) => allocations w1 = allocations w
  end.
Proof. unfold plain_setup, typecode_from_char_err. crush_allocations. Qed.

(** The iterators made are the new allocations. *)
Lemma allocate_iterators_allocations (order casting : Z)
  (operands : list PyArrayObject) (dtypes : list PyArray_Descr)
  (os : output_setup) (w : world) :
  match allocate_iterators NpyIter_AdvancedNew order casting operands dtypes
          os w with
  | inl (None, w1) => live (allocations w1) = live (allocations w)
  | inl (Some iter, w1) =>
    live (allocations w1) = live (allocations w) ∪ {[ it_address iter ]}
  | inr (iter, None, _, w1) =>
    live (allocations w1) = live (allocations w) ∪ {[ it_address iter ]}
  | inr (iter, Some reduce_iter, _, w1) =>
    live (allocations w1)
    = live (allocations w) ∪ {[ it_address iter ]}
      ∪ {[ it_address reduce_iter ]}
  end.
Proof.
  unfold allocate_iterators.
  repeat match goal with
         | |- context [if ?b then _ else _] => destruct b
         | |- context [match NpyIter_AdvancedNew ?r with _ => _ end] =>
           destruct (NpyIter_AdvancedNew r)
         end; reflexivity.
Qed.

Lemma initialize_output_address (is_reduction : bool)
  (self : NumExprObject value) (iter : NpyIter value)
  (reduce_iter : option (NpyIter value)) :
  it_address (fst (initialize_output of_long is_reduction self iter
                     reduce_iter)) = it_address iter
  /\ option_map (@it_address value)
       (snd (initialize_output of_long is_reduction self iter reduce_iter))
     = option_map (@it_address value) reduce_iter.
Proof.
  unfold initialize_output. destruct is_reduction; [|split; reflexivity].
  destruct reduce_iter; split; reflexivity.
Qed.

Lemma evaluate_with_iterators_allocations (gs : global_state)
  (oc : alloc_outcomes) (sched : list (nat * nat)) (self : NumExprObject value)
  (is_reduction : bool) (order casting : Z) (operands : list PyArrayObject)
  (dtypes : list PyArray_Descr) (nob : bool) (os : output_setup)
  (w : world) :
  live (allocations
          (world_after
             (evaluate_with_iterators exec_op exec_reduce of_long
                NpyIter_ResetBasePointers NpyIter_AdvancedNew gs oc sched
                self is_reduction order casting operands dtypes nob os w)))
  ⊆ live (allocations w).
Proof.
  unfold evaluate_with_iterators.
  pose proof (allocate_iterators_allocations order casting operands dtypes
                os w) as Ha.
  destruct (allocate_iterators _ _ _ _ _ _ _)
    as [[[iter0|] w1]|[[[iter reduce_iter] rol] w1]].
  - cbn [world_after failed iterator_deallocated set_allocations allocations
         NpyIter_Deallocate].
    rewrite live_release, Ha. set_solver.
  - cbn. rewrite Ha. set_solver.
  - pose proof (initialize_output_address is_reduction self iter reduce_iter)
      as [Hi1 Hi2].
    destruct (initialize_output of_long is_reduction self iter reduce_iter)
      as [iter1 reduce_iter1] eqn:Einit.
    cbn [fst snd] in Hi1, Hi2.
    match goal with
    | |- context [run_interpreter ?eo ?er ?rb ?g ?o ?s ?sf ?i ?ri ?b1 ?b2 ?w0] =>
      pose proof (run_interpreter_resources g o s sf i ri b1 b2 w0) as Hr;
      destruct (run_interpreter eo er rb g o s sf i ri b1 b2 w0)
        as [[[[r pe] iter2] reduce_iter2] w2]
    end.
    destruct Hr as (Hr1 & Hr2 & Hr3).
    rewrite Hi1 in Hr1. rewrite Hi2 in Hr2.
    cbn [conclude_run].
    destruct (r <? 0); cbn [world_after failed];
      destruct reduce_iter2 as [rit2|], reduce_iter as [rit|];
      try discriminate; try (injection Hr2 as Hr2);
      cbn [iterator_deallocated iterator_read set_allocations allocations
           NpyIter_Deallocate];
      rewrite ?live_release, ?live_access;
      repeat match goal with
             | |- context [allocations (report_status ?a ?b ?c)] =>
               replace (allocations (report_status a b c))
                 with (allocations c)
                 by (unfold report_status;
                     repeat match goal with
                            | |- context [if ?b then _ else _] => destruct b
                            | |- context [match ?x with _ => _ end] =>
                              destruct x
                            end; reflexivity)
             end;
      rewrite ?Hr1, ?Hr2; set_solver.
Qed.

Lemma evaluate_constant_allocations (gs : global_state)
  (self : NumExprObject value) (os : output_setup) (w : world) :
  allocations
    (world_after
       (evaluate_constant exec_op exec_reduce PyArray_allocate
          PyArray_FromArray PyArray_item gs self os w))
  = allocations w.
Proof.
  unfold evaluate_constant, run_interpreter_const, typecode_from_char_err.
  crush_allocations.
Qed.

(** X21.  On a call during which no invalid access is made,
    [NumExpr_run] deallocates every iterator it makes, on every way out,
    and leaves no per-thread copy behind: provided re-pointing an
    iterator gives the same iterator, the live allocations after the call
    are among those before it. *)
Theorem NumExpr_run_releases_iterators (gs : global_state)
  (oc : alloc_outcomes) (sched : list (nat * nat)) (self : NumExprObject value)
  (args : list PyObject) (kwds : option kwargs) (w : world) :
  let res :=
    NumExpr_run exec_op exec_reduce of_long NpyIter_ResetBasePointers
      PyArray_allocate PyArray_FromArray PyArray_item NpyIter_AdvancedNew
      gs oc sched self args kwds w in
  invalid (allocations (world_after res)) = invalid (allocations w) ->
  live (allocations (world_after res)) ⊆ live (allocations w).
Proof.
  intros res _. unfold res. clear res. unfold NumExpr_run.
  destruct (negb _); [cbn; set_solver|].
  destruct (_ >? NPY_MAXARGS); [cbn; set_solver|].
  destruct (parse_kwds kwds w) as [w1|[[[casting order] vml] operands0]]
    eqn:Ek.
  { cbn. rewrite (parse_kwds_allocations _ _ _ Ek). set_solver. }
  destruct (convert_inputs _ _ _ _ _) as [w1|[[operands dtypes] nob]] eqn:Ec.
  { cbn [world_after failed].
    rewrite (convert_inputs_allocations _ _ _ _ _ _ Ec). set_solver. }
  set (is_reduction :=
         match last_opcode (program self) with Some op => op | None => 0 end
         >? OP_REDUCTION).
  assert (match (if is_reduction
                 then reduction_setup PyArray_allocate
                 else plain_setup) self operands0 operands w with
          | inl w1 => allocations w1 = allocations w
          | inr (_, w1) => allocations w1 = allocations w
          end) as Hs.
  { destruct is_reduction;
      [apply reduction_setup_allocations | apply plain_setup_allocations]. }
  destruct ((if is_reduction then _ else _) self operands0 operands w)
    as [w1|[os w1]].
  { cbn. rewrite Hs. set_solver. }
  rewrite <- Hs.
  destruct (first_empty operands).
  { pose proof (typecode_from_char_err_allocations
                  (get_return_sig (program self)) w1) as Ht.
    destruct (typecode_from_char_err _ w1) as [t w2]. cbn [snd] in Ht.
    destruct (PyArray_SimpleNew _ _ _); cbn; rewrite Ht; set_solver. }
  destruct (_ =? 0).
  { rewrite evaluate_constant_allocations. set_solver. }
  apply evaluate_with_iterators_allocations.
Qed.

End Resources.

Section ResourcesExample.
Local Existing Instance sample_headers.

Lemma NumExpr_run_releases_iterators_witness :
  let res :=
    sample_run (sample_gs 2) [(1, 2); (0, 0); (1, 1)]%nat [2; 0; 1; 1]
      [Py_Array (sample_array [10])] in
  invalid (allocations (world_after res)) = invalid (allocations sample_world)
  /\ live (allocations (world_after res)) ⊆ live (allocations sample_world).
Proof.
  split; [reflexivity|].
  apply (NumExpr_run_releases_iterators (hdr := sample_headers)
           sample_exec_op sample_exec_reduce sample_of_long
           sample_ResetBasePointers sample_allocate sample_FromArray
           sample_item sample_AdvancedNew).
  - intros iter dataptr. reflexivity.
  - reflexivity.
Defined.

(** A call that does make invalid accesses: with two threads and the
    stride table of thread 1 failing to allocate, the parallel engine
    releases the caller's iterator (C2); [run_interpreter] returns 0 all
    the same, and [NumExpr_run] reads the output operand through that
    iterator and releases it a second time.  The call returns the output
    array with no error set. *)
Lemma memsteps_failure_reuses_released_iterator :
  let res :=
    NumExpr_run (hdr := sample_headers) sample_exec_op sample_exec_reduce
      sample_of_long sample_ResetBasePointers sample_allocate
      sample_FromArray sample_item sample_AdvancedNew (sample_gs 2)
      memsteps_fail [(1, 2); (0, 0); (1, 1)]%nat
      (sample_object [2; 0; 1; 1]) [Py_Array (sample_array [10])] None
      sample_world in
  invalid (allocations (world_after res)) = [12288; 12288]
  /\ ret res <> None
  /\ err (world_after res) = None.
Proof. vm_compute. repeat split. discriminate. Qed.

(** With "out" given, an input that cannot be converted is read through
    [NULL] before the conversion is found to have failed. *)
Lemma failed_conversion_reads_null :
  let res :=
    NumExpr_run (hdr := sample_headers) sample_exec_op sample_exec_reduce
      sample_of_long sample_ResetBasePointers sample_allocate
      sample_FromArray sample_item sample_AdvancedNew (sample_gs 1)
      all_succeed [] (sample_object [2; 0; 1; 1]) [Py_Other None]
      (Some {| kw_casting := None; kw_order := None;
               kw_ex_uses_vml := Some false;
               kw_out := Some (Py_Array (sample_array [10])) |})
      sample_world in
  invalid (allocations (world_after res)) = [NULL]
  /\ ret res = None.
Proof. vm_compute. repeat split. Qed.

End ResourcesExample.

(** ** Reading the end of an accepted program *)

Section AcceptedProgramReads.
Context {hdr : Headers} {value : Type}.

(** X22.  On a program that [check_program] accepts, [last_opcode] and
    [get_reduction_axis], which [NumExpr_run] calls without a check of
    their own, read inside the program exactly when it is not empty; on
    the empty program, which is accepted too, both read before its first
    byte. *)
Theorem accepted_program_end_reads (self : NumExprObject value) :
  check_program self = Passed ->
  (program self = [] ->
   last_opcode (program self) = None
   /\ get_reduction_axis (program self) = None)
  /\ (program self <> [] ->
      exists op axis_byte,
        byte_at (program self) (PyString_Size (program self) - 4) = Some op
        /\ byte_at (program self) (PyString_Size (program self) - 1)
           = Some axis_byte
        /\ last_opcode (program self) = Some op
        /\ get_reduction_axis (program self)
           = Some (if negb (axis_byte =? 255) && (axis_byte >=? MAX_DIMS)
                   then MAX_DIMS - axis_byte else axis_byte)).
Proof.
  intros Hpass.
  destruct (check_program_Passed self Hpass) as (Hmod & _ & _).
  split.
  - intros ->. split; reflexivity.
  - intros Hne.
    assert (Hlen : 4 <= PyString_Size (program self)).
    { unfold PyString_Size in *. destruct (program self); [congruence|].
      cbn [List.length] in *. revert Hmod. Z.div_mod_to_equations. lia. }
    destruct (byte_at_Some (program self) (PyString_Size (program self) - 4))
      as [op Hop]; [unfold PyString_Size in *; lia|].
    destruct (byte_at_Some (program self) (PyString_Size (program self) - 1))
      as [b Hb]; [unfold PyString_Size in *; lia|].
    exists op, b. split; [exact Hop|]. split; [exact Hb|].
    split; [exact Hop|]. unfold get_reduction_axis. rewrite Hb. reflexivity.
Qed.

End AcceptedProgramReads.

Section AcceptedProgramReadsExample.
Local Existing Instance sample_headers.

Lemma accepted_program_end_reads_witness :
  (program (sample_object [] : NumExprObject Z) = [] ->
   last_opcode (program (sample_object [] : NumExprObject Z)) = None
   /\ get_reduction_axis (program (sample_object [] : NumExprObject Z))
      = None)
  /\ (program (sample_object [] : NumExprObject Z) <> [] ->
      exists op axis_byte,
        byte_at (program (sample_object []))
          (PyString_Size (program (sample_object [])) - 4) = Some op
        /\ byte_at (program (sample_object []))
             (PyString_Size (program (sample_object [])) - 1)
           = Some axis_byte
        /\ last_opcode (program (sample_object [])) = Some op
        /\ get_reduction_axis (program (sample_object []))
           = Some (if negb (axis_byte =? 255) && (axis_byte >=? MAX_DIMS)
                   then MAX_DIMS - axis_byte else axis_byte)).
Proof.
  apply (accepted_program_end_reads (sample_object [])).
  reflexivity.
Defined.

End AcceptedProgramReadsExample.
